(** * aiassistkit: the agentkit adapter and the genagents command

    A shallow embedding of [agents/agentkit/adapter.go] and of the
    [genagents] command, and the properties of the conversion core
    checked against them.

    Conventions of the embedding.
    - A Go [string] and a Go [[]byte] are both a Rocq [string] (a sequence
      of 8-bit characters); a nil slice and an empty slice are both [[]].
    - A Go [map] is a [gmap].  A [for ... range m] loop visits the entries
      of [m] in an order the language leaves open, and that may change
      from one loop to the next: every such loop takes the order it
      follows as an argument (see [Go.rangeMap]).
    - A Go [error] value is a term of [error]; [nil] is [None].
    - A function with effects is a function on the [World]: the file
      system, the orders of the coming [range] loops, and the output.
    - Functions of Go's standard library ([strings], [path/filepath],
      [encoding/json], [os]) are the fields of the class [GoLib], so that
      every theorem holds for every implementation of them; [Ref] is one
      implementation, on which the program runs inside Rocq.
    - The package [agents/core] is outside the translated sources: its
      types and its registry are modelled from the specification, and
      what else the program uses of such packages is a field of the class
      [Deps]. *)

From stdpp Require Import base gmap sets list strings pretty.
From Stdlib Require Import Ascii ZArith QArith_base.

Close Scope Q_scope.
Open Scope string_scope.
Open Scope list_scope.
Open Scope stdpp_scope.

(** ** Pieces of the Go language *)

Module Go.

(** [os.FileMode], as the permission bits. *)
Definition FileMode := N.

(** The order of one [range] loop over a list of [n] entries is coded by
    a list of naturals: at each step the entry at position
    [c mod (entries left)] is visited next and removed.  Every code
    gives a permutation, and every permutation has a code. *)
Fixpoint pick {A} (n : nat) (code : list nat) (l : list A) : list A :=
  match n with
  | O => []
  | S n' =>
      let i := (hd 0 code mod length l)%nat in
      match l !! i with
      | Some x => x :: pick n' (tl code) (delete i l)
      | None => []
      end
  end.

Definition shuffle {A} (code : list nat) (l : list A) : list A :=
  pick (length l) code l.

(** [for k, v := range m]: the entries of [m], in the order of [code]. *)
Definition rangeMap {V} (code : list nat) (m : gmap string V) : list (string * V) :=
  shuffle code (map_to_list m).

(** [strings.Join]. *)
Fixpoint Join (elems : list string) (sep : string) : string :=
  match elems with
  | [] => EmptyString
  | [a] => a
  | a :: rest => a +:+ sep +:+ Join rest sep
  end.

(** [strings.Split(s, sep)] for a separator [sep] of one byte: the
    pieces of [s] between the occurrences of [sep], one more than there
    are occurrences. *)
Fixpoint Split1 (s : string) (sep : ascii) : list string :=
  match s with
  | EmptyString => [EmptyString]
  | String c rest =>
      if decide (c = sep) then EmptyString :: Split1 rest sep
      else match Split1 rest sep with
           | [] => [String c EmptyString]
           | p :: ps => String c p :: ps
           end
  end.

(** [strings.SplitN(s, sep, 2)] for a separator of one byte: [s] cut at
    the first occurrence of [sep], or [s] alone when there is none. *)
Fixpoint SplitN2 (s : string) (sep : ascii) : list string :=
  match s with
  | EmptyString => [EmptyString]
  | String c rest =>
      if decide (c = sep) then [EmptyString; rest]
      else match SplitN2 rest sep with
           | p :: ps => String c p :: ps
           | [] => [String c EmptyString]
           end
  end.

End Go.

(** ** Errors *)

(** Modelled from the spec: the error kinds of [agents/core], whose
    declarations are outside the translated sources.  [ParseError] and
    [MarshalError] carry the format name and the underlying cause,
    [ReadError] and [WriteError] the path and the underlying cause, as
    the adapter fills them.  The same type holds the other values of
    Go's [error] interface that the program builds or passes on. *)
Inductive error : Type :=
  | libError (msg : string)
      (** an error returned by the standard library or the system *)
  | Errorf (format : string) (args : list string)
      (** [fmt.Errorf(format, args...)], the arguments all strings *)
  | ErrorfW (format : string) (args : list string) (wrapped : error)
      (** [fmt.Errorf(format, args..., wrapped)]: the string arguments in
          order, then the error bound to the final [%w] *)
  | ParseError (Format : string) (Err : error)
  | MarshalError (Format : string) (Err : error)
  | ReadError (Path : string) (Err : error)
  | WriteError (Path : string) (Err : error).

(** ** Data *)

(** Modelled from the spec: [core.Agent], the canonical entity, whose
    declaration is outside the translated sources: the named scalar
    fields, the tools and the model identifier, which are the fields the
    adapter and the command read and write. *)
Module Agent.
Record t : Type := mk {
  Name : string;
  Description : string;
  Instructions : string;
  Tools : list string;
  Model : string
}.
End Agent.

Module AgentConfig.
Record t : Type := mk {
  Name : string;
  Description : string;
  Instructions : string;
  Tools : list string;
  Model : string;
  MaxTokens : Z
}.
End AgentConfig.

Module MCPConfig.
Record t : Type := mk {
  Enabled : bool;
  Transport : string;
  Port : Z;
  ServerName : string;
  ServerVersion : string
}.
End MCPConfig.

Module LLMConfig.
Record t : Type := mk {
  Provider : string;
  Model : string;
  APIKey : string;
  BaseURL : string;
  Temperature : Q
}.
End LLMConfig.

Module TimeoutConfig.
Record t : Type := mk {
  AgentInvoke : string;
  ShellCommand : string;
  FileRead : string;
  ParallelTotal : string
}.
End TimeoutConfig.

Module Config.
Record t : Type := mk {
  Mode : string;
  Workspace : string;
  Agents : list AgentConfig.t;
  MCP : MCPConfig.t;
  LLM : LLMConfig.t;
  Timeouts : TimeoutConfig.t
}.
End Config.

#[local] Set Warnings "-register-all".

(** A decoded JSON value held in an [interface{}]. *)
Inductive any : Type :=
  | anyNil
  | anyBool (b : bool)
  | anyNumber (q : Q)
  | anyString (s : string)
  | anyArray (l : list any)
  | anyObject (l : list (string * any)).

Module Target.
Record t : Type := mk {
  Name : string;
  Platform : string;
  Priority : string;
  Output : string;
  Config : gmap string any
}.
End Target.

Module Deployment.
Record t : Type := mk {
  Schema : string;
  Team : string;
  Targets : list Target.t
}.
End Deployment.

(** Modelled from the spec: [awsagentcore.AgentCoreConfig], whose
    declaration is outside the translated sources and of which the spec
    says nothing; it has the fields the command sets. *)
Module AgentCoreConfig.
Record t : Type := mk {
  StackName : string;
  Region : string;
  FoundationModel : string;
  LambdaRuntime : string
}.
End AgentCoreConfig.

(** ** The standard library, as the program uses it *)

Class GoLib : Type := {
  strings_ToLower : string → string;
  strings_ToUpper : string → string;
  strings_TrimSpace : string → string;
  filepath_Dir : string → string;
  filepath_Join : list string → string;
  (** [json.Unmarshal(data, &v)] into a zero value of the struct, and
      [json.MarshalIndent(v, "", "  ")]. *)
  json_Unmarshal_AgentConfig : string → error + AgentConfig.t;
  json_Unmarshal_Deployment : string → error + Deployment.t;
  json_MarshalIndent_AgentConfig : AgentConfig.t → error + string;
  json_MarshalIndent_Config : Config.t → error + string;
  (** The file system: its states, the three calls of package [os] the
      program makes, and two observations. *)
  FS : Type;
  os_MkdirAll : string → Go.FileMode → FS → option error * FS;
  os_WriteFile : string → string → Go.FileMode → FS → option error * FS;
  os_ReadFile : string → FS → error + string;
  (** [dirAt s p] is the mode the directory named [p] was created with,
      [fileAt s p] the mode the regular file named [p] was created with
      and its contents; a mode is the one the creating call asked for. *)
  dirAt : FS → string → option Go.FileMode;
  fileAt : FS → string → option (Go.FileMode * string);
  (** What the package documents of these calls: [MkdirAll] returns nil
      only if the directory exists afterwards, gives a directory it
      creates the mode it is passed, and never touches a regular file;
      [WriteFile] returns nil only if the file then holds the data, gives
      a file it creates the mode it is passed, and never touches a
      directory. *)
  MkdirAll_dir : ∀ d m s s',
    os_MkdirAll d m s = (None, s') → is_Some (dirAt s' d);
  MkdirAll_mode : ∀ d m s s',
    os_MkdirAll d m s = (None, s') → dirAt s d = None → dirAt s' d = Some m;
  MkdirAll_files : ∀ d m s r s' p,
    os_MkdirAll d m s = (r, s') → fileAt s' p = fileAt s p;
  WriteFile_data : ∀ p data m s s',
    os_WriteFile p data m s = (None, s') → snd <$> fileAt s' p = Some data;
  WriteFile_mode : ∀ p data m s s',
    os_WriteFile p data m s = (None, s') → fileAt s p = None →
    fileAt s' p = Some (m, data);
  WriteFile_dirs : ∀ p data m s r s' d,
    os_WriteFile p data m s = (r, s') → dirAt s' d = dirAt s d
}.

(** ** Output and the state of a run *)

(** An argument of a [fmt.Printf] or [fmt.Fprintf] call. *)
Inductive arg : Type :=
  | argString (s : string)
  | argInt (n : Z)
  | argError (e : error).

(** One call that writes to the terminal: the stream, the format string
    and the arguments as they are passed; [flag.Usage()] is [Usage]. *)
Inductive Output : Type :=
  | Stdout (format : string) (args : list arg)
  | Stderr (format : string) (args : list arg)
  | Usage.

(** What a run of the program reads and changes: the file system, the
    orders the coming [range] loops over maps will follow (one code per
    loop, in the order the loops run), and the output written so far. *)
Record World {L : GoLib} : Type := mkWorld {
  fs : FS;
  orders : list (list nat);
  output : list Output
}.

(** A computation with effects on the world. *)
Definition M {L : GoLib} (A : Type) : Type := World → A * World.

#[export] Instance M_ret {L : GoLib} : MRet M := λ A a w, (a, w).
#[export] Instance M_bind {L : GoLib} : MBind M :=
  λ A B f m w, let '(a, w') := m w in f a w'.

Module fmt.
Section fmt.
Context {L : GoLib}.

Definition emit (o : Output) : M unit :=
  λ w, (tt, {| fs := fs w; orders := orders w; output := output w ++ [o] |}).

Definition Printf (format : string) (args : list arg) : M unit :=
  emit (Stdout format args).

(** [fmt.Fprintf(os.Stderr, format, args...)]. *)
Definition Fprintf_Stderr (format : string) (args : list arg) : M unit :=
  emit (Stderr format args).
End fmt.
End fmt.

Module os.
Section os.
Context {L : GoLib}.

Definition MkdirAll (path : string) (perm : Go.FileMode) : M (option error) :=
  λ w, let '(r, s) := os_MkdirAll path perm (fs w) in
       (r, {| fs := s; orders := orders w; output := output w |}).

Definition WriteFile (name data : string) (perm : Go.FileMode) : M (option error) :=
  λ w, let '(r, s) := os_WriteFile name data perm (fs w) in
       (r, {| fs := s; orders := orders w; output := output w |}).

Definition ReadFile (name : string) : M (error + string) :=
  λ w, (os_ReadFile name (fs w), w).
End os.
End os.

(** The order of the next [range] loop over a map. *)
Definition nextOrder {L : GoLib} : M (list nat) :=
  λ w, (hd [] (orders w),
        {| fs := fs w; orders := tl (orders w); output := output w |}).

(** ** Package agents/core *)

Module core.

(** Modelled from the spec: the adapter contract of [agents/core], whose
    declaration is outside the translated sources, with the methods the
    agentkit adapter defines.  The methods that run a [range] loop over a
    map or touch the file system are computations on the world. *)
Record Adapter {L : GoLib} : Type := mkAdapter {
  Name : string;
  FileExtension : string;
  DefaultDir : string;
  Parse : string → M (error + Agent.t);
  Marshal : Agent.t → M (error + string);
  ReadFile : string → M (error + Agent.t);
  WriteFile : Agent.t → string → M (option error)
}.

(** Modelled from the spec: [core.Register], whose source is outside the
    translated files.  The registry is a table from adapter name to
    adapter instance; [Register] inserts an adapter under its [Name()]. *)
Definition Register {L : GoLib} (a : Adapter) (reg : gmap string Adapter) :
    gmap string Adapter :=
  <[Name a := a]> reg.

(** Modelled from the spec: [core.GetAdapter] is a pure lookup that
    returns the adapter or a not-found signal. *)
Definition GetAdapter {L : GoLib} (reg : gmap string Adapter) (name : string) :
    option Adapter :=
  reg !! name.

(** Modelled from the spec: [core.AdapterNames] lists all registered
    names, in an order that is the same on every call. *)
Definition AdapterNames {L : GoLib} (reg : gmap string Adapter) : list string :=
  (map_to_list reg).*1.

End core.

(** What the translated code uses of packages of the repository whose
    sources are outside the translated files, taken as parameters: the
    two permission constants of [agents/core], the reader of a directory
    of canonical specs, and the CDK project writer. *)
Class Deps {L : GoLib} : Type := {
  core_DefaultDirMode : Go.FileMode;
  core_DefaultFileMode : Go.FileMode;
  agents_ReadCanonicalDir : string → M (error + list Agent.t);
  awsagentcore_WriteCDKProject :
    string → list Agent.t → string → AgentCoreConfig.t → M (option error)
}.

(** ** Package agents/agentkit *)

Module agentkit.
Section agentkit.
Context {L : GoLib} {D : Deps}.

Definition Name : string := "agentkit".
Definition FileExtension : string := ".json".
Definition DefaultDir : string := "plugins/agentkit".

(** Tool mapping from canonical to agentkit local tools. *)
Definition toolMapping : gmap string string :=
  list_to_map [
    ("WebSearch", "shell");
    ("WebFetch", "shell");
    ("Read", "read");
    ("Write", "write");
    ("Glob", "glob");
    ("Grep", "grep");
    ("Bash", "shell");
    ("Edit", "write");
    ("Task", "shell")
  ].

(** Model mapping from canonical to agentkit models. *)
Definition modelMapping : gmap string string :=
  list_to_map [
    ("haiku", "claude-3-haiku-20240307");
    ("sonnet", "claude-3-5-sonnet-20241022");
    ("opus", "claude-3-opus-20240229")
  ].

(** The first loop of [agentToConfig]: the set of mapped tools. *)
Definition toolSetOf (tools : list string) : gmap string bool :=
  foldl (λ toolSet tool,
           match toolMapping !! tool with
           | Some mapped => <[mapped := true]> toolSet
           | None => <[strings_ToLower tool := true]> toolSet
           end) ∅ tools.

(** [order] is the order of the loop [for tool := range toolSet]. *)
Definition agentToConfig (order : list nat) (agent : Agent.t) : AgentConfig.t :=
  let toolSet := toolSetOf (Agent.Tools agent) in
  let Tools :=
    foldl (λ Tools '(tool, _), Tools ++ [tool]) [] (Go.rangeMap order toolSet) in
  let Model :=
    match modelMapping !! Agent.Model agent with
    | Some model => model
    | None =>
        if decide (Agent.Model agent ≠ EmptyString) then Agent.Model agent
        else EmptyString
    end in
  {| AgentConfig.Name := Agent.Name agent;
     AgentConfig.Description := Agent.Description agent;
     AgentConfig.Instructions := Agent.Instructions agent;
     AgentConfig.Tools := Tools;
     AgentConfig.Model := Model;
     AgentConfig.MaxTokens := 0 |}.

(** The first loop of [configToAgent]; [order] is the order of the loop
    [for k, v := range toolMapping]. *)
Definition reverseToolMappingOf (order : list nat) : gmap string string :=
  foldl (λ reverseToolMapping '(k, v), <[v := k]> reverseToolMapping) ∅
        (Go.rangeMap order toolMapping).

Definition configToAgent (order : list nat) (cfg : AgentConfig.t) : Agent.t :=
  let reverseToolMapping := reverseToolMappingOf order in
  let Tools :=
    foldl (λ Tools tool,
             match reverseToolMapping !! tool with
             | Some mapped => Tools ++ [mapped]
             | None => Tools ++ [tool]
             end) [] (AgentConfig.Tools cfg) in
  {| Agent.Name := AgentConfig.Name cfg;
     Agent.Description := AgentConfig.Description cfg;
     Agent.Instructions := AgentConfig.Instructions cfg;
     Agent.Tools := Tools;
     Agent.Model := AgentConfig.Model cfg |}.

(** What the two tool loops do to one identifier: the body of the loop
    of [agentToConfig] computes the key it adds to [toolSet], the body
    of the loop of [configToAgent] the identifier it appends. *)
Definition mapTool (tool : string) : string :=
  match toolMapping !! tool with
  | Some mapped => mapped
  | None => strings_ToLower tool
  end.

Definition unmapTool (order : list nat) (tool : string) : string :=
  match reverseToolMappingOf order !! tool with
  | Some mapped => mapped
  | None => tool
  end.

(** [Parse] converts agentkit config bytes to canonical Agent; [order]
    is the order of the one [range] loop over a map it runs. *)
Definition Parse (order : list nat) (data : string) : error + Agent.t :=
  match json_Unmarshal_AgentConfig data with
  | inl err => inl (ParseError "agentkit" err)
  | inr cfg => inr (configToAgent order cfg)
  end.

(** [Marshal] converts canonical Agent to agentkit config bytes. *)
Definition Marshal (order : list nat) (agent : Agent.t) : error + string :=
  let cfg := agentToConfig order agent in
  match json_MarshalIndent_AgentConfig cfg with
  | inl err => inl (MarshalError "agentkit" err)
  | inr data => inr (data +:+ String "010" EmptyString)
  end.

(** [ReadFile] reads from path and returns canonical Agent. *)
Definition ReadFile (path : string) : M (error + Agent.t) :=
  r ← os.ReadFile path;
  match r with
  | inl err => mret (inl (ReadError path err))
  | inr data => order ← nextOrder; mret (Parse order data)
  end.

(** [WriteFile] writes canonical Agent to path. *)
Definition WriteFile (agent : Agent.t) (path : string) : M (option error) :=
  order ← nextOrder;
  match Marshal order agent with
  | inl err => mret (Some err)
  | inr data =>
      let dir := filepath_Dir path in
      r ← os.MkdirAll dir core_DefaultDirMode;
      match r with
      | Some err => mret (Some (WriteError path err))
      | None =>
          r ← os.WriteFile path data core_DefaultFileMode;
          match r with
          | Some err => mret (Some (WriteError path err))
          | None => mret None
          end
      end
  end.

(** The adapter, as the value [init] registers. *)
Definition adapter : core.Adapter :=
  {| core.Name := Name;
     core.FileExtension := FileExtension;
     core.DefaultDir := DefaultDir;
     core.Parse := λ data, order ← nextOrder; mret (Parse order data);
     core.Marshal := λ agent, order ← nextOrder; mret (Marshal order agent);
     core.ReadFile := ReadFile;
     core.WriteFile := WriteFile |}.

Definition init (reg : gmap string core.Adapter) : gmap string core.Adapter :=
  core.Register adapter reg.

(** [DefaultConfig] returns a default agentkit configuration. *)
Definition DefaultConfig : Config.t :=
  {| Config.Mode := "local";
     Config.Workspace := ".";
     Config.Agents := [];
     Config.MCP :=
       {| MCPConfig.Enabled := true;
          MCPConfig.Transport := "stdio";
          MCPConfig.Port := 0;
          MCPConfig.ServerName := "agentkit-local";
          MCPConfig.ServerVersion := "1.0.0" |};
     Config.LLM :=
       {| LLMConfig.Provider := "anthropic";
          LLMConfig.Model := "claude-3-5-sonnet-20241022";
          LLMConfig.APIKey := "${ANTHROPIC_API_KEY}";
          LLMConfig.BaseURL := EmptyString;
          LLMConfig.Temperature := Qmake 7 10 |};
     Config.Timeouts :=
       {| TimeoutConfig.AgentInvoke := "5m";
          TimeoutConfig.ShellCommand := "2m";
          TimeoutConfig.FileRead := "30s";
          TimeoutConfig.ParallelTotal := "10m" |} |}.

(** The loop of [GenerateFullConfig]; each [agentToConfig] call runs one
    [range] loop over a map. *)
Fixpoint appendAgents (agents : list Agent.t) (acc : list AgentConfig.t) :
    M (list AgentConfig.t) :=
  match agents with
  | [] => mret acc
  | agent :: rest =>
      order ← nextOrder;
      appendAgents rest (acc ++ [agentToConfig order agent])
  end.

(** [GenerateFullConfig] creates a complete agentkit config from
    multiple agents. *)
Definition GenerateFullConfig (agents : list Agent.t) : M Config.t :=
  let cfg := DefaultConfig in
  Agents ← appendAgents agents (Config.Agents cfg);
  mret {| Config.Mode := Config.Mode cfg;
          Config.Workspace := Config.Workspace cfg;
          Config.Agents := Agents;
          Config.MCP := Config.MCP cfg;
          Config.LLM := Config.LLM cfg;
          Config.Timeouts := Config.Timeouts cfg |}.

(** [WriteFullConfig] writes a complete agentkit configuration file. *)
Definition WriteFullConfig (agents : list Agent.t) (path : string) :
    M (option error) :=
  cfg ← GenerateFullConfig agents;
  match json_MarshalIndent_Config cfg with
  | inl err => mret (Some (MarshalError "agentkit" err))
  | inr data =>
      let dir := filepath_Dir path in
      r ← os.MkdirAll dir core_DefaultDirMode;
      match r with
      | Some err => mret (Some (WriteError path err))
      | None =>
          r ← os.WriteFile path (data +:+ String "010" EmptyString)
                core_DefaultFileMode;
          match r with
          | Some err => mret (Some (WriteError path err))
          | None => mret None
          end
      end
  end.

End agentkit.
End agentkit.

(** ** Command genagents

    Format strings are kept as the source writes them. *)

Module genagents.

(** The command-line flags, after [flag.Parse()]. *)
Record Flags : Type := mkFlags {
  specDir : string;
  outputDir : string;
  format : string;
  targets : string;
  project : string;
  priority : string;
  verbose : bool
}.

Section genagents.
Context {L : GoLib} {D : Deps}.

(** The adapter registry, as the [init] functions of the imported
    packages have filled it before [main] runs. *)
Variable registry : gmap string core.Adapter.

(** The loop "Write each agent" of [generateAgents]. *)
Fixpoint writeEachAgent (adapter : core.Adapter) (outputDir : string)
    (verbose : bool) (agentList : list Agent.t) : M (option error) :=
  match agentList with
  | [] => mret None
  | agent :: rest =>
      let filename := Agent.Name agent +:+ core.FileExtension adapter in
      let path := filepath_Join [outputDir; filename] in
      r ← core.WriteFile adapter agent path;
      match r with
      | Some err => mret (Some (ErrorfW "failed to write %s: %w" [path] err))
      | None =>
          (if verbose then fmt.Printf "Generated %s\n" [argString path] else mret tt);;
          writeEachAgent adapter outputDir verbose rest
      end
  end.

Definition generateAgents (agentList : list Agent.t) (format outputDir : string)
    (verbose : bool) : M (option error) :=
  (* Ensure output directory exists *)
  r ← os.MkdirAll outputDir 493%N (* 0755 *);
  match r with
  | Some err =>
      mret (Some (ErrorfW "failed to create output directory: %w" [] err))
  | None =>
      (* Get the adapter *)
      match core.GetAdapter registry format with
      | None =>
          let available := core.AdapterNames registry in
          mret (Some (Errorf "unknown format %q (available: %s)"
                             [format; Go.Join available ", "]))
      | Some adapter =>
          r ← writeEachAgent adapter outputDir verbose agentList;
          match r with
          | Some err => mret (Some err)
          | None =>
              fmt.Printf "Generated %d %s agents in %s\n"
                [argInt (Z.of_nat (length agentList)); argString format;
                 argString outputDir];;
              mret None
          end
      end
  end.

(** [toPascalCase] converts a hyphenated string to PascalCase. *)
Definition toPascalCase (s : string) : string :=
  let parts := Go.Split1 s "-" in
  foldl (λ result part,
           if decide (0 < String.length part)%nat then
             result +:+ strings_ToUpper (String.substring 0 1 part)
                    +:+ String.substring 1 (String.length part - 1) part
           else result) EmptyString parts.

(** [generateForPlatform] generates output for a specific platform. *)
Definition generateForPlatform (teamName : string) (agentList : list Agent.t)
    (target : Target.t) (outputDir : string) (verbose : bool) : M (option error) :=
  let platform := Target.Platform target in
  if decide (platform = "claude-code") then
    generateAgents agentList "claude" outputDir verbose
  else if decide (platform = "kiro-cli") then
    generateAgents agentList "kiro" outputDir verbose
  else if decide (platform = "agentkit-local") then
    let configPath := filepath_Join [outputDir; "config.json"] in
    r ← agentkit.WriteFullConfig agentList configPath;
    match r with
    | Some err => mret (Some err)
    | None =>
        fmt.Printf "Generated agentkit config: %s\n" [argString configPath];;
        mret None
    end
  else if decide (platform = "aws-agentcore") then
    let StackName := toPascalCase teamName +:+ "Stack" in
    let Region :=
      match Target.Config target !! "region" with
      | Some (anyString region) => region
      | _ => EmptyString
      end in
    let FoundationModel :=
      match Target.Config target !! "foundationModel" with
      | Some (anyString model) => model
      | _ => EmptyString
      end in
    let LambdaRuntime :=
      match Target.Config target !! "lambdaRuntime" with
      | Some (anyString runtime) => runtime
      | _ => EmptyString
      end in
    let config :=
      {| AgentCoreConfig.StackName := StackName;
         AgentCoreConfig.Region := Region;
         AgentCoreConfig.FoundationModel := FoundationModel;
         AgentCoreConfig.LambdaRuntime := LambdaRuntime |} in
    r ← awsagentcore_WriteCDKProject teamName agentList outputDir config;
    match r with
    | Some err => mret (Some err)
    | None =>
        fmt.Printf "Generated CDK project in %s\n" [argString outputDir];;
        mret None
    end
  else if decide (platform ∈ ["aws-eks"; "azure-aks"; "gcp-gke"; "kubernetes"]) then
    fmt.Printf "Kubernetes deployment not yet implemented for %s\n"
      [argString platform];;
    mret None
  else
    mret (Some (Errorf "unsupported platform: %s" [platform])).

(** The loop "Process each target" of [runProjectMode]. *)
Fixpoint processEachTarget (projectDir priorityFilter : string) (verbose : bool)
    (Team : string) (agentList : list Agent.t) (Targets : list Target.t) :
    M (option error) :=
  match Targets with
  | [] => mret None
  | target :: rest =>
      if decide (priorityFilter ≠ EmptyString
                 ∧ Target.Priority target ≠ priorityFilter) then
        (if verbose then
           fmt.Printf "Skipping %s (priority %s, filter %s)\n"
             [argString (Target.Name target);
              argString (Target.Priority target); argString priorityFilter]
         else mret tt);;
        processEachTarget projectDir priorityFilter verbose Team agentList rest
      else
        let outputDir := filepath_Join [projectDir; Target.Output target] in
        (if verbose then
           fmt.Printf "\nProcessing target: %s (%s)\n"
             [argString (Target.Name target);
              argString (Target.Platform target)];;
           fmt.Printf "  Output: %s\n" [argString outputDir]
         else mret tt);;
        r ← generateForPlatform Team agentList target outputDir verbose;
        match r with
        | Some err =>
            mret (Some (ErrorfW "failed to generate %s: %w"
                                [Target.Name target] err))
        | None =>
            processEachTarget projectDir priorityFilter verbose Team
              agentList rest
        end
  end.

Fixpoint printEach (format : string) (f : Agent.t → list arg)
    (agentList : list Agent.t) : M unit :=
  match agentList with
  | [] => mret tt
  | agent :: rest => fmt.Printf format (f agent);; printEach format f rest
  end.

(** [runProjectMode] processes a multi-agent-spec project directory. *)
Definition runProjectMode (projectDir priorityFilter : string) (verbose : bool) :
    M (option error) :=
  let deploymentPath := filepath_Join [projectDir; "deployment.json"] in
  r ← os.ReadFile deploymentPath;
  match r with
  | inl err => mret (Some (ErrorfW "failed to read deployment.json: %w" [] err))
  | inr deploymentData =>
      match json_Unmarshal_Deployment deploymentData with
      | inl err =>
          mret (Some (ErrorfW "failed to parse deployment.json: %w" [] err))
      | inr deployment =>
          (if verbose then
             fmt.Printf "Processing project: %s\n"
               [argString (Deployment.Team deployment)];;
             fmt.Printf "Found %d deployment targets\n"
               [argInt (Z.of_nat (length (Deployment.Targets deployment)))]
           else mret tt);;
          let agentsDir := filepath_Join [projectDir; "agents"] in
          r ← agents_ReadCanonicalDir agentsDir;
          match r with
          | inl err => mret (Some (ErrorfW "failed to read agents: %w" [] err))
          | inr agentList =>
              if decide (length agentList = 0%nat) then
                mret (Some (Errorf "no agents found in %s" [agentsDir]))
              else
                (if verbose then
                   fmt.Printf "Found %d agents:\n"
                     [argInt (Z.of_nat (length agentList))];;
                   printEach "  - %s\n"
                     (λ agent, [argString (Agent.Name agent)]) agentList
                 else mret tt);;
                processEachTarget projectDir priorityFilter verbose
                  (Deployment.Team deployment) agentList
                  (Deployment.Targets deployment)
          end
      end
  end.

(** The loop "Handle multiple targets" of [main]; the result is the exit
    status of the process: 1 where the source calls [os.Exit(1)], 0
    where [main] returns. *)
Fixpoint generateEachTarget (agentList : list Agent.t) (verbose : bool)
    (targetPairs : list string) : M Z :=
  match targetPairs with
  | [] => mret 0%Z
  | pair_ :: rest =>
      match Go.SplitN2 pair_ ":" with
      | [part0; part1] =>
          let targetFormat := strings_TrimSpace part0 in
          let targetDir := strings_TrimSpace part1 in
          r ← generateAgents agentList targetFormat targetDir verbose;
          match r with
          | Some err =>
              fmt.Fprintf_Stderr "Error generating %s agents: %v\n"
                [argString targetFormat; argError err];;
              mret 1%Z
          | None => generateEachTarget agentList verbose rest
          end
      | _ =>
          fmt.Fprintf_Stderr "Invalid target format: %s (expected format:dir)\n"
            [argString pair_];;
          mret 1%Z
      end
  end.

(** The same loop as the specification words it, for comparison: every
    target is attempted; a failure is reported against its target and
    the remaining targets are still attempted.  The status is 1 when
    some target failed. *)
Fixpoint generateEachTarget_spec (agentList : list Agent.t) (verbose : bool)
    (targetPairs : list string) : M Z :=
  match targetPairs with
  | [] => mret 0%Z
  | pair_ :: rest =>
      match Go.SplitN2 pair_ ":" with
      | [part0; part1] =>
          let targetFormat := strings_TrimSpace part0 in
          let targetDir := strings_TrimSpace part1 in
          r ← generateAgents agentList targetFormat targetDir verbose;
          match r with
          | Some err =>
              fmt.Fprintf_Stderr "Error generating %s agents: %v\n"
                [argString targetFormat; argError err];;
              generateEachTarget_spec agentList verbose rest;;
              mret 1%Z
          | None => generateEachTarget_spec agentList verbose rest
          end
      | _ =>
          fmt.Fprintf_Stderr "Invalid target format: %s (expected format:dir)\n"
            [argString pair_];;
          generateEachTarget_spec agentList verbose rest;;
          mret 1%Z
      end
  end.

(** [main] from the return of [flag.Parse()] on, as a function of the
    parsed flags; the result is the exit status.  The exits of
    [flag.Parse()] itself, which belong to package [flag], are not part
    of it. *)
Definition main (flags : Flags) : M Z :=
  (* Handle multi-agent-spec project mode *)
  if decide (project flags ≠ EmptyString) then
    r ← runProjectMode (project flags) (priority flags) (verbose flags);
    match r with
    | Some err => fmt.Fprintf_Stderr "Error: %v\n" [argError err];; mret 1%Z
    | None => mret 0%Z
    end
  else
    (* Read canonical agents from spec directory *)
    r ← agents_ReadCanonicalDir (specDir flags);
    match r with
    | inl err =>
        fmt.Fprintf_Stderr "Error reading spec directory %s: %v\n"
          [argString (specDir flags); argError err];;
        mret 1%Z
    | inr agentList =>
        if decide (length agentList = 0%nat) then
          fmt.Fprintf_Stderr "No agents found in %s\n" [argString (specDir flags)];;
          mret 1%Z
        else
          (if verbose flags then
             fmt.Printf "Found %d agents in %s\n"
               [argInt (Z.of_nat (length agentList));
                argString (specDir flags)];;
             printEach "  - %s: %s\n"
               (λ agent, [argString (Agent.Name agent);
                          argString (Agent.Description agent)]) agentList
           else mret tt);;
          (* Handle multiple targets *)
          if decide (targets flags ≠ EmptyString) then
            generateEachTarget agentList (verbose flags)
              (Go.Split1 (targets flags) ",")
          else if decide (outputDir flags = EmptyString) then
            (* Handle single target *)
            fmt.Fprintf_Stderr "Error: -output, -targets, or -project required\n" [];;
            fmt.emit Usage;;
            mret 1%Z
          else
            r ← generateAgents agentList (format flags) (outputDir flags)
                  (verbose flags);
            match r with
            | Some err =>
                fmt.Fprintf_Stderr "Error generating agents: %v\n" [argError err];;
                mret 1%Z
            | None => mret 0%Z
            end
    end.

End genagents.
End genagents.

(** ** A reference library

    An implementation of [GoLib] and [Deps] on which the program runs
    inside Rocq: byte-wise ASCII case mapping, slash-separated paths that
    are already clean, a JSON reader and printer for the structs of the
    program (integers are the only numbers read), and a file system that
    is a table from path to directory or regular file.  The theorems
    below hold for every library; this one is where they are run. *)

Module Ref.

#[local] Instance result_bind : MBind (sum error) :=
  λ A B f m, match m with inl e => inl e | inr a => f a end.

Definition quote : ascii := "034"%char.
Definition backslash : ascii := "092"%char.
Definition newline : ascii := "010"%char.

Definition chars (s : string) : list ascii := String.list_ascii_of_string s.
Definition str (l : list ascii) : string := String.string_of_list_ascii l.


(** JSON text written with single quotes where JSON has double quotes. *)
Definition json (s : string) : string :=
  str ((λ c, if decide (c = "'"%char) then quote else c) <$> chars s).

Definition code (c : ascii) : nat := nat_of_ascii c.

Definition lower (c : ascii) : ascii :=
  if decide (65 ≤ code c ≤ 90)%nat then ascii_of_nat (code c + 32) else c.

Definition upper (c : ascii) : ascii :=
  if decide (97 ≤ code c ≤ 122)%nat then ascii_of_nat (code c - 32) else c.

Definition ToLower (s : string) : string := str (lower <$> chars s).
Definition ToUpper (s : string) : string := str (upper <$> chars s).

Definition isSpace (c : ascii) : bool :=
  bool_decide (code c ∈ [9; 10; 11; 12; 13; 32]%nat).

Fixpoint dropSpace (l : list ascii) : list ascii :=
  match l with
  | c :: r => if isSpace c then dropSpace r else l
  | [] => []
  end.

Definition TrimSpace (s : string) : string :=
  str (reverse (dropSpace (reverse (dropSpace (chars s))))).

(** The directory part of a path: what precedes its last slash. *)
Fixpoint dirChars (l : list ascii) : option (list ascii) :=
  match l with
  | [] => None
  | c :: r =>
      match dirChars r with
      | Some d => Some (c :: d)
      | None => if decide (c = "/"%char) then Some [] else None
      end
  end.

Definition Dir (path : string) : string :=
  match dirChars (chars path) with
  | None => "."
  | Some [] => "/"
  | Some d => str d
  end.

Definition Join (elem : list string) : string :=
  Go.Join (filter (λ e, e ≠ EmptyString) elem) "/".

(** *** Reading JSON *)

Fixpoint stripPrefix (p l : list ascii) : option (list ascii) :=
  match p, l with
  | [], _ => Some l
  | a :: p', b :: l' => if decide (a = b) then stripPrefix p' l' else None
  | _ :: _, [] => None
  end.

Definition hexDigit (c : ascii) : option nat :=
  let n := code c in
  if decide (48 ≤ n ≤ 57)%nat then Some (n - 48)%nat
  else if decide (97 ≤ n ≤ 102)%nat then Some (n - 87)%nat
  else if decide (65 ≤ n ≤ 70)%nat then Some (n - 55)%nat
  else None.

(** The UTF-8 bytes of a code point below 65536. *)
Definition utf8 (n : nat) : list ascii :=
  if decide (n < 128)%nat then [ascii_of_nat n]
  else if decide (n < 2048)%nat then
    [ascii_of_nat (192 + n / 64); ascii_of_nat (128 + n mod 64)]
  else
    [ascii_of_nat (224 + n / 4096); ascii_of_nat (128 + (n / 64) mod 64);
     ascii_of_nat (128 + n mod 64)].

(** The string literal that follows an opening quote. *)
Fixpoint readString (l : list ascii) : option (list ascii * list ascii) :=
  match l with
  | [] => None
  | c :: r =>
      if decide (c = quote) then Some ([], r)
      else if decide (c = backslash) then
        match r with
        | e :: r' =>
            if decide (e = "u"%char) then
              match r' with
              | h1 :: ((h2 :: ((h3 :: ((h4 :: r'') as t3)) as t2)) as t1) =>
                  match hexDigit h1, hexDigit h2, hexDigit h3, hexDigit h4 with
                  | Some d1, Some d2, Some d3, Some d4 =>
                      '(s, rest) ← readString r'';
                      Some (utf8 (((d1 * 16 + d2) * 16 + d3) * 16 + d4) ++ s, rest)
                  | _, _, _, _ => None
                  end
              | _ => None
              end
            else
              let plain (x : ascii) :=
                '(s, rest) ← readString r'; Some (x :: s, rest) in
              if decide (e = quote) then plain quote
              else if decide (e = backslash) then plain backslash
              else if decide (e = "/"%char) then plain "/"%char
              else if decide (e = "b"%char) then plain "008"%char
              else if decide (e = "f"%char) then plain "012"%char
              else if decide (e = "n"%char) then plain "010"%char
              else if decide (e = "r"%char) then plain "013"%char
              else if decide (e = "t"%char) then plain "009"%char
              else None
        | [] => None
        end
      else if decide (code c < 32)%nat then None
      else '(s, rest) ← readString r; Some (c :: s, rest)
  end.

Definition isJSONSpace (c : ascii) : bool :=
  bool_decide (code c ∈ [9; 10; 13; 32]%nat).

Fixpoint skip (l : list ascii) : list ascii :=
  match l with
  | c :: r => if isJSONSpace c then skip r else l
  | [] => []
  end.

Definition isDigit (c : ascii) : bool := bool_decide (48 ≤ code c ≤ 57)%nat.

Fixpoint readDigits (acc : N) (l : list ascii) : N * list ascii :=
  match l with
  | c :: r =>
      if isDigit c then readDigits (acc * 10 + N.of_nat (code c - 48)) r
      else (acc, l)
  | [] => (acc, [])
  end.

Definition readInt (l : list ascii) : option (Z * list ascii) :=
  let '(neg, l') :=
    match l with
    | c :: r => if decide (c = "-"%char) then (true, r) else (false, l)
    | [] => (false, l)
    end in
  match l' with
  | c :: _ =>
      if isDigit c then
        let '(n, rest) := readDigits 0 l' in
        match rest with
        | d :: _ =>
            if bool_decide (d ∈ ["."; "e"; "E"]%char) then None
            else Some (if neg then (- Z.of_N n)%Z else Z.of_N n, rest)
        | [] => Some (if neg then (- Z.of_N n)%Z else Z.of_N n, rest)
        end
      else None
  | [] => None
  end.

Inductive Reading : Type := AValue | Elements | Members.

(** One JSON value ([AValue]), or what follows an opening bracket up to
    its closing bracket ([Elements], read as an array), or what follows
    an opening brace ([Members], read as an object). *)
Fixpoint read (fuel : nat) (what : Reading) (l : list ascii) :
    option (any * list ascii) :=
  match fuel with
  | O => None
  | S fuel =>
      match what with
      | AValue =>
          match skip l with
          | [] => None
          | c :: r =>
              if decide (c = quote) then
                '(s, rest) ← readString r; Some (anyString (str s), rest)
              else if decide (c = "["%char) then
                match skip r with
                | d :: r' =>
                    if decide (d = "]"%char) then Some (anyArray [], r')
                    else read fuel Elements r
                | [] => None
                end
              else if decide (c = "{"%char) then
                match skip r with
                | d :: r' =>
                    if decide (d = "}"%char) then Some (anyObject [], r')
                    else read fuel Members r
                | [] => None
                end
              else
                match stripPrefix (chars "null") (c :: r),
                      stripPrefix (chars "true") (c :: r),
                      stripPrefix (chars "false") (c :: r) with
                | Some rest, _, _ => Some (anyNil, rest)
                | _, Some rest, _ => Some (anyBool true, rest)
                | _, _, Some rest => Some (anyBool false, rest)
                | _, _, _ =>
                    '(n, rest) ← readInt (c :: r);
                    Some (anyNumber (Qmake n 1), rest)
                end
          end
      | Elements =>
          '(v, rest) ← read fuel AValue l;
          match skip rest with
          | d :: r =>
              if decide (d = "]"%char) then Some (anyArray [v], r)
              else if decide (d = ","%char) then
                '(vs, rest') ← read fuel Elements r;
                match vs with
                | anyArray vs => Some (anyArray (v :: vs), rest')
                | _ => None
                end
              else None
          | [] => None
          end
      | Members =>
          match skip l with
          | c :: r =>
              if decide (c = quote) then
                '(k, rest) ← readString r;
                match skip rest with
                | d :: r' =>
                    if decide (d = ":"%char) then
                      '(v, rest') ← read fuel AValue r';
                      match skip rest' with
                      | e :: r'' =>
                          if decide (e = "}"%char) then
                            Some (anyObject [(str k, v)], r'')
                          else if decide (e = ","%char) then
                            '(ms, rest'') ← read fuel Members r'';
                            match ms with
                            | anyObject ms =>
                                Some (anyObject ((str k, v) :: ms), rest'')
                            | _ => None
                            end
                          else None
                      | [] => None
                      end
                    else None
                | [] => None
                end
              else None
          | [] => None
          end
      end
  end.

Definition syntaxError : error := libError "unexpected end of JSON input".
Definition typeError : error := libError "json: cannot unmarshal value".

Definition readJSON (data : string) : error + any :=
  match read (S (String.length data)) AValue (chars data) with
  | Some (v, rest) =>
      match skip rest with
      | [] => inr v
      | _ :: _ => inl (libError "invalid character after top-level value")
      end
  | None => inl syntaxError
  end.

Definition asString (old : string) (v : any) : error + string :=
  match v with
  | anyString s => inr s
  | anyNil => inr old
  | _ => inl typeError
  end.

Definition asInt (old : Z) (v : any) : error + Z :=
  match v with
  | anyNumber q => inr (Qnum q)
  | anyNil => inr old
  | _ => inl typeError
  end.

Fixpoint asStrings (l : list any) : error + list string :=
  match l with
  | [] => inr []
  | v :: r =>
      match asString EmptyString v, asStrings r with
      | inr s, inr ss => inr (s :: ss)
      | inl e, _ => inl e
      | _, inl e => inl e
      end
  end.

Definition asStringList (v : any) : error + list string :=
  match v with
  | anyArray l => asStrings l
  | anyNil => inr []
  | _ => inl typeError
  end.

(** The members of an object are assigned in order to the field whose
    JSON name they carry, letters compared without case; other members
    are skipped. *)
Fixpoint setAgentConfig (ms : list (string * any)) (cfg : AgentConfig.t) :
    error + AgentConfig.t :=
  match ms with
  | [] => inr cfg
  | (k, v) :: rest =>
      let key := ToLower k in
      let '(AgentConfig.mk n d i t m x) := cfg in
      let next :=
        if decide (key = "name") then
          s ← asString n v; inr (AgentConfig.mk s d i t m x)
        else if decide (key = "description") then
          s ← asString d v; inr (AgentConfig.mk n s i t m x)
        else if decide (key = "instructions") then
          s ← asString i v; inr (AgentConfig.mk n d s t m x)
        else if decide (key = "tools") then
          s ← asStringList v; inr (AgentConfig.mk n d i s m x)
        else if decide (key = "model") then
          s ← asString m v; inr (AgentConfig.mk n d i t s x)
        else if decide (key = "max_tokens") then
          s ← asInt x v; inr (AgentConfig.mk n d i t m s)
        else inr cfg in
      match next with
      | inl e => inl e
      | inr cfg' => setAgentConfig rest cfg'
      end
  end.

Definition Unmarshal_AgentConfig (data : string) : error + AgentConfig.t :=
  let zero := AgentConfig.mk EmptyString EmptyString EmptyString [] EmptyString 0 in
  match readJSON data with
  | inl e => inl e
  | inr (anyObject ms) => setAgentConfig ms zero
  | inr anyNil => inr zero
  | inr _ => inl typeError
  end.

Definition asObject (v : any) : error + list (string * any) :=
  match v with
  | anyObject ms => inr ms
  | anyNil => inr []
  | _ => inl typeError
  end.

Fixpoint setTarget (ms : list (string * any)) (tg : Target.t) : error + Target.t :=
  match ms with
  | [] => inr tg
  | (k, v) :: rest =>
      let key := ToLower k in
      let '(Target.mk n p r o c) := tg in
      let next :=
        if decide (key = "name") then
          s ← asString n v; inr (Target.mk s p r o c)
        else if decide (key = "platform") then
          s ← asString p v; inr (Target.mk n s r o c)
        else if decide (key = "priority") then
          s ← asString r v; inr (Target.mk n p s o c)
        else if decide (key = "output") then
          s ← asString o v; inr (Target.mk n p r s c)
        else if decide (key = "config") then
          s ← asObject v;
          inr (Target.mk n p r o (foldl (λ m '(k, x), <[k := x]> m) c s))
        else inr tg in
      match next with
      | inl e => inl e
      | inr tg' => setTarget rest tg'
      end
  end.

Definition zeroTarget : Target.t :=
  Target.mk EmptyString EmptyString EmptyString EmptyString ∅.

Fixpoint asTargets (l : list any) : error + list Target.t :=
  match l with
  | [] => inr []
  | v :: r =>
      ms ← asObject v;
      tg ← setTarget ms zeroTarget;
      tgs ← asTargets r;
      inr (tg :: tgs)
  end.

Fixpoint setDeployment (ms : list (string * any)) (d : Deployment.t) :
    error + Deployment.t :=
  match ms with
  | [] => inr d
  | (k, v) :: rest =>
      let key := ToLower k in
      let '(Deployment.mk s t g) := d in
      let next :=
        if decide (key = "$schema") then
          x ← asString s v; inr (Deployment.mk x t g)
        else if decide (key = "team") then
          x ← asString t v; inr (Deployment.mk s x g)
        else if decide (key = "targets") then
          match v with
          | anyArray l => x ← asTargets l; inr (Deployment.mk s t x)
          | anyNil => inr (Deployment.mk s t [])
          | _ => inl typeError
          end
        else inr d in
      match next with
      | inl e => inl e
      | inr d' => setDeployment rest d'
      end
  end.

Definition Unmarshal_Deployment (data : string) : error + Deployment.t :=
  let zero := Deployment.mk EmptyString EmptyString [] in
  match readJSON data with
  | inl e => inl e
  | inr (anyObject ms) => setDeployment ms zero
  | inr anyNil => inr zero
  | inr _ => inl typeError
  end.

(** *** Printing JSON *)

Definition hex (n : nat) : ascii :=
  if decide (n < 10)%nat then ascii_of_nat (48 + n) else ascii_of_nat (87 + n).

Definition escape (c : ascii) : list ascii :=
  if decide (c = quote) then [backslash; quote]
  else if decide (c = backslash) then [backslash; backslash]
  else if decide (c = "010"%char) then [backslash; "n"%char]
  else if decide (c = "013"%char) then [backslash; "r"%char]
  else if decide (c = "009"%char) then [backslash; "t"%char]
  else if decide (c = "008"%char) then [backslash; "b"%char]
  else if decide (c = "012"%char) then [backslash; "f"%char]
  else if decide (code c < 32 ∨ c ∈ ["<"; ">"; "&"]%char)%nat then
    [backslash; "u"%char; "0"%char; "0"%char; hex (code c / 16); hex (code c mod 16)]
  else [c].

Definition quoted (s : string) : string :=
  str (quote :: (chars s ≫= escape) ++ [quote]).

(** A number whose denominator divides a power of ten, in decimal. *)
Fixpoint decimals (fuel : nat) (n d : Z) : string :=
  match fuel with
  | O => EmptyString
  | S fuel =>
      if decide (n = 0)%Z then EmptyString
      else pretty (n * 10 / d)%Z +:+ decimals fuel ((n * 10) mod d)%Z d
  end.

Definition number (q : Q) : string :=
  let n := Qnum q in
  let d := Z.pos (Qden q) in
  let whole := (Z.abs n / d)%Z in
  let frac := (Z.abs n mod d)%Z in
  (if decide (n < 0)%Z then "-" else EmptyString) +:+ pretty whole +:+
  (if decide (frac = 0)%Z then EmptyString else "." +:+ decimals 17 frac d).

(** [MarshalIndent(v, "", "  ")] of a value; [indent] is the indentation
    of the line the value starts on. *)
Fixpoint print (indent : string) (v : any) : string :=
  let inner := indent +:+ "  " in
  match v with
  | anyNil => "null"
  | anyBool b => if b then "true" else "false"
  | anyNumber q => number q
  | anyString s => quoted s
  | anyArray [] => "[]"
  | anyArray l =>
      "[" +:+ String newline inner +:+
      Go.Join (map (print inner) l) ("," +:+ String newline inner) +:+
      String newline indent +:+ "]"
  | anyObject [] => "{}"
  | anyObject l =>
      "{" +:+ String newline inner +:+
      Go.Join (map (λ '(k, x), quoted k +:+ ": " +:+ print inner x) l)
              ("," +:+ String newline inner) +:+
      String newline indent +:+ "}"
  end.

(** A nil slice is printed as [null]. *)
Definition ofStrings (l : list string) : any :=
  match l with
  | [] => anyNil
  | _ => anyArray (anyString <$> l)
  end.

(** The members of a struct, the [omitempty] ones left out when zero. *)
Definition omitempty (k : string) (zero : bool) (v : any) : list (string * any) :=
  if zero then [] else [(k, v)].

Definition ofAgentConfig (cfg : AgentConfig.t) : any :=
  anyObject (
    [("name", anyString (AgentConfig.Name cfg));
     ("description", anyString (AgentConfig.Description cfg));
     ("instructions", anyString (AgentConfig.Instructions cfg));
     ("tools", ofStrings (AgentConfig.Tools cfg))] ++
    omitempty "model" (bool_decide (AgentConfig.Model cfg = EmptyString))
      (anyString (AgentConfig.Model cfg)) ++
    omitempty "max_tokens" (bool_decide (AgentConfig.MaxTokens cfg = 0%Z))
      (anyNumber (Qmake (AgentConfig.MaxTokens cfg) 1))).

Definition ofConfig (cfg : Config.t) : any :=
  let mcp := Config.MCP cfg in
  let llm := Config.LLM cfg in
  let t := Config.Timeouts cfg in
  anyObject [
    ("mode", anyString (Config.Mode cfg));
    ("workspace", anyString (Config.Workspace cfg));
    ("agents", anyArray (ofAgentConfig <$> Config.Agents cfg));
    ("mcp", anyObject (
       [("enabled", anyBool (MCPConfig.Enabled mcp));
        ("transport", anyString (MCPConfig.Transport mcp))] ++
       omitempty "port" (bool_decide (MCPConfig.Port mcp = 0%Z))
         (anyNumber (Qmake (MCPConfig.Port mcp) 1)) ++
       omitempty "server_name" (bool_decide (MCPConfig.ServerName mcp = EmptyString))
         (anyString (MCPConfig.ServerName mcp)) ++
       omitempty "server_version"
         (bool_decide (MCPConfig.ServerVersion mcp = EmptyString))
         (anyString (MCPConfig.ServerVersion mcp))));
    ("llm", anyObject (
       [("provider", anyString (LLMConfig.Provider llm));
        ("model", anyString (LLMConfig.Model llm))] ++
       omitempty "api_key" (bool_decide (LLMConfig.APIKey llm = EmptyString))
         (anyString (LLMConfig.APIKey llm)) ++
       omitempty "base_url" (bool_decide (LLMConfig.BaseURL llm = EmptyString))
         (anyString (LLMConfig.BaseURL llm)) ++
       omitempty "temperature" (bool_decide (Qnum (LLMConfig.Temperature llm) = 0%Z))
         (anyNumber (LLMConfig.Temperature llm))));
    ("timeouts", anyObject [
       ("agent_invoke", anyString (TimeoutConfig.AgentInvoke t));
       ("shell_command", anyString (TimeoutConfig.ShellCommand t));
       ("file_read", anyString (TimeoutConfig.FileRead t));
       ("parallel_total", anyString (TimeoutConfig.ParallelTotal t))])
  ].

Definition MarshalIndent_AgentConfig (cfg : AgentConfig.t) : error + string :=
  inr (print EmptyString (ofAgentConfig cfg)).

Definition MarshalIndent_Config (cfg : Config.t) : error + string :=
  inr (print EmptyString (ofConfig cfg)).

(** *** The file system *)

Inductive Node : Type :=
  | Directory (mode : Go.FileMode)
  | Regular (mode : Go.FileMode) (data : string).

(** The path and its ancestors, nearest first, up to the root or the
    working directory. *)
Fixpoint ancestors (fuel : nat) (path : string) : list string :=
  match fuel with
  | O => []
  | S fuel =>
      if decide (path = "." ∨ path = "/") then [path]
      else path :: ancestors fuel (Dir path)
  end.

Definition ENOTDIR : error := libError "not a directory".
Definition ENOENT : error := libError "no such file or directory".
Definition EISDIR : error := libError "is a directory".

Definition isRegular (s : gmap string Node) (p : string) : bool :=
  match s !! p with Some (Regular _ _) => true | _ => false end.

Definition mkdir (perm : Go.FileMode) (s : gmap string Node) (p : string) :
    gmap string Node :=
  match s !! p with
  | Some _ => s
  | None => <[p := Directory perm]> s
  end.

Definition MkdirAll (path : string) (perm : Go.FileMode) (s : gmap string Node) :
    option error * gmap string Node :=
  let ps := ancestors (S (String.length path)) path in
  if existsb (isRegular s) ps then (Some ENOTDIR, s)
  else (None, foldl (mkdir perm) s ps).

Definition WriteFile (name data : string) (perm : Go.FileMode)
    (s : gmap string Node) : option error * gmap string Node :=
  match s !! name with
  | Some (Directory _) => (Some EISDIR, s)
  | Some (Regular mode _) => (None, <[name := Regular mode data]> s)
  | None =>
      match s !! Dir name with
      | Some (Directory _) => (None, <[name := Regular perm data]> s)
      | Some (Regular _ _) => (Some ENOTDIR, s)
      | None => (Some ENOENT, s)
      end
  end.

Definition ReadFile (name : string) (s : gmap string Node) : error + string :=
  match s !! name with
  | Some (Regular _ data) => inr data
  | Some (Directory _) => inl EISDIR
  | None => inl ENOENT
  end.

Definition directory (s : gmap string Node) (p : string) : option Go.FileMode :=
  match s !! p with Some (Directory mode) => Some mode | _ => None end.

Definition regular (s : gmap string Node) (p : string) :
    option (Go.FileMode * string) :=
  match s !! p with Some (Regular mode data) => Some (mode, data) | _ => None end.

End Ref.

(** ** The reference library satisfies what [GoLib] asks of package os *)

Module RefLaws.
Import Ref.

Lemma fold_mkdir_lookup perm ps (s : gmap string Node) p :
  foldl (mkdir perm) s ps !! p =
    match s !! p with
    | Some n => Some n
    | None => if decide (p ∈ ps) then Some (Directory perm) else None
    end.
Proof.
  revert s. induction ps as [|a ps IH]; intros s; simpl.
  - by destruct (s !! p).
  - rewrite IH. clear IH. unfold mkdir. destruct (s !! a) eqn:Ha.
    + destruct (s !! p) eqn:Hp; [done|].
      destruct (decide (p ∈ ps)) as [Hi|Hi], (decide (p ∈ a :: ps)) as [Hj|Hj];
        try done; exfalso; [by apply Hj; right|].
      apply elem_of_cons in Hj as [->|?]; [congruence|done].
    + destruct (decide (a = p)) as [->|Hne].
      * rewrite lookup_insert_eq, Ha. rewrite decide_True; [done|left].
      * rewrite lookup_insert_ne by done. destruct (s !! p); [done|].
        destruct (decide (p ∈ ps)) as [Hi|Hi], (decide (p ∈ a :: ps)) as [Hj|Hj];
          try done; exfalso; [by apply Hj; right|].
        apply elem_of_cons in Hj as [->|?]; done.
Qed.

Lemma head_ancestors n path : path ∈ ancestors (S n) path.
Proof. simpl. case_decide; left. Qed.

Lemma MkdirAll_inv path perm s r s' :
  MkdirAll path perm s = (r, s') →
  (r = Some ENOTDIR ∧ s' = s) ∨
  (r = None ∧ isRegular s path = false ∧
   s' = foldl (mkdir perm) s (ancestors (S (String.length path)) path)).
Proof.
  unfold MkdirAll. destruct (existsb _ _) eqn:He; intros [= <- <-]; [by left|].
  right. split_and!; [done| |done].
  destruct (isRegular s path) eqn:Hr; [|done].
  assert (existsb (isRegular s) (ancestors (S (String.length path)) path) = true);
    [|congruence].
  apply existsb_exists. exists path. split; [|done].
  apply list_elem_of_In, head_ancestors.
Qed.

Lemma ref_MkdirAll_dir d m s s' :
  MkdirAll d m s = (None, s') → is_Some (directory s' d).
Proof.
  intros [[? _]|(_ & Hr & ->)]%MkdirAll_inv; [done|].
  unfold directory, isRegular in *. rewrite fold_mkdir_lookup.
  destruct (s !! d) as [[]|]; [by eexists|done|].
  rewrite decide_True by apply head_ancestors. by eexists.
Qed.

Lemma ref_MkdirAll_mode d m s s' :
  MkdirAll d m s = (None, s') → directory s d = None → directory s' d = Some m.
Proof.
  intros [[? _]|(_ & Hr & ->)]%MkdirAll_inv; [done|].
  unfold directory, isRegular in *. rewrite fold_mkdir_lookup.
  destruct (s !! d) as [[]|]; [done|done|].
  by rewrite decide_True by apply head_ancestors.
Qed.

Lemma ref_MkdirAll_files d m s r s' p :
  MkdirAll d m s = (r, s') → regular s' p = regular s p.
Proof.
  intros [[_ ->]|(_ & _ & ->)]%MkdirAll_inv; [done|].
  unfold regular. rewrite fold_mkdir_lookup.
  destruct (s !! p); [done|]. by case_decide.
Qed.

Lemma ref_WriteFile_data p data m s s' :
  WriteFile p data m s = (None, s') → snd <$> regular s' p = Some data.
Proof.
  unfold WriteFile, regular.
  destruct (s !! p) as [[]|]; [done| |destruct (s !! Dir p) as [[]|]; [|done..]];
    intros [= <-]; by rewrite lookup_insert_eq.
Qed.

Lemma ref_WriteFile_mode p data m s s' :
  WriteFile p data m s = (None, s') → regular s p = None →
  regular s' p = Some (m, data).
Proof.
  unfold WriteFile, regular.
  destruct (s !! p) as [[]|]; [done|done|].
  destruct (s !! Dir p) as [[]|]; [|done..].
  intros [= <-] _. by rewrite lookup_insert_eq.
Qed.

Lemma ref_WriteFile_dirs p data m s r s' d :
  WriteFile p data m s = (r, s') → directory s' d = directory s d.
Proof.
  unfold WriteFile, directory. destruct (s !! p) as [[]|] eqn:Hp.
  - by intros [= _ <-].
  - intros [= _ <-]. destruct (decide (p = d)) as [->|].
    + by rewrite lookup_insert_eq, Hp.
    + by rewrite lookup_insert_ne.
  - destruct (s !! Dir p) as [[]|]; intros [= _ <-]; try done.
    destruct (decide (p = d)) as [->|].
    + by rewrite lookup_insert_eq, Hp.
    + by rewrite lookup_insert_ne.
Qed.

(** The reference library. *)
Definition lib : GoLib :=
  {| strings_ToLower := ToLower;
     strings_ToUpper := ToUpper;
     strings_TrimSpace := TrimSpace;
     filepath_Dir := Dir;
     filepath_Join := Join;
     json_Unmarshal_AgentConfig := Unmarshal_AgentConfig;
     json_Unmarshal_Deployment := Unmarshal_Deployment;
     json_MarshalIndent_AgentConfig := MarshalIndent_AgentConfig;
     json_MarshalIndent_Config := MarshalIndent_Config;
     FS := gmap string Node;
     os_MkdirAll := MkdirAll;
     os_WriteFile := WriteFile;
     os_ReadFile := ReadFile;
     dirAt := directory;
     fileAt := regular;
     MkdirAll_dir := ref_MkdirAll_dir;
     MkdirAll_mode := ref_MkdirAll_mode;
     MkdirAll_files := ref_MkdirAll_files;
     WriteFile_data := ref_WriteFile_data;
     WriteFile_mode := ref_WriteFile_mode;
     WriteFile_dirs := ref_WriteFile_dirs |}.

(** The reference library with an encoder that rejects every value,
    to run the paths taken when encoding fails. *)
Definition failingEncoder : GoLib :=
  {| strings_ToLower := ToLower;
     strings_ToUpper := ToUpper;
     strings_TrimSpace := TrimSpace;
     filepath_Dir := Dir;
     filepath_Join := Join;
     json_Unmarshal_AgentConfig := Unmarshal_AgentConfig;
     json_Unmarshal_Deployment := Unmarshal_Deployment;
     json_MarshalIndent_AgentConfig := λ _, inl (libError "json: unsupported value");
     json_MarshalIndent_Config := λ _, inl (libError "json: unsupported value");
     FS := gmap string Node;
     os_MkdirAll := MkdirAll;
     os_WriteFile := WriteFile;
     os_ReadFile := ReadFile;
     dirAt := directory;
     fileAt := regular;
     MkdirAll_dir := ref_MkdirAll_dir;
     MkdirAll_mode := ref_MkdirAll_mode;
     MkdirAll_files := ref_MkdirAll_files;
     WriteFile_data := ref_WriteFile_data;
     WriteFile_mode := ref_WriteFile_mode;
     WriteFile_dirs := ref_WriteFile_dirs |}.

(** Stand-ins for the packages outside the translated sources: the
    directory mode 0755 and the file mode 0600, a spec directory that
    holds no agent, and a project writer that only creates the output
    directory. *)
Definition deps (L : GoLib) : @Deps L :=
  {| core_DefaultDirMode := 493%N;
     core_DefaultFileMode := 384%N;
     agents_ReadCanonicalDir := λ _, mret (inr []);
     awsagentcore_WriteCDKProject := λ _ _ outputDir _, os.MkdirAll outputDir 493%N |}.

(** The registry after the [init] of package agentkit has run. *)
Definition registry (L : GoLib) : gmap string (@core.Adapter L) :=
  @agentkit.init L (deps L) ∅.

(** A world whose file system holds the working directory only, and
    whose coming [range] loops follow the given orders. *)
Definition world (L : GoLib) (s : @FS L) (orders : list (list nat)) : @World L :=
  {| fs := s; orders := orders; output := [] |}.

Definition cwd : gmap string Node := {[ "." := Directory 493%N ]}.

End RefLaws.

(** ** Inputs on which the claims are run *)

Module Sample.

(** An agent with two tools that share the destination "shell". *)
Definition reviewer : Agent.t :=
  {| Agent.Name := "reviewer";
     Agent.Description := "Reviews changes";
     Agent.Instructions := "Read the diff.";
     Agent.Tools := ["Read"; "Bash"; "Task"];
     Agent.Model := "sonnet" |}.

(** An agent with one tool, whose destination has no other source. *)
Definition reader : Agent.t :=
  {| Agent.Name := "reader";
     Agent.Description := EmptyString;
     Agent.Instructions := EmptyString;
     Agent.Tools := ["Read"];
     Agent.Model := "haiku" |}.

(** An agent with a tool outside the table. *)
Definition custom : Agent.t :=
  {| Agent.Name := "custom";
     Agent.Description := EmptyString;
     Agent.Instructions := EmptyString;
     Agent.Tools := ["CustomTool"; "Grep"];
     Agent.Model := EmptyString |}.

(** Config bytes with the tool "shell" twice and an unmapped tool. *)
Definition shells : string :=
  Ref.json "{'name':'demo','tools':['shell','read','shell','lint']}".

(** Truncated config bytes. *)
Definition truncated : string := Ref.json "{'name':".
(** A deployment target of a platform the command does not support,
    and one of a platform it supports. *)
Definition heroku : Target.t :=
  {| Target.Name := "web"; Target.Platform := "heroku";
     Target.Priority := "p1"; Target.Output := "out/web";
     Target.Config := ∅ |}.

Definition local : Target.t :=
  {| Target.Name := "local"; Target.Platform := "agentkit-local";
     Target.Priority := "p1"; Target.Output := "out/local";
     Target.Config := ∅ |}.

(** The bytes [Marshal] gives for [reviewer] on the reference library
    when the loop over its tool set follows the order coded by [[0]]. *)
Definition reviewer_bytes : string :=
  Eval vm_compute in
    match @agentkit.Marshal RefLaws.lib [0%nat] reviewer with
    | inr data => data
    | inl _ => EmptyString
    end.
End Sample.

(** ** Notions the further properties are stated with *)

(** The body of the loop of [toPascalCase] over the parts. *)
Definition pascalStep {L : GoLib} (result part : string) : string :=
  if decide (0 < String.length part)%nat then
    result +:+ strings_ToUpper (String.substring 0 1 part)
           +:+ String.substring 1 (String.length part - 1) part
  else result.

(** The world after the given lines have been written to the terminal. *)
Definition printed {L : GoLib} (lines : list Output) (w : World) : World :=
  {| fs := fs w; orders := orders w; output := output w ++ lines |}.

(** An exit status is reported when it is 0, or it is 1 and the last
    thing written is a line on the standard error stream or the usage
    text. *)
Definition reported {L : GoLib} (status : Z) (w : World) : Prop :=
  status = 0%Z ∨
  (status = 1%Z ∧
   ∃ pre o, output w = pre ++ [o] ∧
            (o = Usage ∨ ∃ format args, o = Stderr format args)).

(** * Properties *)

(** ** Facts about loop orders *)

Section range_order.
Context {A : Type}.
Implicit Types (l : list A) (code : list nat).

Lemma pick_Permutation n code l : length l = n → Go.pick n code l ≡ₚ l.
Proof.
  revert code l. induction n as [|n IH]; intros code l Hlen; simpl.
  - by destruct l.
  - assert (Hi : (hd 0 code mod length l < length l)%nat)
      by (apply Nat.mod_upper_bound; lia).
    destruct (lookup_lt_is_Some_2 l _ Hi) as [x Hx]. rewrite Hx.
    etrans; [|symmetry; apply (delete_Permutation l _ x Hx)]. constructor.
    apply IH. pose proof (length_delete l _ (ex_intro _ x Hx)). lia.
Qed.

Lemma shuffle_Permutation code l : Go.shuffle code l ≡ₚ l.
Proof. by apply pick_Permutation. Qed.

Lemma shuffle_complete l l' : l' ≡ₚ l → ∃ code, Go.shuffle code l = l'.
Proof.
  unfold Go.shuffle. revert l. induction l' as [|x l' IH]; intros l Hp.
  - apply Permutation_nil_l in Hp. subst l. by exists [].
  - assert (Hin : x ∈ l) by (rewrite <- Hp; left).
    apply list_elem_of_lookup in Hin as [i Hi].
    pose proof (lookup_lt_Some _ _ _ Hi) as Hlt.
    assert (Hd : l' ≡ₚ delete i l).
    { apply (Permutation_cons_inv (a := x)).
      by rewrite Hp, <- delete_Permutation. }
    destruct (IH _ Hd) as [code Hc]. exists (i :: code).
    destruct (length l) as [|n] eqn:Hn; [lia|]. simpl.
    rewrite Hn, Nat.mod_small by lia. rewrite Hi. f_equal.
    rewrite <- Hc. f_equal.
    pose proof (length_delete l i (ex_intro _ x Hi)). lia.
Qed.

End range_order.

Lemma rangeMap_Permutation {V} code (m : gmap string V) :
  Go.rangeMap code m ≡ₚ map_to_list m.
Proof. apply shuffle_Permutation. Qed.

Lemma rangeMap_complete {V} (m : gmap string V) l :
  l ≡ₚ map_to_list m → ∃ code, Go.rangeMap code m = l.
Proof. apply shuffle_complete. Qed.

Lemma elem_of_rangeMap {V} code (m : gmap string V) k v :
  (k, v) ∈ Go.rangeMap code m ↔ m !! k = Some v.
Proof. by rewrite rangeMap_Permutation, elem_of_map_to_list. Qed.

Lemma NoDup_rangeMap_keys {V} code (m : gmap string V) :
  NoDup (Go.rangeMap code m).*1.
Proof. rewrite rangeMap_Permutation. apply NoDup_fst_map_to_list. Qed.

(** ** The two tool loops of the adapter *)

Section agentkit_facts.
Context {L : GoLib}.
Implicit Types (order : list nat) (agent : Agent.t) (cfg : AgentConfig.t).
Implicit Types (tool : string) (tools : list string).

Lemma toolSet_fold_lookup tools (acc : gmap string bool) k :
  foldl (λ toolSet tool,
           match agentkit.toolMapping !! tool with
           | Some mapped => <[mapped := true]> toolSet
           | None => <[strings_ToLower tool := true]> toolSet
           end) acc tools !! k =
  if decide (k ∈ agentkit.mapTool <$> tools) then Some true else acc !! k.
Proof.
  revert acc. induction tools as [|tool tools IH]; intros acc.
  - rewrite fmap_nil. cbn [foldl]. by rewrite decide_False by apply not_elem_of_nil.
  - rewrite fmap_cons. cbn [foldl]. rewrite IH. clear IH.
    assert (Hstep :
      match agentkit.toolMapping !! tool with
      | Some mapped => <[mapped := true]> acc
      | None => <[strings_ToLower tool := true]> acc
      end = <[agentkit.mapTool tool := true]> acc).
    { unfold agentkit.mapTool. by destruct (agentkit.toolMapping !! tool). }
    rewrite Hstep.
    destruct (decide (k ∈ agentkit.mapTool <$> tools)) as [Hi|Hi].
    + rewrite decide_True; [done|by right].
    + destruct (decide (agentkit.mapTool tool = k)) as [<-|Hne].
      * rewrite lookup_insert_eq, decide_True; [done|left].
      * rewrite lookup_insert_ne by done. rewrite decide_False; [done|].
        intros [->|?]%elem_of_cons; done.
Qed.

Lemma toolSetOf_lookup tools k :
  agentkit.toolSetOf tools !! k =
  if decide (k ∈ agentkit.mapTool <$> tools) then Some true else None.
Proof. unfold agentkit.toolSetOf. by rewrite toolSet_fold_lookup, lookup_empty. Qed.

Lemma append_keys {V} (l : list (string * V)) (acc : list string) :
  foldl (λ Tools '(tool, _), Tools ++ [tool]) acc l = acc ++ l.*1.
Proof.
  revert acc. induction l as [|[k v] l IH]; intros acc; simpl.
  - by rewrite app_nil_r.
  - by rewrite IH, <- app_assoc.
Qed.

Lemma agentToConfig_Tools order agent :
  AgentConfig.Tools (agentkit.agentToConfig order agent) =
  (Go.rangeMap order (agentkit.toolSetOf (Agent.Tools agent))).*1.
Proof. unfold agentkit.agentToConfig. simpl. by rewrite append_keys. Qed.

Lemma elem_of_agentToConfig_Tools order agent t :
  t ∈ AgentConfig.Tools (agentkit.agentToConfig order agent) ↔
  t ∈ agentkit.mapTool <$> Agent.Tools agent.
Proof.
  rewrite agentToConfig_Tools, list_elem_of_fmap. split.
  - intros [[k v] [-> Hkv]]. apply elem_of_rangeMap in Hkv.
    rewrite toolSetOf_lookup in Hkv. by case_decide.
  - intros Ht. exists (t, true). split; [done|].
    apply elem_of_rangeMap. rewrite toolSetOf_lookup. by rewrite decide_True.
Qed.

Lemma NoDup_agentToConfig_Tools order agent :
  NoDup (AgentConfig.Tools (agentkit.agentToConfig order agent)).
Proof. rewrite agentToConfig_Tools. apply NoDup_rangeMap_keys. Qed.

Lemma agentToConfig_Tools_Permutation order1 order2 agent :
  AgentConfig.Tools (agentkit.agentToConfig order1 agent) ≡ₚ
  AgentConfig.Tools (agentkit.agentToConfig order2 agent).
Proof.
  rewrite !agentToConfig_Tools. by rewrite !rangeMap_Permutation.
Qed.

(** The reverse table, whatever the order of the loop that builds it. *)
Lemma invert_fold_lookup (l : list (string * string)) (acc : gmap string string) d k :
  foldl (λ reverseToolMapping '(k, v), <[v := k]> reverseToolMapping) acc l !! d
    = Some k →
  (k, d) ∈ l ∨ acc !! d = Some k.
Proof.
  revert acc. induction l as [|[k' v'] l IH]; intros acc; simpl; [by right|].
  intros [Hin|Hacc]%IH; [left; by right|].
  destruct (decide (v' = d)) as [->|Hne].
  - rewrite lookup_insert_eq in Hacc. injection Hacc as ->. left; left.
  - rewrite lookup_insert_ne in Hacc by done. by right.
Qed.

Lemma invert_fold_is_Some (l : list (string * string)) (acc : gmap string string) d :
  (∃ k, (k, d) ∈ l) ∨ is_Some (acc !! d) →
  is_Some (foldl (λ reverseToolMapping '(k, v), <[v := k]> reverseToolMapping)
                 acc l !! d).
Proof.
  revert acc. induction l as [|[k' v'] l IH]; intros acc; simpl.
  - intros [[k Hk]|?]; [by apply elem_of_nil in Hk|done].
  - intros [[k Hk]|Hacc]; apply IH.
    + apply elem_of_cons in Hk as [[= -> ->]|Hk]; [|left; eauto].
      right. rewrite lookup_insert_eq. by eexists.
    + right. destruct (decide (v' = d)) as [->|Hne].
      * rewrite lookup_insert_eq. by eexists.
      * by rewrite lookup_insert_ne.
Qed.

Lemma reverseToolMappingOf_Some order d k :
  agentkit.reverseToolMappingOf order !! d = Some k →
  agentkit.toolMapping !! k = Some d.
Proof.
  unfold agentkit.reverseToolMappingOf.
  intros [Hin|Hempty]%invert_fold_lookup.
  - by apply elem_of_rangeMap in Hin.
  - by rewrite lookup_empty in Hempty.
Qed.

Lemma reverseToolMappingOf_is_Some order d k :
  agentkit.toolMapping !! k = Some d →
  is_Some (agentkit.reverseToolMappingOf order !! d).
Proof.
  intros Hk. apply invert_fold_is_Some. left. exists k.
  by apply elem_of_rangeMap.
Qed.

Lemma reverseToolMappingOf_None order d :
  (∀ k, agentkit.toolMapping !! k ≠ Some d) →
  agentkit.reverseToolMappingOf order !! d = None.
Proof.
  intros Hno. destruct (agentkit.reverseToolMappingOf order !! d) as [k|] eqn:Hk;
    [|done].
  apply reverseToolMappingOf_Some in Hk. by destruct (Hno k).
Qed.

(** Every source of a destination wins the reverse table in some order:
    the one in which its entry is visited last. *)
Lemma reverseToolMappingOf_any d k :
  agentkit.toolMapping !! k = Some d →
  ∃ order, agentkit.reverseToolMappingOf order !! d = Some k.
Proof.
  intros Hk.
  destruct (rangeMap_complete agentkit.toolMapping
              (map_to_list (delete k agentkit.toolMapping) ++ [(k, d)]))
    as [order Ho].
  { rewrite <- Permutation_cons_append. by apply map_to_list_delete. }
  exists order. unfold agentkit.reverseToolMappingOf. rewrite Ho.
  rewrite foldl_app. simpl. by rewrite lookup_insert_eq.
Qed.

Lemma append_unmapped order (reverseToolMapping : gmap string string) tools
    (acc : list string) :
  foldl (λ Tools tool,
           match reverseToolMapping !! tool with
           | Some mapped => Tools ++ [mapped]
           | None => Tools ++ [tool]
           end) acc tools =
  acc ++ ((λ tool, match reverseToolMapping !! tool with
                   | Some mapped => mapped
                   | None => tool
                   end) <$> tools).
Proof.
  revert acc. induction tools as [|tool tools IH]; intros acc; simpl.
  - by rewrite app_nil_r.
  - rewrite IH. destruct (reverseToolMapping !! tool); by rewrite <- app_assoc.
Qed.

Lemma configToAgent_Tools order cfg :
  Agent.Tools (agentkit.configToAgent order cfg) =
  agentkit.unmapTool order <$> AgentConfig.Tools cfg.
Proof. unfold agentkit.configToAgent. simpl. by rewrite (append_unmapped order). Qed.

Lemma unmapTool_mapped order d k :
  agentkit.toolMapping !! k = Some d →
  agentkit.toolMapping !! agentkit.unmapTool order d = Some d.
Proof.
  intros Hk. unfold agentkit.unmapTool.
  destruct (reverseToolMappingOf_is_Some order d k Hk) as [k' Hk'].
  rewrite Hk'. by apply reverseToolMappingOf_Some in Hk'.
Qed.

Lemma unmapTool_unmapped order d :
  (∀ k, agentkit.toolMapping !! k ≠ Some d) → agentkit.unmapTool order d = d.
Proof.
  intros Hno. unfold agentkit.unmapTool.
  by rewrite reverseToolMappingOf_None.
Qed.

Lemma filter_eq_absent (l : list string) d :
  d ∉ l → filter (λ t, t = d) l = [].
Proof.
  induction l as [|x l IH]; [done|]. intros Hd.
  rewrite filter_cons, decide_False; [apply IH|]; intros ?; apply Hd;
    [by right|subst; left].
Qed.

Lemma once_of_NoDup (l : list string) d :
  NoDup l → d ∈ l → length (filter (λ t, t = d) l) = 1%nat.
Proof.
  induction 1 as [|x l Hx Hl IH]; [by intros ?%elem_of_nil|].
  rewrite filter_cons. intros [->|Hin]%elem_of_cons.
  - rewrite decide_True by done. by rewrite filter_eq_absent.
  - rewrite decide_False; [by apply IH|]. by intros ->.
Qed.

Lemma Parse_inr order data cfg :
  json_Unmarshal_AgentConfig data = inr cfg →
  agentkit.Parse order data = inr (agentkit.configToAgent order cfg).
Proof. unfold agentkit.Parse. by intros ->. Qed.

End agentkit_facts.


(** ** Round trip through the adapter (C1) *)

Ltac table_lookup :=
  repeat match goal with
         | H : _ ∈ _ :: _ |- _ => apply elem_of_cons in H as [->|H]
         | H : _ ∈ [] |- _ => by apply elem_of_nil in H
         end;
  vm_compute; by eauto.

(** C1, as stated, fails.  The tools of [Sample.reviewer] (Read, Bash,
    Task) and its model (sonnet) are all in the forward tables.  Bash and
    Task share the destination "shell", so the config has two tools and
    the agent read back from it has two tools, not three, whatever orders
    the two [range] loops follow.  In the run shown, the loop of
    [agentToConfig] visits shell, read, and the loop of [configToAgent]
    visits the table from Bash on (Bash, Task, WebSearch, WebFetch,
    Write, Grep, Glob, Edit, Read), so that WebFetch is the last source
    written for "shell": [Parse] returns the tools WebFetch and Read and
    the model "claude-3-5-sonnet-20241022". *)
Lemma C1_roundtrip_counterexample :
  (∀ tool, tool ∈ Agent.Tools Sample.reviewer →
           is_Some (agentkit.toolMapping !! tool)) ∧
  is_Some (agentkit.modelMapping !! Agent.Model Sample.reviewer) ∧
  (∀ order1 order2,
     agentkit.configToAgent order2
       (@agentkit.agentToConfig RefLaws.lib order1 Sample.reviewer)
     ≠ Sample.reviewer) ∧
  (Go.rangeMap [0%nat]
     (@agentkit.toolSetOf RefLaws.lib (Agent.Tools Sample.reviewer))).*1
    = ["shell"; "read"] ∧
  (Go.rangeMap [7; 7]%nat agentkit.toolMapping).*1
    = ["Bash"; "Task"; "WebSearch"; "WebFetch"; "Write"; "Grep"; "Glob"; "Edit";
       "Read"] ∧
  @agentkit.Marshal RefLaws.lib [0%nat] Sample.reviewer
    = inr Sample.reviewer_bytes ∧
  @agentkit.Parse RefLaws.lib [7; 7]%nat Sample.reviewer_bytes =
    inr {| Agent.Name := "reviewer";
           Agent.Description := "Reviews changes";
           Agent.Instructions := "Read the diff.";
           Agent.Tools := ["WebFetch"; "Read"];
           Agent.Model := "claude-3-5-sonnet-20241022" |} ∧
  @agentkit.Parse RefLaws.lib [7; 7]%nat Sample.reviewer_bytes
    ≠ inr Sample.reviewer.
Proof.
  split_and!.
  - intros tool Hin. simpl in Hin. table_lookup.
  - table_lookup.
  - intros order1 order2 Heq.
    apply (f_equal (λ a, length (Agent.Tools a))) in Heq.
    rewrite configToAgent_Tools, length_fmap, agentToConfig_Tools, length_fmap,
      rangeMap_Permutation in Heq.
    vm_compute in Heq. discriminate.
  - vm_compute. reflexivity.
  - vm_compute. reflexivity.
  - vm_compute. reflexivity.
  - vm_compute. reflexivity.
  - vm_compute. discriminate.
Qed.

(** C1, amended.  For an agent [E] whose tools are all in the forward
    table, and bytes of [Marshal E] that the JSON decoder reads back as
    the config that was encoded, [Parse] succeeds and returns an agent
    with the name, description and instructions of [E]; its tools are
    without duplicates, every one of them is an identifier of the
    forward table, no two of them have the same destination, they reach
    exactly the destinations the tools of [E] reach, and a tool of [E]
    that is the only source of its destination is among them.  So the
    tools of [E] that share a destination come back as one identifier
    with that destination; there are as many tools as the encoded
    config has. *)
Theorem C1_roundtrip_amended {L : GoLib} (order1 order2 : list nat) (E : Agent.t)
    (data : string) :
  (∀ tool, tool ∈ Agent.Tools E → is_Some (agentkit.toolMapping !! tool)) →
  agentkit.Marshal order1 E = inr data →
  json_Unmarshal_AgentConfig data = inr (agentkit.agentToConfig order1 E) →
  ∃ E', agentkit.Parse order2 data = inr E' ∧
    Agent.Name E' = Agent.Name E ∧
    Agent.Description E' = Agent.Description E ∧
    Agent.Instructions E' = Agent.Instructions E ∧
    NoDup (Agent.Tools E') ∧
    (∀ t', t' ∈ Agent.Tools E' → is_Some (agentkit.toolMapping !! t')) ∧
    (∀ t1 t2, t1 ∈ Agent.Tools E' → t2 ∈ Agent.Tools E' →
              agentkit.toolMapping !! t1 = agentkit.toolMapping !! t2 → t1 = t2) ∧
    (∀ d, (∃ t', t' ∈ Agent.Tools E' ∧ agentkit.toolMapping !! t' = Some d) ↔
          (∃ t, t ∈ Agent.Tools E ∧ agentkit.toolMapping !! t = Some d)) ∧
    (∀ t, t ∈ Agent.Tools E →
          (∀ k, agentkit.toolMapping !! k = agentkit.toolMapping !! t → k = t) →
          t ∈ Agent.Tools E') ∧
    length (Agent.Tools E')
      = length (AgentConfig.Tools (agentkit.agentToConfig order1 E)).
Proof.
  intros Htools _ Hdec.
  exists (agentkit.configToAgent order2 (agentkit.agentToConfig order1 E)).
  split; [by apply Parse_inr|].
  assert (Hfwd : ∀ d, d ∈ AgentConfig.Tools (agentkit.agentToConfig order1 E) ↔
                      ∃ t, t ∈ Agent.Tools E ∧ agentkit.toolMapping !! t = Some d).
  { intros d. rewrite elem_of_agentToConfig_Tools, list_elem_of_fmap. split.
    - intros (t & -> & Ht). exists t. split; [done|].
      unfold agentkit.mapTool. by destruct (Htools t Ht) as [d' ->].
    - intros (t & Ht & Hd). exists t. split; [|done].
      unfold agentkit.mapTool. by rewrite Hd. }
  assert (Hback : ∀ d, d ∈ AgentConfig.Tools (agentkit.agentToConfig order1 E) →
                       agentkit.toolMapping !! agentkit.unmapTool order2 d = Some d).
  { intros d (t & _ & Hd)%Hfwd. by eapply unmapTool_mapped. }
  split_and!; try done.
  - rewrite configToAgent_Tools. apply NoDup_fmap_2_strong.
    + intros d1 d2 H1%Hback H2%Hback Heq. congruence.
    + apply NoDup_agentToConfig_Tools.
  - intros t'. rewrite configToAgent_Tools.
    intros (d & -> & Hd)%list_elem_of_fmap. rewrite (Hback d Hd). by eexists.
  - intros t1 t2. rewrite configToAgent_Tools.
    intros (d1 & -> & Hd1)%list_elem_of_fmap (d2 & -> & Hd2)%list_elem_of_fmap.
    rewrite (Hback d1 Hd1), (Hback d2 Hd2). by intros [= ->].
  - intros d. rewrite configToAgent_Tools, <- Hfwd. split.
    + intros (t' & (d' & -> & Hd')%list_elem_of_fmap & Ht').
      rewrite (Hback d' Hd') in Ht'. by injection Ht' as <-.
    + intros Hd. exists (agentkit.unmapTool order2 d). split; [|by apply Hback].
      apply list_elem_of_fmap. by exists d.
  - intros t Ht Honly. rewrite configToAgent_Tools.
    destruct (Htools t Ht) as [d Hd].
    apply list_elem_of_fmap. exists d. split.
    + symmetry. apply Honly. rewrite Hd. apply Hback, Hfwd. eauto.
    + apply Hfwd. eauto.
  - by rewrite configToAgent_Tools, length_fmap.
Qed.

Lemma C1_roundtrip_amended_witness :
  (∀ tool, tool ∈ Agent.Tools Sample.reviewer →
           is_Some (agentkit.toolMapping !! tool)) ∧
  @agentkit.Marshal RefLaws.lib [0%nat] Sample.reviewer = inr Sample.reviewer_bytes ∧
  @json_Unmarshal_AgentConfig RefLaws.lib Sample.reviewer_bytes =
    inr (@agentkit.agentToConfig RefLaws.lib [0%nat] Sample.reviewer) ∧
  ∃ E', @agentkit.Parse RefLaws.lib [7; 7]%nat Sample.reviewer_bytes = inr E' ∧
    Agent.Name E' = "reviewer" ∧
    Agent.Description E' = "Reviews changes" ∧
    Agent.Instructions E' = "Read the diff." ∧
    NoDup (Agent.Tools E') ∧
    (∀ t', t' ∈ Agent.Tools E' → is_Some (agentkit.toolMapping !! t')) ∧
    (∀ t1 t2, t1 ∈ Agent.Tools E' → t2 ∈ Agent.Tools E' →
              agentkit.toolMapping !! t1 = agentkit.toolMapping !! t2 → t1 = t2) ∧
    (∀ d, (∃ t', t' ∈ Agent.Tools E' ∧ agentkit.toolMapping !! t' = Some d) ↔
          (∃ t, t ∈ ["Read"; "Bash"; "Task"] ∧ agentkit.toolMapping !! t = Some d)) ∧
    (∀ t, t ∈ ["Read"; "Bash"; "Task"] →
          (∀ k, agentkit.toolMapping !! k = agentkit.toolMapping !! t → k = t) →
          t ∈ Agent.Tools E') ∧
    length (Agent.Tools E') = 2%nat.
Proof.
  assert (H1 : ∀ tool, tool ∈ Agent.Tools Sample.reviewer →
                       is_Some (agentkit.toolMapping !! tool))
    by (intros tool Hin; simpl in Hin; table_lookup).
  assert (H2 : @agentkit.Marshal RefLaws.lib [0%nat] Sample.reviewer
               = inr Sample.reviewer_bytes) by (vm_compute; reflexivity).
  assert (H3 : @json_Unmarshal_AgentConfig RefLaws.lib Sample.reviewer_bytes =
               inr (@agentkit.agentToConfig RefLaws.lib [0%nat] Sample.reviewer))
    by (vm_compute; reflexivity).
  split_and!; [exact H1|exact H2|exact H3|].
  exact (C1_roundtrip_amended (L:=RefLaws.lib) [0%nat] [7; 7]%nat Sample.reviewer
           Sample.reviewer_bytes H1 H2 H3).
Defined.

(** ** Determinism (C2) *)

(** C2, as stated, fails.  Two invocations of [Marshal] on
    [Sample.reviewer], one whose loop over the tool set visits shell,
    read and one whose loop visits read, shell, give different bytes.
    Two invocations of [Parse] on [Sample.shells], one whose loop over
    the table ends with the entries of Bash and Task and one whose loop
    starts with them, give different agents: "shell" comes back as Task
    and as WebFetch. *)
Lemma C2_determinism_counterexample :
  let toolSet := @agentkit.toolSetOf RefLaws.lib (Agent.Tools Sample.reviewer) in
  ((Go.rangeMap [0%nat] toolSet).*1 = ["shell"; "read"] ∧
   (Go.rangeMap [1%nat] toolSet).*1 = ["read"; "shell"] ∧
   @agentkit.Marshal RefLaws.lib [0%nat] Sample.reviewer ≠
   @agentkit.Marshal RefLaws.lib [1%nat] Sample.reviewer) ∧
  ((Go.rangeMap [] agentkit.toolMapping).*1
     = ["WebSearch"; "WebFetch"; "Write"; "Grep"; "Glob"; "Edit"; "Read"; "Bash";
        "Task"] ∧
   (Go.rangeMap [7; 7]%nat agentkit.toolMapping).*1
     = ["Bash"; "Task"; "WebSearch"; "WebFetch"; "Write"; "Grep"; "Glob"; "Edit";
        "Read"] ∧
   @agentkit.Parse RefLaws.lib [] Sample.shells
     = inr (Agent.mk "demo" EmptyString EmptyString
              ["Task"; "Read"; "Task"; "lint"] EmptyString) ∧
   @agentkit.Parse RefLaws.lib [7; 7]%nat Sample.shells
     = inr (Agent.mk "demo" EmptyString EmptyString
              ["WebFetch"; "Read"; "WebFetch"; "lint"] EmptyString) ∧
   @agentkit.Parse RefLaws.lib [] Sample.shells ≠
   @agentkit.Parse RefLaws.lib [7; 7]%nat Sample.shells).
Proof.
  intros toolSet. split_and!; vm_compute; (reflexivity || discriminate).
Qed.

(** C2, amended.  [Marshal] and [Parse] are functions of their input and
    of the order their [range] loop over a map follows.  Two invocations
    of [Marshal] on one agent encode configs with the same name,
    description, instructions, model and token limit, and with tools
    lists that are permutations of each other.  [Parse] returns, at the
    position of a tool that no table entry has as destination, that tool
    on every invocation; at the position of a tool with a single source,
    that source on every invocation; at the position of a tool with
    several sources, one of these sources, and each of them in some
    order of the loop. *)
Theorem C2_determinism_amended {L : GoLib} :
  (∀ order1 order2 agent,
     let cfg1 := agentkit.agentToConfig order1 agent in
     let cfg2 := agentkit.agentToConfig order2 agent in
     agentkit.Marshal order1 agent =
       match json_MarshalIndent_AgentConfig cfg1 with
       | inl err => inl (MarshalError "agentkit" err)
       | inr enc => inr (enc +:+ String "010" EmptyString)
       end ∧
     AgentConfig.Name cfg1 = AgentConfig.Name cfg2 ∧
     AgentConfig.Description cfg1 = AgentConfig.Description cfg2 ∧
     AgentConfig.Instructions cfg1 = AgentConfig.Instructions cfg2 ∧
     AgentConfig.Model cfg1 = AgentConfig.Model cfg2 ∧
     AgentConfig.MaxTokens cfg1 = AgentConfig.MaxTokens cfg2 ∧
     AgentConfig.Tools cfg1 ≡ₚ AgentConfig.Tools cfg2) ∧
  (∀ order cfg i tool,
     AgentConfig.Tools cfg !! i = Some tool →
     ∃ tool', Agent.Tools (agentkit.configToAgent order cfg) !! i = Some tool' ∧
       ((∀ k, agentkit.toolMapping !! k ≠ Some tool) → tool' = tool) ∧
       (∀ k, agentkit.toolMapping !! k = Some tool →
             agentkit.toolMapping !! tool' = Some tool ∧
             ((∀ k', agentkit.toolMapping !! k' = Some tool → k' = k) → tool' = k))) ∧
  (∀ tool k,
     agentkit.toolMapping !! k = Some tool →
     ∃ order, ∀ cfg i,
       AgentConfig.Tools cfg !! i = Some tool →
       Agent.Tools (agentkit.configToAgent order cfg) !! i = Some k).
Proof.
  split_and!.
  - intros order1 order2 agent cfg1 cfg2. split_and!; try done.
    apply agentToConfig_Tools_Permutation.
  - intros order cfg i tool Hi. exists (agentkit.unmapTool order tool).
    split_and!.
    + by rewrite configToAgent_Tools, list_lookup_fmap, Hi.
    + apply unmapTool_unmapped.
    + intros k Hk. pose proof (unmapTool_mapped order tool k Hk) as Hu.
      split; [done|]. intros Honly. by apply Honly.
  - intros tool k Hk. destruct (reverseToolMappingOf_any tool k Hk) as [order Ho].
    exists order. intros cfg i Hi.
    rewrite configToAgent_Tools, list_lookup_fmap, Hi. simpl.
    unfold agentkit.unmapTool. by rewrite Ho.
Qed.

Lemma C2_determinism_amended_witness :
  AgentConfig.Tools (@agentkit.agentToConfig RefLaws.lib [0%nat] Sample.reviewer) ≡ₚ
  AgentConfig.Tools (@agentkit.agentToConfig RefLaws.lib [1%nat] Sample.reviewer) ∧
  (AgentConfig.Tools (AgentConfig.mk "a" "" "" ["lint"; "read"; "shell"] "" 0)
     !! 2%nat = Some "shell" ∧
   ∃ tool', Agent.Tools (agentkit.configToAgent [7; 7]%nat
                (AgentConfig.mk "a" "" "" ["lint"; "read"; "shell"] "" 0))
              !! 2%nat = Some tool' ∧
            agentkit.toolMapping !! tool' = Some "shell") ∧
  (agentkit.toolMapping !! "Bash" = Some "shell" ∧
   ∃ order, Agent.Tools (agentkit.configToAgent order
                (AgentConfig.mk "a" "" "" ["lint"; "read"; "shell"] "" 0))
              !! 2%nat = Some "Bash").
Proof.
  destruct (C2_determinism_amended (L:=RefLaws.lib)) as (Hm & Hp & Ha).
  split_and!.
  - apply (Hm [0%nat] [1%nat] Sample.reviewer).
  - reflexivity.
  - destruct (Hp [7; 7]%nat (AgentConfig.mk "a" "" "" ["lint"; "read"; "shell"] "" 0)
                2%nat "shell" eq_refl) as (tool' & Ht & _ & Hk).
    exists tool'. split; [exact Ht|].
    apply (Hk "Bash"). vm_compute. reflexivity.
  - vm_compute. reflexivity.
  - assert (Hb : agentkit.toolMapping !! "Bash" = Some "shell")
      by (vm_compute; reflexivity).
    destruct (Ha "shell" "Bash" Hb) as [order Ho]. exists order.
    by apply Ho.
Defined.

(** ** Deduplication (C3) *)

(** C3.  When an agent has two distinct tools that the table sends to the
    same destination, the tools list of the config that [Marshal] encodes
    holds that destination exactly once, in every order of the loop. *)
Theorem C3_deduplication {L : GoLib} (order : list nat) (agent : Agent.t)
    (t1 t2 d : string) :
  t1 ≠ t2 →
  t1 ∈ Agent.Tools agent →
  t2 ∈ Agent.Tools agent →
  agentkit.toolMapping !! t1 = Some d →
  agentkit.toolMapping !! t2 = Some d →
  let cfg := agentkit.agentToConfig order agent in
  agentkit.Marshal order agent =
    match json_MarshalIndent_AgentConfig cfg with
    | inl err => inl (MarshalError "agentkit" err)
    | inr enc => inr (enc +:+ String "010" EmptyString)
    end ∧
  length (filter (λ t, t = d) (AgentConfig.Tools cfg)) = 1%nat.
Proof.
  intros _ Hin _ Hd _ cfg. split; [done|].
  apply once_of_NoDup; [apply NoDup_agentToConfig_Tools|].
  apply elem_of_agentToConfig_Tools, list_elem_of_fmap. exists t1.
  split; [|done]. unfold agentkit.mapTool. by rewrite Hd.
Qed.

Lemma C3_deduplication_witness :
  "Bash" ≠ "Task" ∧
  "Bash" ∈ Agent.Tools Sample.reviewer ∧
  "Task" ∈ Agent.Tools Sample.reviewer ∧
  agentkit.toolMapping !! "Bash" = Some "shell" ∧
  agentkit.toolMapping !! "Task" = Some "shell" ∧
  length (filter (λ t, t = "shell")
            (AgentConfig.Tools (@agentkit.agentToConfig RefLaws.lib [1%nat]
                                  Sample.reviewer))) = 1%nat.
Proof.
  assert (H1 : "Bash" ≠ "Task") by discriminate.
  assert (H2 : "Bash" ∈ Agent.Tools Sample.reviewer) by (simpl; repeat constructor).
  assert (H3 : "Task" ∈ Agent.Tools Sample.reviewer) by (simpl; repeat constructor).
  assert (H4 : agentkit.toolMapping !! "Bash" = Some "shell")
    by (vm_compute; reflexivity).
  assert (H5 : agentkit.toolMapping !! "Task" = Some "shell")
    by (vm_compute; reflexivity).
  split_and!; [exact H1|exact H2|exact H3|exact H4|exact H5|].
  apply (C3_deduplication (L:=RefLaws.lib) [1%nat] Sample.reviewer
           "Bash" "Task" "shell" H1 H2 H3 H4 H5).
Defined.

(** ** Unknown tools (C4) *)

(** C4.  A tool of the agent that is absent from the forward table is in
    the tools list of the config that [Marshal] encodes, lower-cased, in
    every order of the loop; a tool of a config that no table entry has
    as destination is returned by [Parse] unchanged, at its position. *)
Theorem C4_unknown_tools {L : GoLib} :
  (∀ order agent tool,
     tool ∈ Agent.Tools agent →
     agentkit.toolMapping !! tool = None →
     let cfg := agentkit.agentToConfig order agent in
     agentkit.Marshal order agent =
       match json_MarshalIndent_AgentConfig cfg with
       | inl err => inl (MarshalError "agentkit" err)
       | inr enc => inr (enc +:+ String "010" EmptyString)
       end ∧
     strings_ToLower tool ∈ AgentConfig.Tools cfg) ∧
  (∀ order data cfg i tool,
     json_Unmarshal_AgentConfig data = inr cfg →
     AgentConfig.Tools cfg !! i = Some tool →
     (∀ k, agentkit.toolMapping !! k ≠ Some tool) →
     ∃ agent, agentkit.Parse order data = inr agent ∧
              Agent.Tools agent !! i = Some tool).
Proof.
  split.
  - intros order agent tool Hin Hnone cfg. split; [done|].
    apply elem_of_agentToConfig_Tools, list_elem_of_fmap. exists tool.
    split; [|done]. unfold agentkit.mapTool. by rewrite Hnone.
  - intros order data cfg i tool Hdec Hi Hno.
    exists (agentkit.configToAgent order cfg). split; [by apply Parse_inr|].
    rewrite configToAgent_Tools, list_lookup_fmap, Hi. simpl.
    by rewrite unmapTool_unmapped.
Qed.

Lemma no_source_of_lint k : agentkit.toolMapping !! k ≠ Some "lint".
Proof.
  intros Hk. apply elem_of_map_to_list in Hk. revert Hk. vm_compute.
  intros Hk. repeat (apply elem_of_cons in Hk as [Hk|Hk]; [discriminate|]).
  by apply elem_of_nil in Hk.
Qed.

Lemma C4_unknown_tools_witness :
  ("CustomTool" ∈ Agent.Tools Sample.custom ∧
   agentkit.toolMapping !! "CustomTool" = None ∧
   "customtool" ∈ AgentConfig.Tools
                    (@agentkit.agentToConfig RefLaws.lib [1%nat] Sample.custom)) ∧
  (∃ cfg, @json_Unmarshal_AgentConfig RefLaws.lib Sample.shells = inr cfg ∧
          AgentConfig.Tools cfg !! 3%nat = Some "lint") ∧
  ∃ agent, @agentkit.Parse RefLaws.lib [7; 7]%nat Sample.shells = inr agent ∧
           Agent.Tools agent !! 3%nat = Some "lint".
Proof.
  destruct (C4_unknown_tools (L:=RefLaws.lib)) as [Hm Hp].
  assert (H1 : "CustomTool" ∈ Agent.Tools Sample.custom) by (simpl; repeat constructor).
  assert (H2 : agentkit.toolMapping !! "CustomTool" = None)
    by (vm_compute; reflexivity).
  assert (H3 : @json_Unmarshal_AgentConfig RefLaws.lib Sample.shells =
               inr (AgentConfig.mk "demo" EmptyString EmptyString
                      ["shell"; "read"; "shell"; "lint"] EmptyString 0))
    by (vm_compute; reflexivity).
  split_and!.
  - exact H1.
  - exact H2.
  - apply (Hm [1%nat] Sample.custom "CustomTool" H1 H2).
  - eexists. split; [exact H3|reflexivity].
  - apply (Hp [7; 7]%nat Sample.shells _ 3%nat "lint" H3 eq_refl no_source_of_lint).
Defined.

(** ** Order and multiplicity of parsed tools (C10) *)

(** C10.  The tools of the agent that [Parse] returns are the tools of
    the decoded config, entry by entry and in the same order, each passed
    through the reverse table on its own; so the two lists have the same
    length, and a tool that occurs twice in the config occurs twice in
    the agent. *)
Theorem C10_parse_keeps_order {L : GoLib} (order : list nat) (data : string)
    (cfg : AgentConfig.t) :
  json_Unmarshal_AgentConfig data = inr cfg →
  ∃ agent, agentkit.Parse order data = inr agent ∧
    length (Agent.Tools agent) = length (AgentConfig.Tools cfg) ∧
    (∀ i, Agent.Tools agent !! i =
          agentkit.unmapTool order <$> (AgentConfig.Tools cfg !! i)) ∧
    (∀ i j tool, AgentConfig.Tools cfg !! i = Some tool →
                 AgentConfig.Tools cfg !! j = Some tool →
                 Agent.Tools agent !! i = Agent.Tools agent !! j ∧
                 is_Some (Agent.Tools agent !! i)).
Proof.
  intros Hdec. exists (agentkit.configToAgent order cfg).
  split; [by apply Parse_inr|]. rewrite configToAgent_Tools. split_and!.
  - apply length_fmap.
  - intros i. apply list_lookup_fmap.
  - intros i j tool Hi Hj. rewrite !list_lookup_fmap, Hi, Hj. by split.
Qed.

Lemma C10_parse_keeps_order_witness :
  @json_Unmarshal_AgentConfig RefLaws.lib Sample.shells =
    inr (AgentConfig.mk "demo" EmptyString EmptyString
           ["shell"; "read"; "shell"; "lint"] EmptyString 0) ∧
  ∃ agent, @agentkit.Parse RefLaws.lib [] Sample.shells = inr agent ∧
    length (Agent.Tools agent) = 4%nat ∧
    Agent.Tools agent !! 0%nat = Agent.Tools agent !! 2%nat ∧
    is_Some (Agent.Tools agent !! 0%nat).
Proof.
  assert (H3 : @json_Unmarshal_AgentConfig RefLaws.lib Sample.shells =
               inr (AgentConfig.mk "demo" EmptyString EmptyString
                      ["shell"; "read"; "shell"; "lint"] EmptyString 0))
    by (vm_compute; reflexivity).
  split; [exact H3|].
  destruct (C10_parse_keeps_order (L:=RefLaws.lib) [] Sample.shells _ H3)
    as (agent & Hp & Hlen & _ & Hdup).
  exists agent. split_and!; [exact Hp|exact Hlen|..];
    apply (Hdup 0%nat 2%nat "shell" eq_refl eq_refl).
Defined.

(** ** Malformed input (C7) *)

(** C7.  [Parse] is total: on bytes that the JSON decoder rejects it
    returns a [ParseError] with the format name "agentkit" and the
    decoder's error as cause, on bytes it accepts it returns the agent of
    the decoded config and no error.  As a method of the registered
    adapter it leaves the file system and the output as they were. *)
Theorem C7_parse_errors {L : GoLib} {D : Deps} :
  (∀ order data,
     match json_Unmarshal_AgentConfig data with
     | inl err => agentkit.Parse order data = inl (ParseError "agentkit" err)
     | inr cfg => agentkit.Parse order data = inr (agentkit.configToAgent order cfg)
     end) ∧
  (∀ data w,
     let '(r, w') := core.Parse agentkit.adapter data w in
     r = agentkit.Parse (hd [] (orders w)) data ∧
     fs w' = fs w ∧ output w' = output w).
Proof.
  split.
  - intros order data. unfold agentkit.Parse.
    by destruct (json_Unmarshal_AgentConfig data).
  - intros data w. by cbv [core.Parse agentkit.adapter mbind M_bind mret M_ret
                             nextOrder fs output].
Qed.

(** The truncated input of the specification's scenario. *)
Lemma C7_parse_errors_witness :
  @agentkit.Parse RefLaws.lib [] Sample.truncated =
    inl (ParseError "agentkit" (libError "unexpected end of JSON input")) ∧
  (∃ agent, @agentkit.Parse RefLaws.lib [] Sample.shells = inr agent) ∧
  fst (core.Parse (@agentkit.adapter RefLaws.lib (RefLaws.deps _)) Sample.truncated
         (RefLaws.world RefLaws.lib RefLaws.cwd [])) =
    inl (ParseError "agentkit" (libError "unexpected end of JSON input")).
Proof.
  destruct (C7_parse_errors (L:=RefLaws.lib) (D:=RefLaws.deps _)) as [Hp Hw].
  split_and!.
  - pose proof (Hp [] Sample.truncated) as Ht. vm_compute in Ht.
    vm_compute. exact Ht.
  - pose proof (Hp [] Sample.shells) as Hs.
    destruct (@json_Unmarshal_AgentConfig RefLaws.lib Sample.shells) as [e|cfg];
      [|by eexists].
    exfalso. revert Hs. vm_compute. discriminate.
  - pose proof (Hw Sample.truncated (RefLaws.world RefLaws.lib RefLaws.cwd [])) as Ht.
    destruct (core.Parse _ _ _) as [r w']. destruct Ht as (-> & _). simpl.
    vm_compute. reflexivity.
Defined.

(** ** Writing a file (C8, C9) *)

(** C8.  When [Marshal] gives bytes, [WriteFile] first calls
    [os.MkdirAll] on the parent directory of the path with the directory
    mode of [agents/core].  If that fails, the result is a [WriteError]
    with the path and the cause, and [os.WriteFile] is not called.
    Otherwise it calls [os.WriteFile] on the path with the bytes and the
    file mode of [agents/core]; a failure is a [WriteError] with the path
    and the cause.  When both calls return nil the result is nil, the
    parent directory exists (with the directory mode if it was missing),
    and the file holds the bytes (with the file mode if it is new). *)
Theorem C8_WriteFile {L : GoLib} {D : Deps} (agent : Agent.t) (path data : string)
    (w : World) :
  agentkit.Marshal (hd [] (orders w)) agent = inr data →
  let dir := filepath_Dir path in
  let '(r, w') := agentkit.WriteFile agent path w in
  match os_MkdirAll dir core_DefaultDirMode (fs w) with
  | (Some err, s1) => r = Some (WriteError path err) ∧ fs w' = s1
  | (None, s1) =>
      match os_WriteFile path data core_DefaultFileMode s1 with
      | (Some err, s2) => r = Some (WriteError path err) ∧ fs w' = s2
      | (None, s2) =>
          r = None ∧ fs w' = s2 ∧
          is_Some (dirAt (fs w') dir) ∧
          (dirAt (fs w) dir = None → dirAt (fs w') dir = Some core_DefaultDirMode) ∧
          snd <$> fileAt (fs w') path = Some data ∧
          (fileAt (fs w) path = None →
           fileAt (fs w') path = Some (core_DefaultFileMode, data))
      end
  end.
Proof.
  intros HM dir.
  cbv [agentkit.WriteFile mbind M_bind mret M_ret nextOrder os.MkdirAll
       os.WriteFile].
  rewrite HM. simpl. fold dir.
  destruct (os_MkdirAll dir core_DefaultDirMode (fs w)) as [[e1|] s1] eqn:Hmk;
    [by split|]. simpl.
  destruct (os_WriteFile path data core_DefaultFileMode s1) as [[e2|] s2] eqn:Hwr;
    [by split|]. simpl.
  split_and!; try done.
  - rewrite (WriteFile_dirs _ _ _ _ _ _ dir Hwr). by eapply MkdirAll_dir.
  - intros Hnone. rewrite (WriteFile_dirs _ _ _ _ _ _ dir Hwr).
    by eapply MkdirAll_mode.
  - by eapply WriteFile_data.
  - intros Hnone. eapply WriteFile_mode; [done|].
    by rewrite (MkdirAll_files _ _ _ _ _ path Hmk).
Qed.

Lemma C8_WriteFile_witness :
  let w := RefLaws.world RefLaws.lib RefLaws.cwd [[0%nat]] in
  let path := "out/agents/reviewer.json" in
  @agentkit.Marshal RefLaws.lib (hd [] (orders w)) Sample.reviewer
    = inr Sample.reviewer_bytes ∧
  let '(r, w') :=
    @agentkit.WriteFile RefLaws.lib (RefLaws.deps _) Sample.reviewer path w in
  r = None ∧
  (Ref.directory (fs w) "out/agents" = None →
   Ref.directory (fs w') "out/agents" = Some 493%N) ∧
  (Ref.regular (fs w) path = None →
   Ref.regular (fs w') path = Some (384%N, Sample.reviewer_bytes)).
Proof.
  intros w path.
  assert (HM : @agentkit.Marshal RefLaws.lib (hd [] (orders w)) Sample.reviewer
               = inr Sample.reviewer_bytes) by (vm_compute; reflexivity).
  split; [exact HM|].
  pose proof (C8_WriteFile (L:=RefLaws.lib) (D:=RefLaws.deps _)
                Sample.reviewer path Sample.reviewer_bytes w HM) as Hw.
  destruct (@agentkit.WriteFile RefLaws.lib (RefLaws.deps _) Sample.reviewer path w)
    as [r w'].
  assert (Hmk : fst (@os_MkdirAll RefLaws.lib "out/agents" (@core_DefaultDirMode _ (RefLaws.deps RefLaws.lib))
                       (fs w)) = None) by (vm_compute; reflexivity).
  assert (Hwr : fst (@os_WriteFile RefLaws.lib path Sample.reviewer_bytes
                       (@core_DefaultFileMode _ (RefLaws.deps RefLaws.lib))
                       (snd (@os_MkdirAll RefLaws.lib "out/agents"
                               (@core_DefaultDirMode _ (RefLaws.deps RefLaws.lib)) (fs w)))) = None)
    by (vm_compute; reflexivity).
  revert Hw. cbn zeta.
  change (@filepath_Dir RefLaws.lib path) with "out/agents".
  destruct (@os_MkdirAll RefLaws.lib "out/agents" (@core_DefaultDirMode _ (RefLaws.deps RefLaws.lib)) (fs w))
    as [[e1|] s1]; [discriminate Hmk|]. cbn [snd] in Hwr.
  destruct (@os_WriteFile RefLaws.lib path Sample.reviewer_bytes
              (@core_DefaultFileMode _ (RefLaws.deps RefLaws.lib)) s1) as [[e2|] s2]; [discriminate Hwr|].
  intros (Hr & _ & _ & Hd & _ & Hf). split_and!; [exact Hr|exact Hd|exact Hf].
Defined.

(** C9.  When [Marshal] returns an error, [WriteFile] returns that error,
    a [MarshalError] of the format "agentkit", and the file system after
    the call is the file system before it: neither [os.MkdirAll] nor
    [os.WriteFile] is called. *)
Theorem C9_WriteFile_marshal_error {L : GoLib} {D : Deps} (agent : Agent.t)
    (path : string) (w : World) (err : error) :
  agentkit.Marshal (hd [] (orders w)) agent = inl err →
  let '(r, w') := agentkit.WriteFile agent path w in
  r = Some err ∧
  (∃ cause, err = MarshalError "agentkit" cause) ∧
  fs w' = fs w ∧
  output w' = output w.
Proof.
  intros HM.
  cbv [agentkit.WriteFile mbind M_bind mret M_ret nextOrder].
  rewrite HM. simpl. split_and!; try done.
  unfold agentkit.Marshal in HM.
  destruct (json_MarshalIndent_AgentConfig _) as [cause|enc]; [|done].
  injection HM as <-. by exists cause.
Qed.

Lemma C9_WriteFile_marshal_error_witness :
  let w := RefLaws.world RefLaws.failingEncoder RefLaws.cwd [] in
  let err := MarshalError "agentkit" (libError "json: unsupported value") in
  @agentkit.Marshal RefLaws.failingEncoder (hd [] (orders w)) Sample.reviewer
    = inl err ∧
  let '(r, w') :=
    @agentkit.WriteFile RefLaws.failingEncoder (RefLaws.deps _) Sample.reviewer
      "out/agents/reviewer.json" w in
  r = Some err ∧ fs w' = fs w.
Proof.
  intros w err.
  assert (HM : @agentkit.Marshal RefLaws.failingEncoder (hd [] (orders w))
                 Sample.reviewer = inl err) by (vm_compute; reflexivity).
  split; [exact HM|].
  pose proof (C9_WriteFile_marshal_error (L:=RefLaws.failingEncoder)
                (D:=RefLaws.deps _) Sample.reviewer "out/agents/reviewer.json"
                w err HM) as Hw.
  destruct (agentkit.WriteFile _ _ _) as [r w'].
  destruct Hw as (Hr & _ & Hfs & _). by split.
Defined.

(** ** Unknown format (C6) *)

Lemma elem_of_AdapterNames {L : GoLib} (registry : gmap string core.Adapter) name :
  name ∈ core.AdapterNames registry ↔ is_Some (core.GetAdapter registry name).
Proof.
  unfold core.AdapterNames, core.GetAdapter. rewrite list_elem_of_fmap. split.
  - intros ([k a] & -> & Hka). apply elem_of_map_to_list in Hka. by exists a.
  - intros [a Ha]. exists (name, a). split; [done|]. by apply elem_of_map_to_list.
Qed.

Lemma registry_lookup_other (L : GoLib) name :
  name ≠ "agentkit" → core.GetAdapter (RefLaws.registry L) name = None.
Proof.
  intros Hne. unfold core.GetAdapter, RefLaws.registry, agentkit.init, core.Register.
  rewrite lookup_insert_ne by (intros Heq; apply Hne; symmetry; exact Heq).
  apply lookup_empty.
Qed.

(** C6, as stated, fails.  The registry holds the agentkit adapter only,
    the format "nope" is not registered, and the output directory
    "a.txt/x" lies under the regular file "a.txt": [generateAgents] fails
    with the error of the directory creation, which names neither the
    format nor the registered adapters. *)
Lemma C6_unknown_format_counterexample :
  let w := RefLaws.world RefLaws.lib
             (<["a.txt" := Ref.Regular 384%N "hello"]> RefLaws.cwd) [] in
  core.GetAdapter (RefLaws.registry RefLaws.lib) "nope" = None ∧
  core.AdapterNames (RefLaws.registry RefLaws.lib) = ["agentkit"] ∧
  fst (genagents.generateAgents (RefLaws.registry RefLaws.lib) [Sample.reader]
         "nope" "a.txt/x" false w) =
    Some (ErrorfW "failed to create output directory: %w" []
            (libError "not a directory")) ∧
  fst (genagents.generateAgents (RefLaws.registry RefLaws.lib) [Sample.reader]
         "nope" "a.txt/x" false w) ≠
    Some (Errorf "unknown format %q (available: %s)" ["nope"; "agentkit"]).
Proof.
  intros w. split_and!.
  - by apply registry_lookup_other.
  - vm_compute. reflexivity.
  - vm_compute. reflexivity.
  - vm_compute. discriminate.
Qed.

(** C6, amended.  For a format that is not in the registry,
    [generateAgents] first creates the output directory.  If that fails,
    the result is the error of the directory creation; otherwise it is
    the error "unknown format" that carries the requested format and the
    names [AdapterNames] lists, which are the names of all registered
    adapters.  In both cases no adapter is called, no regular file is
    created or changed, and nothing is printed. *)
Theorem C6_unknown_format_amended {L : GoLib} (registry : gmap string core.Adapter)
    (agentList : list Agent.t) (format outputDir : string) (verbose : bool)
    (w : World) :
  core.GetAdapter registry format = None →
  let '(r, w') :=
    genagents.generateAgents registry agentList format outputDir verbose w in
  match os_MkdirAll outputDir 493%N (fs w) with
  | (Some err, s1) =>
      r = Some (ErrorfW "failed to create output directory: %w" [] err) ∧
      fs w' = s1
  | (None, s1) =>
      r = Some (Errorf "unknown format %q (available: %s)"
                  [format; Go.Join (core.AdapterNames registry) ", "]) ∧
      fs w' = s1
  end ∧
  (∀ name, name ∈ core.AdapterNames registry ↔
           is_Some (core.GetAdapter registry name)) ∧
  (∀ p, fileAt (fs w') p = fileAt (fs w) p) ∧
  output w' = output w.
Proof.
  intros Hnone.
  cbv [genagents.generateAgents mbind M_bind mret M_ret os.MkdirAll].
  rewrite Hnone.
  destruct (os_MkdirAll outputDir 493%N (fs w)) as [[err|] s1] eqn:Hmk; simpl;
    (split_and!; [done|done|apply elem_of_AdapterNames| |done]);
    intros p; by rewrite (MkdirAll_files _ _ _ _ _ p Hmk).
Qed.

Lemma C6_unknown_format_amended_witness :
  let w := RefLaws.world RefLaws.lib RefLaws.cwd [] in
  core.GetAdapter (RefLaws.registry RefLaws.lib) "nope" = None ∧
  let '(r, w') :=
    genagents.generateAgents (RefLaws.registry RefLaws.lib) [Sample.reader]
      "nope" "out" false w in
  r = Some (Errorf "unknown format %q (available: %s)" ["nope"; "agentkit"]) ∧
  (∀ p, Ref.regular (fs w') p = Ref.regular (fs w) p) ∧
  Ref.directory (fs w') "out" = Some 493%N.
Proof.
  intros w.
  assert (Hn : core.GetAdapter (RefLaws.registry RefLaws.lib) "nope" = None)
    by (by apply registry_lookup_other).
  split; [exact Hn|].
  pose proof (C6_unknown_format_amended (L:=RefLaws.lib) (RefLaws.registry _)
                [Sample.reader] "nope" "out" false w Hn) as Hw.
  destruct (genagents.generateAgents _ _ _ _ _ _) as [r w'].
  assert (Hmk : fst (@os_MkdirAll RefLaws.lib "out" 493%N (fs w)) = None)
    by (vm_compute; reflexivity).
  assert (Hdir : Ref.directory (snd (@os_MkdirAll RefLaws.lib "out" 493%N (fs w)))
                   "out" = Some 493%N) by (vm_compute; reflexivity).
  destruct (@os_MkdirAll RefLaws.lib "out" 493%N (fs w)) as [[e1|] s1];
    [discriminate Hmk|]. cbn [snd] in Hdir.
  destruct Hw as ((Hr & Hfs) & _ & Hfiles & _).
  split_and!; [exact Hr|exact Hfiles|].
  by rewrite Hfs.
Defined.

(** ** Several targets (C5) *)

Section targets.
Context {L : GoLib} {D : Deps}.
Variable registry : gmap string core.Adapter.
Variables (agentList : list Agent.t) (verbose : bool).

(** The loop over a list of targets that continues another. *)
Lemma generateEachTarget_app pre post w :
  genagents.generateEachTarget registry agentList verbose (pre ++ post) w =
  let '(status, w1) :=
    genagents.generateEachTarget registry agentList verbose pre w in
  if decide (status = 0%Z) then
    genagents.generateEachTarget registry agentList verbose post w1
  else (status, w1).
Proof.
  revert w. induction pre as [|pair_ rest IH]; intros w; [done|].
  cbn [app genagents.generateEachTarget].
  destruct (Go.SplitN2 pair_ ":") as [|part0 [|part1 [|]]]; try done.
  cbv [mbind M_bind].
  destruct (genagents.generateAgents _ _ _ _ _ w) as [[err|] w1]; [done|].
  apply IH.
Qed.

Lemma generateEachTarget_agrees targetPairs w :
  fst (genagents.generateEachTarget registry agentList verbose targetPairs w) = 0%Z →
  genagents.generateEachTarget_spec registry agentList verbose targetPairs w =
  genagents.generateEachTarget registry agentList verbose targetPairs w.
Proof.
  revert w. induction targetPairs as [|pair_ rest IH]; intros w; [done|].
  cbn [genagents.generateEachTarget genagents.generateEachTarget_spec].
  destruct (Go.SplitN2 pair_ ":") as [|part0 [|part1 [|]]]; try done.
  cbv [mbind M_bind].
  destruct (genagents.generateAgents _ _ _ _ _ w) as [[err|] w1]; [done|].
  apply IH.
Qed.

Lemma processEachTarget_app projectDir priorityFilter Team pre post w :
  genagents.processEachTarget registry projectDir priorityFilter verbose Team
    agentList (pre ++ post) w =
  let '(r, w1) :=
    genagents.processEachTarget registry projectDir priorityFilter verbose Team
      agentList pre w in
  match r with
  | Some err => (Some err, w1)
  | None =>
      genagents.processEachTarget registry projectDir priorityFilter verbose Team
        agentList post w1
  end.
Proof.
  revert w. induction pre as [|target rest IH]; intros w; [done|].
  cbn [app genagents.processEachTarget]. case_decide.
  - destruct verbose; cbv [mbind M_bind mret M_ret fmt.Printf fmt.emit]; apply IH.
  - destruct verbose; cbv [mbind M_bind mret M_ret fmt.Printf fmt.emit];
      match goal with
      | |- context [genagents.generateForPlatform ?a ?b ?c ?d ?e ?f ?g] =>
          destruct (genagents.generateForPlatform a b c d e f g) as [[err|] w1]
      end; try done; apply IH.
Qed.

Lemma processEachTarget_error projectDir priorityFilter Team Targets w e :
  fst (genagents.processEachTarget registry projectDir priorityFilter verbose
         Team agentList Targets w) = Some e →
  ∃ target err,
    target ∈ Targets ∧
    e = ErrorfW "failed to generate %s: %w" [Target.Name target] err.
Proof.
  revert w. induction Targets as [|target rest IH]; intros w; [done|].
  assert (Hrest : ∀ w0,
    fst (genagents.processEachTarget registry projectDir priorityFilter verbose
           Team agentList rest w0) = Some e →
    ∃ target0 err, target0 ∈ target :: rest ∧
      e = ErrorfW "failed to generate %s: %w" [Target.Name target0] err).
  { intros w0 (t & err & Ht & ->)%IH. exists t, err. split; [by right|done]. }
  cbn [genagents.processEachTarget]. case_decide.
  - destruct verbose; cbv [mbind M_bind mret M_ret fmt.Printf fmt.emit];
      apply Hrest.
  - destruct verbose; cbv [mbind M_bind mret M_ret fmt.Printf fmt.emit];
      match goal with
      | |- context [genagents.generateForPlatform ?a ?b ?c ?d ?e ?f ?g] =>
          destruct (genagents.generateForPlatform a b c d e f g) as [[err|] w1]
      end; try apply Hrest;
      intros [= <-]; exists target, err; (split; [left|done]).
Qed.
Lemma printed_nil (w : World) : printed [] w = w.
Proof. unfold printed. rewrite app_nil_r. by destruct w. Qed.

(** One turn of the loop of [runProjectMode] over the targets. *)
Lemma processEachTarget_step projectDir priorityFilter Team target rest w :
  let run := genagents.processEachTarget registry projectDir priorityFilter
               verbose Team agentList in
  if decide (priorityFilter ≠ EmptyString
             ∧ Target.Priority target ≠ priorityFilter) then
    run (target :: rest) w =
    run rest
      (printed
         (if verbose then
            [Stdout "Skipping %s (priority %s, filter %s)\n"
               [argString (Target.Name target);
                argString (Target.Priority target); argString priorityFilter]]
          else []) w)
  else
    let outputDir := filepath_Join [projectDir; Target.Output target] in
    let w0 :=
      printed
        (if verbose then
           [Stdout "\nProcessing target: %s (%s)\n"
              [argString (Target.Name target);
               argString (Target.Platform target)];
            Stdout "  Output: %s\n" [argString outputDir]]
         else []) w in
    match genagents.generateForPlatform registry Team agentList target outputDir
            verbose w0 with
    | (Some err, w1) =>
        run (target :: rest) w =
        (Some (ErrorfW "failed to generate %s: %w" [Target.Name target] err), w1)
    | (None, w1) => run (target :: rest) w = run rest w1
    end.
Proof.
  intros run. subst run. cbn [genagents.processEachTarget]. case_decide.
  - destruct verbose; cbv [mbind M_bind mret M_ret fmt.Printf fmt.emit];
      [done|by rewrite printed_nil].
  - destruct verbose; cbv [mbind M_bind mret M_ret fmt.Printf fmt.emit];
      cbn [fs orders output].
    + unfold printed. rewrite <- app_assoc. cbn [app].
      by destruct (genagents.generateForPlatform _ _ _ _ _ _ _) as [[err|] w1].
    + rewrite printed_nil.
      by destruct (genagents.generateForPlatform _ _ _ _ _ _ _) as [[err|] w1].
Qed.

(** The two loops as [main] and [runProjectMode] reach them. *)
Lemma main_targets flags w w1 :
  genagents.project flags = EmptyString →
  agents_ReadCanonicalDir (genagents.specDir flags) w = (inr agentList, w1) →
  agentList ≠ [] →
  genagents.verbose flags = false →
  genagents.targets flags ≠ EmptyString →
  genagents.main registry flags w =
  genagents.generateEachTarget registry agentList false
    (Go.Split1 (genagents.targets flags) ",") w1.
Proof.
  intros Hproject Hread Hne Hverbose Htargets. unfold genagents.main.
  rewrite decide_False by (by intros []).
  cbv [mbind M_bind]. rewrite Hread.
  rewrite decide_False by (by destruct agentList).
  rewrite Hverbose. cbv [mret M_ret]. by rewrite decide_True.
Qed.

Lemma runProjectMode_targets projectDir priorityFilter deploymentData deployment
    w w1 :
  os_ReadFile (filepath_Join [projectDir; "deployment.json"]) (fs w)
    = inr deploymentData →
  json_Unmarshal_Deployment deploymentData = inr deployment →
  agents_ReadCanonicalDir (filepath_Join [projectDir; "agents"]) w
    = (inr agentList, w1) →
  agentList ≠ [] →
  genagents.runProjectMode registry projectDir priorityFilter false w =
  genagents.processEachTarget registry projectDir priorityFilter false
    (Deployment.Team deployment) agentList (Deployment.Targets deployment) w1.
Proof.
  intros Hfile Hjson Hread Hne. unfold genagents.runProjectMode.
  cbv [mbind M_bind mret M_ret os.ReadFile]. rewrite Hfile, Hjson, Hread.
  by rewrite decide_False by (by destruct agentList).
Qed.

End targets.

(** C5, as stated, fails.  With the targets "nope:out1" and
    "agentkit:out2", the first of an unregistered format, the loop of
    [main] reports the failure of the first target and exits with status
    1; generation is not invoked for the second target, whose output
    directory and file do not exist afterwards, as they do after the
    loop that attempts every target. *)
Lemma C5_partial_failure_counterexample :
  let w := RefLaws.world RefLaws.lib RefLaws.cwd [] in
  let targetPairs := ["nope:out1"; "agentkit:out2"] in
  let code := genagents.generateEachTarget (RefLaws.registry RefLaws.lib)
                [Sample.reader] false targetPairs w in
  let spec := genagents.generateEachTarget_spec (RefLaws.registry RefLaws.lib)
                [Sample.reader] false targetPairs w in
  fst code = 1%Z ∧
  output (snd code) =
    [Stderr "Error generating %s agents: %v\n"
       [argString "nope";
        argError (Errorf "unknown format %q (available: %s)" ["nope"; "agentkit"])]] ∧
  Ref.directory (fs (snd code)) "out2" = None ∧
  Ref.regular (fs (snd code)) "out2/reader.json" = None ∧
  Ref.directory (fs (snd spec)) "out2" = Some 493%N ∧
  is_Some (Ref.regular (fs (snd spec)) "out2/reader.json") ∧
  code ≠ spec.
Proof.
  intros w targetPairs code spec. split_and!.
  - vm_compute. reflexivity.
  - vm_compute. reflexivity.
  - vm_compute. reflexivity.
  - vm_compute. reflexivity.
  - vm_compute. reflexivity.
  - vm_compute. by eexists.
  - intros Heq. apply (f_equal (λ x : Z * @World RefLaws.lib,
                                Ref.directory (fs (snd x)) "out2")) in Heq.
    vm_compute in Heq. discriminate.
Qed.

(** C5, amended.  In the loop of [main] over the targets, a target whose
    generation returns an error is reported on the standard error stream
    with its format and the error, and the run ends there with status 1:
    a run that ends with a status other than 0 on a list of targets ends
    the same way, in the same world, on every longer list.  Only a run
    that ends with status 0 has attempted every target.  The loop of
    [runProjectMode] likewise stops at the first target whose generation
    returns an error, and returns that error wrapped with the name of
    the target: a turn of the loop skips a target the priority filter
    excludes and goes on; otherwise it calls [generateForPlatform] on
    the target and, on an error, returns "failed to generate" with the
    name of the target and that error, in the world that call left,
    without looking at the targets after it; on nil it goes on with the
    targets after it.  Without verbose output, [runProjectMode] that has
    read the deployment and agents is this loop over the targets of the
    deployment. *)
Theorem C5_first_failure_ends_the_run {L : GoLib} {D : Deps}
    (registry : gmap string core.Adapter) (agentList : list Agent.t)
    (verbose : bool) :
  (∀ pair_ rest part0 part1 w,
     Go.SplitN2 pair_ ":" = [part0; part1] →
     let targetFormat := strings_TrimSpace part0 in
     let targetDir := strings_TrimSpace part1 in
     match genagents.generateAgents registry agentList targetFormat targetDir
             verbose w with
     | (Some err, w1) =>
         genagents.generateEachTarget registry agentList verbose (pair_ :: rest) w =
         (1%Z, snd (fmt.Fprintf_Stderr "Error generating %s agents: %v\n"
                      [argString targetFormat; argError err] w1))
     | (None, w1) =>
         genagents.generateEachTarget registry agentList verbose (pair_ :: rest) w =
         genagents.generateEachTarget registry agentList verbose rest w1
     end) ∧
  (∀ pre post w,
     fst (genagents.generateEachTarget registry agentList verbose pre w) ≠ 0%Z →
     genagents.generateEachTarget registry agentList verbose (pre ++ post) w =
     genagents.generateEachTarget registry agentList verbose pre w) ∧
  (∀ targetPairs w,
     fst (genagents.generateEachTarget registry agentList verbose targetPairs w)
       = 0%Z →
     genagents.generateEachTarget_spec registry agentList verbose targetPairs w =
     genagents.generateEachTarget registry agentList verbose targetPairs w) ∧
  (∀ projectDir priorityFilter Team target rest w,
     let run := genagents.processEachTarget registry projectDir priorityFilter
                  verbose Team agentList in
     if decide (priorityFilter ≠ EmptyString
                ∧ Target.Priority target ≠ priorityFilter) then
       run (target :: rest) w =
       run rest
         (printed
            (if verbose then
               [Stdout "Skipping %s (priority %s, filter %s)\n"
                  [argString (Target.Name target);
                   argString (Target.Priority target);
                   argString priorityFilter]]
             else []) w)
     else
       let outputDir := filepath_Join [projectDir; Target.Output target] in
       let w0 :=
         printed
           (if verbose then
              [Stdout "\nProcessing target: %s (%s)\n"
                 [argString (Target.Name target);
                  argString (Target.Platform target)];
               Stdout "  Output: %s\n" [argString outputDir]]
            else []) w in
       match genagents.generateForPlatform registry Team agentList target
               outputDir verbose w0 with
       | (Some err, w1) =>
           run (target :: rest) w =
           (Some (ErrorfW "failed to generate %s: %w" [Target.Name target] err),
            w1)
       | (None, w1) => run (target :: rest) w = run rest w1
       end) ∧
  (∀ projectDir priorityFilter deploymentData deployment w w1,
     os_ReadFile (filepath_Join [projectDir; "deployment.json"]) (fs w)
       = inr deploymentData →
     json_Unmarshal_Deployment deploymentData = inr deployment →
     agents_ReadCanonicalDir (filepath_Join [projectDir; "agents"]) w
       = (inr agentList, w1) →
     agentList ≠ [] →
     genagents.runProjectMode registry projectDir priorityFilter false w =
     genagents.processEachTarget registry projectDir priorityFilter false
       (Deployment.Team deployment) agentList (Deployment.Targets deployment)
       w1) ∧
  (∀ projectDir priorityFilter Team pre post w,
     is_Some (fst (genagents.processEachTarget registry projectDir priorityFilter
                     verbose Team agentList pre w)) →
     genagents.processEachTarget registry projectDir priorityFilter verbose Team
       agentList (pre ++ post) w =
     genagents.processEachTarget registry projectDir priorityFilter verbose Team
       agentList pre w) ∧
  (∀ projectDir priorityFilter Team Targets w e,
     fst (genagents.processEachTarget registry projectDir priorityFilter verbose
            Team agentList Targets w) = Some e →
     ∃ target err,
       target ∈ Targets ∧
       e = ErrorfW "failed to generate %s: %w" [Target.Name target] err).
Proof.
  split_and!.
  - intros pair_ rest part0 part1 w Hsplit targetFormat targetDir.
    cbn [genagents.generateEachTarget]. rewrite Hsplit.
    cbv [mbind M_bind]. fold targetFormat targetDir.
    by destruct (genagents.generateAgents _ _ _ _ _ w) as [[err|] w1].
  - intros pre post w Hfail. rewrite generateEachTarget_app.
    destruct (genagents.generateEachTarget _ _ _ pre w) as [status w1].
    by rewrite decide_False.
  - apply generateEachTarget_agrees.
  - apply processEachTarget_step.
  - apply runProjectMode_targets.
  - intros projectDir priorityFilter Team pre post w [e He].
    rewrite processEachTarget_app.
    destruct (genagents.processEachTarget _ _ _ _ _ _ pre w) as [r w1].
    simpl in He. by subst r.
  - apply processEachTarget_error.
Qed.

Lemma C5_first_failure_ends_the_run_witness :
  let w := RefLaws.world RefLaws.lib RefLaws.cwd [] in
  let run := genagents.generateEachTarget (RefLaws.registry RefLaws.lib)
               [Sample.reader] false in
  let project := genagents.processEachTarget (D:=RefLaws.deps _)
                   (RefLaws.registry RefLaws.lib) "proj" EmptyString false "team"
                   [Sample.reader] in
  (fst (run ["nope:out1"] w) ≠ 0%Z ∧
   run (["nope:out1"] ++ ["agentkit:out2"]) w = run ["nope:out1"] w) ∧
  (fst (run ["agentkit:out1"; "agentkit:out2"] w) = 0%Z ∧
   genagents.generateEachTarget_spec (RefLaws.registry RefLaws.lib)
     [Sample.reader] false ["agentkit:out1"; "agentkit:out2"] w =
   run ["agentkit:out1"; "agentkit:out2"] w) ∧
  (is_Some (fst (project [Sample.heroku] w)) ∧
   project ([Sample.heroku] ++ [Sample.local]) w = project [Sample.heroku] w) ∧
  (fst (project [Sample.heroku; Sample.local] w) =
     Some (ErrorfW "failed to generate %s: %w" ["web"]
             (Errorf "unsupported platform: %s" ["heroku"])) ∧
   ∃ target err,
     target ∈ [Sample.heroku; Sample.local] ∧
     ErrorfW "failed to generate %s: %w" ["web"]
       (Errorf "unsupported platform: %s" ["heroku"]) =
     ErrorfW "failed to generate %s: %w" [Target.Name target] err) ∧
  (project [Sample.heroku; Sample.local] w =
     (Some (ErrorfW "failed to generate %s: %w" ["web"]
              (Errorf "unsupported platform: %s" ["heroku"])), w) ∧
   genagents.processEachTarget (D:=RefLaws.deps _)
     (RefLaws.registry RefLaws.lib) "proj" "p2" false "team" [Sample.reader]
     [Sample.heroku; Sample.local] w =
   genagents.processEachTarget (D:=RefLaws.deps _)
     (RefLaws.registry RefLaws.lib) "proj" "p2" false "team" [Sample.reader]
     [Sample.local] w).
Proof.
  intros w run project.
  destruct (C5_first_failure_ends_the_run (L:=RefLaws.lib) (D:=RefLaws.deps _)
              (RefLaws.registry RefLaws.lib) [Sample.reader] false)
    as (_ & Hstop & Hall & Hstep & _ & Hpstop & Hperr).
  assert (H1 : fst (run ["nope:out1"] w) ≠ 0%Z) by (vm_compute; discriminate).
  assert (H2 : fst (run ["agentkit:out1"; "agentkit:out2"] w) = 0%Z)
    by (vm_compute; reflexivity).
  assert (H3 : is_Some (fst (project [Sample.heroku] w))) by (vm_compute; by eexists).
  assert (H4 : fst (project [Sample.heroku; Sample.local] w) =
               Some (ErrorfW "failed to generate %s: %w" ["web"]
                       (Errorf "unsupported platform: %s" ["heroku"])))
    by (vm_compute; reflexivity).
  split_and!.
  - exact H1.
  - exact (Hstop ["nope:out1"] ["agentkit:out2"] w H1).
  - exact H2.
  - exact (Hall ["agentkit:out1"; "agentkit:out2"] w H2).
  - exact H3.
  - exact (Hpstop "proj" EmptyString "team" [Sample.heroku] [Sample.local] w H3).
  - exact H4.
  - exact (Hperr "proj" EmptyString "team" [Sample.heroku; Sample.local] w _ H4).
  - exact (Hstep "proj" EmptyString "team" Sample.heroku [Sample.local] w).
  - exact (Hstep "proj" "p2" "team" Sample.heroku [Sample.local] w).
Defined.

(** * Further properties of the adapter *)

(** ** The tools of a generated config *)

Section config_tools.
Context {L : GoLib}.
Implicit Types (order : list nat) (agent : Agent.t) (cfg : AgentConfig.t).

(** The destinations of the forward table, and two facts read off the
    table: a destination is one of five names, and no source is a
    destination. *)
Lemma toolMapping_entries :
  map_to_list agentkit.toolMapping =
  [("WebSearch", "shell"); ("WebFetch", "shell"); ("Write", "write");
   ("Grep", "grep"); ("Glob", "glob"); ("Edit", "write"); ("Read", "read");
   ("Bash", "shell"); ("Task", "shell")].
Proof. vm_compute. reflexivity. Qed.

Lemma toolMapping_destination k d :
  agentkit.toolMapping !! k = Some d →
  d ∈ ["shell"; "read"; "write"; "glob"; "grep"].
Proof.
  intros Hk. apply elem_of_map_to_list in Hk. rewrite toolMapping_entries in Hk.
  repeat (apply elem_of_cons in Hk as [[= -> ->]|Hk]; [repeat constructor|]).
  by apply elem_of_nil in Hk.
Qed.

Lemma toolMapping_source_not_destination k d k' :
  agentkit.toolMapping !! k = Some d → agentkit.toolMapping !! k' ≠ Some k.
Proof.
  intros Hk Hk'. apply elem_of_map_to_list in Hk, Hk'.
  rewrite toolMapping_entries in Hk, Hk'.
  repeat (apply elem_of_cons in Hk as [[= -> ->]|Hk];
          [repeat (apply elem_of_cons in Hk' as [[=]|Hk']);
           by apply elem_of_nil in Hk'|]).
  by apply elem_of_nil in Hk.
Qed.

(** What one pass through [configToAgent] and then [agentToConfig] does
    to the tools of a config on which the two loop bodies cancel. *)
Lemma tools_there_and_back order1 order2 cfg :
  NoDup (AgentConfig.Tools cfg) →
  (∀ t, t ∈ AgentConfig.Tools cfg →
        agentkit.mapTool (agentkit.unmapTool order1 t) = t) →
  AgentConfig.Tools
    (agentkit.agentToConfig order2 (agentkit.configToAgent order1 cfg))
  ≡ₚ AgentConfig.Tools cfg.
Proof.
  intros Hnd Hid. apply NoDup_Permutation;
    [apply NoDup_agentToConfig_Tools|done|].
  intros t. rewrite elem_of_agentToConfig_Tools, configToAgent_Tools.
  rewrite <- list_fmap_compose, list_elem_of_fmap. split.
  - intros (d & -> & Hd). simpl. by rewrite Hid.
  - intros Ht. exists t. split; [|done]. simpl. by rewrite Hid.
Qed.

Lemma mapTool_unmapTool_destination order d k :
  agentkit.toolMapping !! k = Some d →
  agentkit.mapTool (agentkit.unmapTool order d) = d.
Proof.
  intros Hk. unfold agentkit.mapTool.
  by rewrite (unmapTool_mapped order d k Hk).
Qed.

End config_tools.

(** X1.  In every order of the loop, the tools of the config that
    [agentToConfig] builds are without duplicates and are exactly the
    results of the loop body on the tools of the agent: the table
    destination of a tool in the table, the lower-cased tool otherwise.
    So the config has no more tools than the agent, and it has none
    exactly when the agent has none. *)
Theorem X1_config_tools {L : GoLib} (order : list nat) (agent : Agent.t) :
  let tools := AgentConfig.Tools (agentkit.agentToConfig order agent) in
  NoDup tools ∧
  (∀ t, t ∈ tools ↔
        ∃ tool, tool ∈ Agent.Tools agent ∧
                t = match agentkit.toolMapping !! tool with
                    | Some mapped => mapped
                    | None => strings_ToLower tool
                    end) ∧
  (length tools ≤ length (Agent.Tools agent))%nat ∧
  (tools = [] ↔ Agent.Tools agent = []).
Proof.
  intros tools.
  assert (Hel : ∀ t, t ∈ tools ↔ t ∈ agentkit.mapTool <$> Agent.Tools agent)
    by apply elem_of_agentToConfig_Tools.
  assert (Hnd : NoDup tools) by apply NoDup_agentToConfig_Tools.
  split_and!; [done| | |].
  - intros t. rewrite Hel, list_elem_of_fmap. by split; intros (tool & ? & ?); eauto.
  - rewrite <- (length_fmap agentkit.mapTool (Agent.Tools agent)).
    apply submseteq_length, NoDup_submseteq; [done|]. intros t. by rewrite Hel.
  - split.
    + intros Hnil. destruct (Agent.Tools agent) as [|tool rest] eqn:Ht; [done|].
      assert (Hin : agentkit.mapTool tool ∈ tools) by (apply Hel; left).
      rewrite Hnil in Hin. by apply elem_of_nil in Hin.
    + intros Hnil. destruct tools as [|t rest] eqn:Ht; [done|].
      assert (Hin : t ∈ agentkit.mapTool <$> Agent.Tools agent)
        by (apply Hel; left).
      rewrite Hnil in Hin. by apply elem_of_nil in Hin.
Qed.

(** X2.  The tools of the config depend only on which tools the agent
    has: two agents with the same tools, in any order and any number of
    times, get the same config tools up to order, whatever orders the
    two loops follow. *)
Theorem X2_config_tools_of_the_set {L : GoLib} (order1 order2 : list nat)
    (agent1 agent2 : Agent.t) :
  (∀ tool, tool ∈ Agent.Tools agent1 ↔ tool ∈ Agent.Tools agent2) →
  AgentConfig.Tools (agentkit.agentToConfig order1 agent1) ≡ₚ
  AgentConfig.Tools (agentkit.agentToConfig order2 agent2).
Proof.
  intros Hsame. apply NoDup_Permutation; try apply NoDup_agentToConfig_Tools.
  intros t. rewrite !elem_of_agentToConfig_Tools, !list_elem_of_fmap.
  split; intros (tool & -> & Hin); exists tool; (split; [done|]); by apply Hsame.
Qed.

Lemma X2_config_tools_of_the_set_witness :
  let agent1 := Agent.mk "a" EmptyString EmptyString ["Read"; "Bash"] EmptyString in
  let agent2 :=
    Agent.mk "b" EmptyString EmptyString ["Bash"; "Read"; "Bash"] EmptyString in
  (∀ tool, tool ∈ Agent.Tools agent1 ↔ tool ∈ Agent.Tools agent2) ∧
  AgentConfig.Tools (@agentkit.agentToConfig RefLaws.lib [0%nat] agent1) ≡ₚ
  AgentConfig.Tools (@agentkit.agentToConfig RefLaws.lib [1%nat] agent2).
Proof.
  intros agent1 agent2.
  assert (Hsame : ∀ tool, tool ∈ Agent.Tools agent1 ↔ tool ∈ Agent.Tools agent2).
  { intros tool. simpl. rewrite !elem_of_cons, !elem_of_nil. tauto. }
  split; [exact Hsame|].
  exact (X2_config_tools_of_the_set (L:=RefLaws.lib) [0%nat] [1%nat]
           agent1 agent2 Hsame).
Defined.

(** X3.  For an agent whose tools are all in the forward table, the
    config holds only agentkit tools (shell, read, write, glob, grep),
    so at most five. *)
Theorem X3_config_tools_of_known_agent {L : GoLib} (order : list nat)
    (agent : Agent.t) :
  (∀ tool, tool ∈ Agent.Tools agent → is_Some (agentkit.toolMapping !! tool)) →
  let tools := AgentConfig.Tools (agentkit.agentToConfig order agent) in
  (∀ t, t ∈ tools → t ∈ ["shell"; "read"; "write"; "glob"; "grep"]) ∧
  (length tools ≤ 5)%nat.
Proof.
  intros Hknown tools.
  assert (Hsub : ∀ t, t ∈ tools → t ∈ ["shell"; "read"; "write"; "glob"; "grep"]).
  { intros t (tool & -> & Hin)%elem_of_agentToConfig_Tools%list_elem_of_fmap.
    destruct (Hknown tool Hin) as [d Hd]. unfold agentkit.mapTool. rewrite Hd.
    by eapply toolMapping_destination. }
  split; [done|].
  change 5%nat with (length ["shell"; "read"; "write"; "glob"; "grep"]).
  apply submseteq_length, NoDup_submseteq; [|done].
  apply NoDup_agentToConfig_Tools.
Qed.

Lemma X3_config_tools_of_known_agent_witness :
  (∀ tool, tool ∈ Agent.Tools Sample.reviewer →
           is_Some (agentkit.toolMapping !! tool)) ∧
  (∀ t, t ∈ AgentConfig.Tools
              (@agentkit.agentToConfig RefLaws.lib [1%nat] Sample.reviewer) →
        t ∈ ["shell"; "read"; "write"; "glob"; "grep"]) ∧
  (length (AgentConfig.Tools
             (@agentkit.agentToConfig RefLaws.lib [1%nat] Sample.reviewer))
   ≤ 5)%nat.
Proof.
  assert (H1 : ∀ tool, tool ∈ Agent.Tools Sample.reviewer →
                       is_Some (agentkit.toolMapping !! tool))
    by (intros tool Hin; simpl in Hin; table_lookup).
  split; [exact H1|].
  exact (X3_config_tools_of_known_agent (L:=RefLaws.lib) [1%nat]
           Sample.reviewer H1).
Defined.

(** X4.  [Parse] never leaves an agentkit tool name in the agent: a tool
    of the agent that [configToAgent] builds is none of the destinations
    of the forward table, whatever the config and the order of the
    loop. *)
Theorem X4_parsed_tools_are_not_destinations {L : GoLib} (order : list nat)
    (cfg : AgentConfig.t) (t k : string) :
  t ∈ Agent.Tools (agentkit.configToAgent order cfg) →
  agentkit.toolMapping !! k ≠ Some t.
Proof.
  rewrite configToAgent_Tools. intros (d & -> & Hd)%list_elem_of_fmap Hk.
  unfold agentkit.unmapTool in Hk.
  destruct (agentkit.reverseToolMappingOf order !! d) as [src|] eqn:Hrev.
  - apply reverseToolMappingOf_Some in Hrev.
    exact (toolMapping_source_not_destination src d k Hrev Hk).
  - destruct (reverseToolMappingOf_is_Some order d k Hk) as [src Hsrc]. congruence.
Qed.

Lemma X4_parsed_tools_are_not_destinations_witness :
  let cfg := AgentConfig.mk "a" EmptyString EmptyString ["shell"; "lint"]
               EmptyString 0 in
  "Task" ∈ Agent.Tools (agentkit.configToAgent [] cfg) ∧
  agentkit.toolMapping !! "Bash" ≠ Some "Task".
Proof.
  intros cfg.
  assert (Hin : "Task" ∈ Agent.Tools (agentkit.configToAgent [] cfg)).
  { assert (Ht : Agent.Tools (agentkit.configToAgent [] cfg) = ["Task"; "lint"])
      by (vm_compute; reflexivity).
    rewrite Ht. left. }
  split; [exact Hin|].
  exact (X4_parsed_tools_are_not_destinations (L:=RefLaws.lib) [] cfg
           "Task" "Bash" Hin).
Defined.

(** ** From a config to an agent and back *)

Lemma modelMapping_entries :
  map_to_list agentkit.modelMapping =
  [("opus", "claude-3-opus-20240229"); ("sonnet", "claude-3-5-sonnet-20241022");
   ("haiku", "claude-3-haiku-20240307")].
Proof. vm_compute. reflexivity. Qed.

Lemma modelMapping_value_not_key k v :
  agentkit.modelMapping !! k = Some v → agentkit.modelMapping !! v = None.
Proof.
  intros Hk. apply elem_of_map_to_list in Hk. rewrite modelMapping_entries in Hk.
  repeat (apply elem_of_cons in Hk as [[= -> ->]|Hk];
          [vm_compute; reflexivity|]).
  by apply elem_of_nil in Hk.
Qed.

Lemma agentToConfig_Model_unmapped {L : GoLib} order agent :
  agentkit.modelMapping !! Agent.Model agent = None →
  AgentConfig.Model (agentkit.agentToConfig order agent) = Agent.Model agent.
Proof.
  intros Hm. unfold agentkit.agentToConfig. cbn [AgentConfig.Model]. rewrite Hm.
  destruct (decide (Agent.Model agent ≠ EmptyString)) as [|Hne]; [done|].
  destruct (decide (Agent.Model agent = EmptyString)) as [->|]; [done|].
  by destruct Hne.
Qed.

(** X5.  A config whose tools are distinct agentkit tools (destinations
    of the forward table) goes through [configToAgent] and back through
    [agentToConfig] with its name, description and instructions
    unchanged and with the same tools up to order, whatever orders the
    loops follow; its model is unchanged when it is not one of the
    aliases of the model table; its token limit is not kept: it comes
    back as 0. *)
Theorem X5_config_to_agent_and_back {L : GoLib} (order1 order2 : list nat)
    (cfg : AgentConfig.t) :
  NoDup (AgentConfig.Tools cfg) →
  (∀ t, t ∈ AgentConfig.Tools cfg → ∃ k, agentkit.toolMapping !! k = Some t) →
  let cfg' := agentkit.agentToConfig order2 (agentkit.configToAgent order1 cfg) in
  AgentConfig.Name cfg' = AgentConfig.Name cfg ∧
  AgentConfig.Description cfg' = AgentConfig.Description cfg ∧
  AgentConfig.Instructions cfg' = AgentConfig.Instructions cfg ∧
  AgentConfig.Tools cfg' ≡ₚ AgentConfig.Tools cfg ∧
  (agentkit.modelMapping !! AgentConfig.Model cfg = None →
   AgentConfig.Model cfg' = AgentConfig.Model cfg) ∧
  AgentConfig.MaxTokens cfg' = 0%Z.
Proof.
  intros Hnd Hdest cfg'. split_and!; try done.
  - apply tools_there_and_back; [done|]. intros t [k Hk]%Hdest.
    by eapply mapTool_unmapTool_destination.
  - intros Hm. unfold cfg'. by rewrite agentToConfig_Model_unmapped.
Qed.

Lemma X5_config_to_agent_and_back_witness :
  let cfg := AgentConfig.mk "a" "d" "i" ["shell"; "grep"; "write"]
               "claude-3-opus-20240229" 4096 in
  let cfg' := @agentkit.agentToConfig RefLaws.lib [2; 0]%nat
                (agentkit.configToAgent [7; 7]%nat cfg) in
  NoDup (AgentConfig.Tools cfg) ∧
  (∀ t, t ∈ AgentConfig.Tools cfg → ∃ k, agentkit.toolMapping !! k = Some t) ∧
  AgentConfig.Tools cfg' ≡ₚ ["shell"; "grep"; "write"] ∧
  AgentConfig.Model cfg' = "claude-3-opus-20240229" ∧
  AgentConfig.MaxTokens cfg' = 0%Z.
Proof.
  intros cfg cfg'.
  assert (H1 : NoDup (AgentConfig.Tools cfg)).
  { simpl. repeat (constructor; [rewrite ?elem_of_cons, ?elem_of_nil;
                                  intros Hin; intuition discriminate|]).
    constructor. }
  assert (H2 : ∀ t, t ∈ AgentConfig.Tools cfg →
                    ∃ k, agentkit.toolMapping !! k = Some t).
  { intros t Hin. simpl in Hin.
    apply elem_of_cons in Hin as [->|Hin]; [by exists "Bash"|].
    apply elem_of_cons in Hin as [->|Hin]; [by exists "Grep"|].
    apply elem_of_cons in Hin as [->|Hin]; [by exists "Write"|].
    by apply elem_of_nil in Hin. }
  destruct (X5_config_to_agent_and_back (L:=RefLaws.lib) [7; 7]%nat [2; 0]%nat
              cfg H1 H2) as (_ & _ & _ & Ht & Hm & Hx).
  split_and!; [exact H1|exact H2|exact Ht| |exact Hx].
  apply Hm. vm_compute. reflexivity.
Defined.

(** ** Generating twice *)

(** The reference [ToLower] lower-cases once and for all, and what it
    returns is no source of the forward table (every source starts with
    a capital letter). *)
Lemma Ref_lower_lower c : Ref.lower (Ref.lower c) = Ref.lower c.
Proof. destruct c as [[] [] [] [] [] [] [] []]; vm_compute; reflexivity. Qed.

Lemma Ref_lower_not_capital c :
  bool_decide (65 ≤ Ref.code (Ref.lower c) ≤ 90)%nat = false.
Proof. destruct c as [[] [] [] [] [] [] [] []]; vm_compute; reflexivity. Qed.

Lemma Ref_chars_str l : Ref.chars (Ref.str l) = l.
Proof. apply String.list_ascii_of_string_of_list_ascii. Qed.

Lemma Ref_ToLower_idempotent s : Ref.ToLower (Ref.ToLower s) = Ref.ToLower s.
Proof.
  unfold Ref.ToLower. rewrite Ref_chars_str, <- list_fmap_compose. f_equal.
  apply list_fmap_ext. intros i c _. apply Ref_lower_lower.
Qed.

Lemma Ref_ToLower_no_source s : agentkit.toolMapping !! Ref.ToLower s = None.
Proof.
  destruct (agentkit.toolMapping !! Ref.ToLower s) as [d|] eqn:Hd; [|done].
  exfalso. apply elem_of_map_to_list in Hd. rewrite toolMapping_entries in Hd.
  assert (Hcap : ∀ c r, Ref.ToLower s = String c r →
                        bool_decide (65 ≤ Ref.code c ≤ 90)%nat = false).
  { intros c r. unfold Ref.ToLower, Ref.chars, Ref.str.
    destruct s as [|c0 s0]; [done|]. simpl. intros [= <- _].
    apply Ref_lower_not_capital. }
  repeat (apply elem_of_cons in Hd as [[= Hs _]|Hd];
          [by specialize (Hcap _ _ Hs)|]).
  by apply elem_of_nil in Hd.
Qed.

(** X6.  Generating is stable: the config that [agentToConfig] builds,
    read back by [configToAgent] and generated again, is the same config
    up to the order of its tools, whatever orders the three loops
    follow, provided [strings.ToLower] returns strings it leaves
    unchanged and that are no sources of the forward table. *)
Theorem X6_generating_twice {L : GoLib} (order1 order2 order3 : list nat)
    (agent : Agent.t) :
  (∀ s, strings_ToLower (strings_ToLower s) = strings_ToLower s) →
  (∀ s, agentkit.toolMapping !! strings_ToLower s = None) →
  let cfg1 := agentkit.agentToConfig order1 agent in
  let cfg2 := agentkit.agentToConfig order3 (agentkit.configToAgent order2 cfg1) in
  AgentConfig.Name cfg2 = AgentConfig.Name cfg1 ∧
  AgentConfig.Description cfg2 = AgentConfig.Description cfg1 ∧
  AgentConfig.Instructions cfg2 = AgentConfig.Instructions cfg1 ∧
  AgentConfig.Model cfg2 = AgentConfig.Model cfg1 ∧
  AgentConfig.MaxTokens cfg2 = AgentConfig.MaxTokens cfg1 ∧
  AgentConfig.Tools cfg2 ≡ₚ AgentConfig.Tools cfg1.
Proof.
  intros Hidem Hnosrc cfg1 cfg2. split_and!; try done.
  - unfold cfg2. apply agentToConfig_Model_unmapped.
    change (Agent.Model (agentkit.configToAgent order2 cfg1))
      with (AgentConfig.Model cfg1).
    unfold cfg1, agentkit.agentToConfig. cbn [AgentConfig.Model].
    destruct (agentkit.modelMapping !! Agent.Model agent) as [v|] eqn:Hm.
    + by eapply modelMapping_value_not_key.
    + destruct (decide (Agent.Model agent ≠ EmptyString)); [done|].
      vm_compute. reflexivity.
  - apply tools_there_and_back; [apply NoDup_agentToConfig_Tools|].
    intros t (tool & -> & Hin)%elem_of_agentToConfig_Tools%list_elem_of_fmap.
    destruct (agentkit.toolMapping !! tool) as [d|] eqn:Hd.
    + assert (agentkit.mapTool tool = d) as ->
        by (unfold agentkit.mapTool; by rewrite Hd).
      by eapply mapTool_unmapTool_destination.
    + assert (agentkit.mapTool tool = strings_ToLower tool) as ->
        by (unfold agentkit.mapTool; by rewrite Hd).
      destruct (agentkit.reverseToolMappingOf order2 !! strings_ToLower tool)
        as [src|] eqn:Hrev.
      * apply reverseToolMappingOf_Some in Hrev.
        by eapply mapTool_unmapTool_destination.
      * unfold agentkit.unmapTool. rewrite Hrev. unfold agentkit.mapTool.
        by rewrite Hnosrc, Hidem.
Qed.

Lemma X6_generating_twice_witness :
  let cfg1 := @agentkit.agentToConfig RefLaws.lib [1%nat] Sample.custom in
  let cfg2 := @agentkit.agentToConfig RefLaws.lib [0%nat]
                (agentkit.configToAgent [7; 7]%nat cfg1) in
  (∀ s, @strings_ToLower RefLaws.lib (@strings_ToLower RefLaws.lib s)
        = @strings_ToLower RefLaws.lib s) ∧
  (∀ s, agentkit.toolMapping !! @strings_ToLower RefLaws.lib s = None) ∧
  AgentConfig.Name cfg2 = AgentConfig.Name cfg1 ∧
  AgentConfig.Description cfg2 = AgentConfig.Description cfg1 ∧
  AgentConfig.Instructions cfg2 = AgentConfig.Instructions cfg1 ∧
  AgentConfig.Model cfg2 = AgentConfig.Model cfg1 ∧
  AgentConfig.MaxTokens cfg2 = AgentConfig.MaxTokens cfg1 ∧
  AgentConfig.Tools cfg2 ≡ₚ AgentConfig.Tools cfg1.
Proof.
  intros cfg1 cfg2. split; [exact Ref_ToLower_idempotent|].
  split; [exact Ref_ToLower_no_source|].
  exact (X6_generating_twice (L:=RefLaws.lib) [1%nat] [7; 7]%nat [0%nat]
           Sample.custom Ref_ToLower_idempotent Ref_ToLower_no_source).
Defined.

(** ** The full configuration *)

Lemma appendAgents_spec {L : GoLib} (agents : list Agent.t)
    (acc : list AgentConfig.t) (w : World) :
  agentkit.appendAgents agents acc w =
  (acc ++ imap (λ i agent,
                  agentkit.agentToConfig (default [] (orders w !! i)) agent)
               agents,
   {| fs := fs w; orders := drop (length agents) (orders w);
      output := output w |}).
Proof.
  revert acc w. induction agents as [|agent rest IH]; intros acc w.
  - simpl. rewrite app_nil_r, drop_0. by destruct w.
  - cbn [agentkit.appendAgents]. cbv [mbind M_bind nextOrder]. rewrite IH.
    cbn [fs orders output]. rewrite <- app_assoc. cbn [app imap length].
    f_equal; [f_equal; f_equal|f_equal].
    + destruct (orders w); reflexivity.
    + apply imap_ext. intros i a _. simpl. destruct (orders w); reflexivity.
    + destruct (orders w); [simpl; by rewrite !drop_nil|reflexivity].
Qed.

Lemma GenerateFullConfig_world {L : GoLib} (agents : list Agent.t) (w : World) :
  fs (snd (agentkit.GenerateFullConfig agents w)) = fs w ∧
  output (snd (agentkit.GenerateFullConfig agents w)) = output w.
Proof.
  unfold agentkit.GenerateFullConfig. cbv [mbind M_bind mret M_ret].
  by rewrite appendAgents_spec.
Qed.

(** X7.  [GenerateFullConfig] returns the default configuration with one
    agent config per agent, in the order of the agents and under their
    names, each built by [agentToConfig] with the order of a loop of its
    own; the mode, workspace, MCP, LLM and timeout settings are those of
    [DefaultConfig]; the file system and the output are untouched. *)
Theorem X7_GenerateFullConfig {L : GoLib} (agents : list Agent.t) (w : World) :
  let '(cfg, w') := agentkit.GenerateFullConfig agents w in
  length (Config.Agents cfg) = length agents ∧
  AgentConfig.Name <$> Config.Agents cfg = Agent.Name <$> agents ∧
  (∀ i agent, agents !! i = Some agent →
     Config.Agents cfg !! i =
     Some (agentkit.agentToConfig (default [] (orders w !! i)) agent)) ∧
  Config.Mode cfg = "local" ∧
  Config.Workspace cfg = "." ∧
  Config.MCP cfg = Config.MCP agentkit.DefaultConfig ∧
  Config.LLM cfg = Config.LLM agentkit.DefaultConfig ∧
  Config.Timeouts cfg = Config.Timeouts agentkit.DefaultConfig ∧
  fs w' = fs w ∧ output w' = output w ∧
  orders w' = drop (length agents) (orders w).
Proof.
  unfold agentkit.GenerateFullConfig. cbv [mbind M_bind mret M_ret].
  rewrite appendAgents_spec. cbn [Config.Agents agentkit.DefaultConfig app].
  cbn [Config.Mode Config.Workspace Config.MCP Config.LLM Config.Timeouts
       fs orders output].
  split_and!; try done.
  - by rewrite length_imap.
  - generalize (orders w). intros os. clear w.
    induction agents as [|agent rest IH] using rev_ind; [done|].
    rewrite imap_app, !fmap_app, IH. reflexivity.
  - intros i agent Hi. by rewrite list_lookup_imap, Hi.
Qed.

(** X8.  [WriteFullConfig] encodes the config of [GenerateFullConfig].
    If the encoder fails, the result is a [MarshalError] of the format
    "agentkit" and the file system is untouched.  Otherwise the parent
    directory of the path is created with the directory mode of
    [agents/core] and the encoding followed by a newline is written with
    its file mode; a failure of either call is a [WriteError] with the
    path and the cause, and after a directory failure no file is
    written.  On success the directory exists and the file holds the
    encoding and the newline. *)
Theorem X8_WriteFullConfig {L : GoLib} {D : Deps} (agents : list Agent.t)
    (path : string) (w : World) :
  let cfg := fst (agentkit.GenerateFullConfig agents w) in
  let dir := filepath_Dir path in
  let '(r, w') := agentkit.WriteFullConfig agents path w in
  match json_MarshalIndent_Config cfg with
  | inl err => r = Some (MarshalError "agentkit" err) ∧ fs w' = fs w
  | inr data =>
      match os_MkdirAll dir core_DefaultDirMode (fs w) with
      | (Some err, s1) => r = Some (WriteError path err) ∧ fs w' = s1
      | (None, s1) =>
          match os_WriteFile path (data +:+ String "010" EmptyString)
                  core_DefaultFileMode s1 with
          | (Some err, s2) => r = Some (WriteError path err) ∧ fs w' = s2
          | (None, s2) =>
              r = None ∧ fs w' = s2 ∧
              is_Some (dirAt (fs w') dir) ∧
              snd <$> fileAt (fs w') path
                = Some (data +:+ String "010" EmptyString)
          end
      end
  end.
Proof.
  intros cfg dir. unfold agentkit.WriteFullConfig.
  pose proof (GenerateFullConfig_world agents w) as Hw. revert Hw.
  subst cfg. cbv [mbind M_bind].
  destruct (agentkit.GenerateFullConfig agents w) as [cfg w0].
  cbn [fst snd]. intros (Hfs & Hout).
  destruct (json_MarshalIndent_Config cfg) as [err|data]; [by split|].
  cbv [mbind M_bind mret M_ret os.MkdirAll os.WriteFile]. rewrite Hfs. fold dir.
  destruct (os_MkdirAll dir core_DefaultDirMode (fs w)) as [[e1|] s1] eqn:Hmk;
    [by split|]. simpl.
  destruct (os_WriteFile path _ core_DefaultFileMode s1) as [[e2|] s2] eqn:Hwr;
    [by split|]. simpl.
  split_and!; try done.
  - rewrite (WriteFile_dirs _ _ _ _ _ _ dir Hwr). by eapply MkdirAll_dir.
  - by eapply WriteFile_data.
Qed.

(** ** Writing a file and reading it back *)

(** X9.  [WriteFile] followed by [ReadFile] on the same path.  When
    [WriteFile] returns nil, [os.ReadFile] returns the content of the
    file it is asked for, and the JSON decoder reads back the config the
    encoder wrote, [ReadFile] returns the agent that [configToAgent]
    makes of the config of the written agent, under the orders of the
    two loops over a map that ran; name, description and instructions
    are those of the written agent.  Reading changes neither the file
    system nor the output, and the two calls write nothing to the
    terminal. *)
Theorem X9_WriteFile_then_ReadFile {L : GoLib} {D : Deps} (agent : Agent.t)
    (path : string) (w : World) :
  let order1 := hd [] (orders w) in
  let order2 := hd [] (tl (orders w)) in
  let w1 := snd (agentkit.WriteFile agent path w) in
  fst (agentkit.WriteFile agent path w) = None →
  (∀ data, snd <$> fileAt (fs w1) path = Some data →
           os_ReadFile path (fs w1) = inr data) →
  (∀ data, agentkit.Marshal order1 agent = inr data →
           json_Unmarshal_AgentConfig data
             = inr (agentkit.agentToConfig order1 agent)) →
  ∃ agent',
    fst (agentkit.ReadFile path w1) = inr agent' ∧
    agent' = agentkit.configToAgent order2 (agentkit.agentToConfig order1 agent) ∧
    Agent.Name agent' = Agent.Name agent ∧
    Agent.Description agent' = Agent.Description agent ∧
    Agent.Instructions agent' = Agent.Instructions agent ∧
    fs (snd (agentkit.ReadFile path w1)) = fs w1 ∧
    output (snd (agentkit.ReadFile path w1)) = output w.
Proof.
  intros order1 order2 w1. subst w1.
  cbv [agentkit.WriteFile agentkit.ReadFile mbind M_bind mret M_ret nextOrder
       os.MkdirAll os.WriteFile os.ReadFile].
  cbn [fs orders output]. fold order1.
  destruct (agentkit.Marshal order1 agent) as [err|data] eqn:HM;
    cbn [fst snd fs orders output]; [intros [=]|].
  destruct (os_MkdirAll (filepath_Dir path) core_DefaultDirMode (fs w))
    as [[e1|] s1] eqn:Hmk; cbn [fst snd fs orders output]; [intros [=]|].
  destruct (os_WriteFile path data core_DefaultFileMode s1) as [[e2|] s2] eqn:Hwr;
    cbn [fst snd fs orders output]; [intros [=]|].
  intros _ Hread Hdec.
  rewrite (Hread data) by (by eapply WriteFile_data).
  cbn [fst snd fs orders output]. fold order2.
  eexists. split; [apply Parse_inr; by apply Hdec|]. done.
Qed.

Lemma X9_WriteFile_then_ReadFile_witness :
  let w := RefLaws.world RefLaws.lib RefLaws.cwd [[0%nat]; [7; 7]%nat] in
  let path := "out/agents/reviewer.json" in
  let w1 := snd (@agentkit.WriteFile RefLaws.lib (RefLaws.deps _)
                   Sample.reviewer path w) in
  fst (@agentkit.WriteFile RefLaws.lib (RefLaws.deps _) Sample.reviewer path w)
    = None ∧
  ∃ agent',
    fst (@agentkit.ReadFile RefLaws.lib path w1) = inr agent' ∧
    agent' = agentkit.configToAgent [7; 7]%nat
               (@agentkit.agentToConfig RefLaws.lib [0%nat] Sample.reviewer) ∧
    Agent.Name agent' = "reviewer" ∧
    Agent.Description agent' = "Reviews changes" ∧
    Agent.Instructions agent' = "Read the diff." ∧
    fs (snd (@agentkit.ReadFile RefLaws.lib path w1)) = fs w1 ∧
    output (snd (@agentkit.ReadFile RefLaws.lib path w1)) = [].
Proof.
  intros w path w1.
  assert (H1 : fst (@agentkit.WriteFile RefLaws.lib (RefLaws.deps _)
                      Sample.reviewer path w) = None)
    by (vm_compute; reflexivity).
  split; [exact H1|].
  refine (X9_WriteFile_then_ReadFile (L:=RefLaws.lib) (D:=RefLaws.deps _)
            Sample.reviewer path w H1 _ _).
  - intros data. fold w1. change (@os_ReadFile RefLaws.lib) with Ref.ReadFile.
    change (@fileAt RefLaws.lib) with Ref.regular.
    unfold Ref.ReadFile, Ref.regular.
    match goal with
    | |- context [match ?x with Some _ => _ | None => _ end] =>
        destruct x as [[m|m d]|]
    end; simpl; congruence.
  - intros data HM.
    assert (data = Sample.reviewer_bytes) as ->.
    { revert HM. vm_compute. congruence. }
    vm_compute. reflexivity.
Defined.

(** ** Strings *)

Lemma string_append_assoc (a b c : string) : (a +:+ b) +:+ c = a +:+ (b +:+ c).
Proof.
  induction a as [|x a IH]; [done|].
  change (String x ((a +:+ b) +:+ c) = String x (a +:+ (b +:+ c))). by f_equal.
Qed.

Lemma string_append_empty_r (a : string) : a +:+ EmptyString = a.
Proof.
  induction a as [|x a IH]; [done|].
  change (String x (a +:+ EmptyString) = String x a). by f_equal.
Qed.

Lemma substring_whole (s : string) : String.substring 0 (String.length s) s = s.
Proof.
  induction s as [|x s IH]; [done|].
  change (String x (String.substring 0 (String.length s) s) = String x s).
  by f_equal.
Qed.

Lemma substring_first (c : ascii) (s : string) :
  String.substring 0 1 (String c s) = String c EmptyString.
Proof. simpl. by destruct s. Qed.

Lemma Split1_not_nil (s : string) (sep : ascii) : Go.Split1 s sep ≠ [].
Proof.
  destruct s as [|c s]; simpl; [done|].
  destruct (decide (c = sep)); [done|]. by destruct (Go.Split1 s sep).
Qed.

Lemma Split1_app (a b : string) (sep : ascii) :
  Go.Split1 (a +:+ String sep b) sep = Go.Split1 a sep ++ Go.Split1 b sep.
Proof.
  induction a as [|c a IH]; simpl.
  - by destruct (decide (sep = sep)).
  - destruct (decide (c = sep)); rewrite IH; [done|].
    pose proof (Split1_not_nil a sep). by destruct (Go.Split1 a sep).
Qed.

Lemma Split1_no_sep (s : string) (sep : ascii) :
  sep ∉ String.list_ascii_of_string s → Go.Split1 s sep = [s].
Proof.
  induction s as [|c s IH]; simpl; [done|].
  rewrite not_elem_of_cons. intros [Hc Hs].
  destruct (decide (c = sep)); [congruence|]. by rewrite IH.
Qed.

Lemma SplitN2_no_sep (s : string) (sep : ascii) :
  sep ∉ String.list_ascii_of_string s → Go.SplitN2 s sep = [s].
Proof.
  induction s as [|c s IH]; simpl; [done|].
  rewrite not_elem_of_cons. intros [Hc Hs].
  destruct (decide (c = sep)); [congruence|]. by rewrite IH.
Qed.

Lemma SplitN2_first_sep (a b : string) (sep : ascii) :
  sep ∉ String.list_ascii_of_string a →
  Go.SplitN2 (a +:+ String sep b) sep = [a; b].
Proof.
  induction a as [|c a IH]; simpl.
  - intros _. by destruct (decide (sep = sep)).
  - rewrite not_elem_of_cons. intros [Hc Ha].
    destruct (decide (c = sep)); [congruence|]. by rewrite IH.
Qed.

(** ** [toPascalCase] *)

Section pascal.
Context {L : GoLib}.

Lemma pascal_foldl (parts : list string) (acc : string) :
  foldl pascalStep acc parts = acc +:+ foldl pascalStep EmptyString parts.
Proof.
  revert acc. induction parts as [|p parts IH]; intros acc; simpl.
  - by rewrite string_append_empty_r.
  - rewrite (IH (pascalStep acc p)), (IH (pascalStep EmptyString p)).
    rewrite <- string_append_assoc. f_equal. unfold pascalStep.
    destruct (decide (0 < String.length p)%nat); simpl;
      [done|by rewrite string_append_empty_r].
Qed.

Lemma toPascalCase_foldl (s : string) :
  genagents.toPascalCase s = foldl pascalStep EmptyString (Go.Split1 s "-").
Proof. reflexivity. Qed.

End pascal.

(** X10.  [toPascalCase] works part by part: the result for two strings
    joined by a hyphen is the result for the first followed by the
    result for the second, whatever hyphens the two contain.  The empty
    string gives the empty string, so leading, trailing and doubled
    hyphens leave no trace. *)
Theorem X10_toPascalCase_hyphen {L : GoLib} (a b : string) :
  genagents.toPascalCase (a +:+ "-" +:+ b)
    = genagents.toPascalCase a +:+ genagents.toPascalCase b ∧
  genagents.toPascalCase EmptyString = EmptyString ∧
  genagents.toPascalCase ("-" +:+ b) = genagents.toPascalCase b ∧
  genagents.toPascalCase (a +:+ "-") = genagents.toPascalCase a ∧
  genagents.toPascalCase (a +:+ "--" +:+ b) = genagents.toPascalCase (a +:+ "-" +:+ b).
Proof.
  assert (Happ : ∀ x y, genagents.toPascalCase (x +:+ "-" +:+ y)
                 = genagents.toPascalCase x +:+ genagents.toPascalCase y).
  { intros x y. rewrite !toPascalCase_foldl.
    change (x +:+ "-" +:+ y) with (x +:+ String "-" y).
    by rewrite Split1_app, foldl_app, pascal_foldl. }
  assert (Hnil : genagents.toPascalCase EmptyString = EmptyString) by done.
  split_and!; [apply Happ|exact Hnil|apply (Happ EmptyString)| |].
  - change (a +:+ "-") with (a +:+ "-" +:+ EmptyString).
    by rewrite Happ, Hnil, string_append_empty_r.
  - change (a +:+ "--" +:+ b) with (a +:+ "-" +:+ ("-" +:+ b)).
    rewrite !Happ. f_equal.
Qed.

(** X11.  On a non-empty string without a hyphen, [toPascalCase] returns
    [strings.ToUpper] of the first byte followed by the rest of the
    string unchanged: the later bytes are not lowered. *)
Theorem X11_toPascalCase_word {L : GoLib} (c : ascii) (rest : string) :
  "-"%char ∉ String.list_ascii_of_string (String c rest) →
  genagents.toPascalCase (String c rest)
    = strings_ToUpper (String c EmptyString) +:+ rest.
Proof.
  intros Hs. rewrite toPascalCase_foldl, Split1_no_sep by done.
  cbn [foldl]. unfold pascalStep.
  destruct (decide (0 < String.length (String c rest))%nat) as [_|Hn];
    [|simpl in Hn; lia].
  rewrite substring_first. cbn [String.length String.substring].
  replace (S (String.length rest) - 1)%nat with (String.length rest) by lia.
  by rewrite substring_whole.
Qed.

Lemma X11_toPascalCase_word_witness :
  ("-"%char ∉ String.list_ascii_of_string "statsTeam") ∧
  (@genagents.toPascalCase RefLaws.lib "statsTeam" = "StatsTeam").
Proof.
  assert (H : "-"%char ∉ String.list_ascii_of_string "statsTeam").
  { simpl. rewrite !not_elem_of_cons. split_and!; try discriminate.
    apply not_elem_of_nil. }
  split; [exact H|].
  exact (X11_toPascalCase_word (L:=RefLaws.lib) "s"%char "tatsTeam" H).
Defined.

(** ** The command: target pairs *)

(** X12.  A target pair without a colon ends the loop of [main] over the
    targets: one line "Invalid target format" with the pair goes to the
    standard error stream, the status is 1, the file system is untouched
    and the pairs after it are not looked at. *)
Theorem X12_pair_without_colon {L : GoLib} (registry : gmap string core.Adapter)
    (agentList : list Agent.t) (verbose : bool) (pair_ : string)
    (rest : list string) (w : World) :
  ":"%char ∉ String.list_ascii_of_string pair_ →
  genagents.generateEachTarget registry agentList verbose (pair_ :: rest) w =
  (1%Z,
   {| fs := fs w; orders := orders w;
      output := output w ++
        [Stderr "Invalid target format: %s (expected format:dir)\n"
           [argString pair_]] |}).
Proof.
  intros Hc. cbn [genagents.generateEachTarget].
  by rewrite SplitN2_no_sep by done.
Qed.

Lemma X12_pair_without_colon_witness :
  let w := RefLaws.world RefLaws.lib RefLaws.cwd [] in
  let run := genagents.generateEachTarget (RefLaws.registry RefLaws.lib)
               [Sample.reader] false ["agentkit"; "agentkit:out"] w in
  (":"%char ∉ String.list_ascii_of_string "agentkit") ∧
  fst run = 1%Z ∧
  fs (snd run) = RefLaws.cwd ∧
  output (snd run) =
    [Stderr "Invalid target format: %s (expected format:dir)\n"
       [argString "agentkit"]].
Proof.
  intros w run.
  assert (H : ":"%char ∉ String.list_ascii_of_string "agentkit").
  { simpl. rewrite !not_elem_of_cons. split_and!; try discriminate.
    apply not_elem_of_nil. }
  split; [exact H|]. subst run.
  rewrite (X12_pair_without_colon (L:=RefLaws.lib) (RefLaws.registry RefLaws.lib)
             [Sample.reader] false "agentkit" ["agentkit:out"] w H).
  by split_and!.
Defined.

(** X13.  A target pair is cut at its first colon: the format is what
    precedes it and the directory everything after it, further colons
    included, both with the surrounding white space removed by
    [strings.TrimSpace]. *)
Theorem X13_pair_cut_at_first_colon {L : GoLib}
    (registry : gmap string core.Adapter) (agentList : list Agent.t)
    (verbose : bool) (a b : string) (rest : list string) (w : World) :
  ":"%char ∉ String.list_ascii_of_string a →
  genagents.generateEachTarget registry agentList verbose
    ((a +:+ ":" +:+ b) :: rest) w =
  match genagents.generateAgents registry agentList (strings_TrimSpace a)
          (strings_TrimSpace b) verbose w with
  | (Some err, w1) =>
      (1%Z, snd (fmt.Fprintf_Stderr "Error generating %s agents: %v\n"
                   [argString (strings_TrimSpace a); argError err] w1))
  | (None, w1) => genagents.generateEachTarget registry agentList verbose rest w1
  end.
Proof.
  intros Hc. cbn [genagents.generateEachTarget].
  change (a +:+ ":" +:+ b) with (a +:+ String ":" b).
  rewrite SplitN2_first_sep by done. cbv [mbind M_bind].
  by destruct (genagents.generateAgents _ _ _ _ _ w) as [[err|] w1].
Qed.

Lemma X13_pair_cut_at_first_colon_witness :
  let w := RefLaws.world RefLaws.lib RefLaws.cwd [[0%nat]] in
  (":"%char ∉ String.list_ascii_of_string " agentkit") ∧
  genagents.generateEachTarget (RefLaws.registry RefLaws.lib) [Sample.reader]
    false [" agentkit:out:1 "] w =
  match genagents.generateAgents (RefLaws.registry RefLaws.lib) [Sample.reader]
          "agentkit" "out:1" false w with
  | (Some err, w1) =>
      (1%Z, snd (fmt.Fprintf_Stderr "Error generating %s agents: %v\n"
                   [argString "agentkit"; argError err] w1))
  | (None, w1) =>
      genagents.generateEachTarget (RefLaws.registry RefLaws.lib) [Sample.reader]
        false [] w1
  end.
Proof.
  intros w.
  assert (H : ":"%char ∉ String.list_ascii_of_string " agentkit").
  { simpl. rewrite !not_elem_of_cons. split_and!; try discriminate.
    apply not_elem_of_nil. }
  split; [exact H|].
  exact (X13_pair_cut_at_first_colon (L:=RefLaws.lib)
           (RefLaws.registry RefLaws.lib) [Sample.reader] false
           " agentkit" "out:1 " [] w H).
Defined.

(** ** The command: project mode *)

(** X14.  The priority filter of project mode, without verbose output:
    running the loop over the targets with a filter is running it
    without filter over the targets whose priority is the filter, in
    their order.  A target of another priority is not generated and
    leaves no trace. *)
Theorem X14_priority_filter {L : GoLib} {D : Deps}
    (registry : gmap string core.Adapter) (projectDir priorityFilter Team : string)
    (agentList : list Agent.t) (Targets : list Target.t) (w : World) :
  priorityFilter ≠ EmptyString →
  genagents.processEachTarget registry projectDir priorityFilter false Team
    agentList Targets w =
  genagents.processEachTarget registry projectDir EmptyString false Team
    agentList
    (filter (λ target, Target.Priority target = priorityFilter) Targets) w.
Proof.
  intros Hne. revert w. induction Targets as [|target rest IH]; intros w; [done|].
  cbn [genagents.processEachTarget].
  destruct (decide (Target.Priority target = priorityFilter)) as [Heq|Hneq].
  - rewrite filter_cons_True by done. cbn [genagents.processEachTarget].
    rewrite !decide_False by (intros [? ?]; done).
    cbv [mbind M_bind mret M_ret].
    match goal with
    | |- context [genagents.generateForPlatform ?a ?b ?c ?d ?e ?f ?g] =>
        destruct (genagents.generateForPlatform a b c d e f g) as [[err|] w1]
    end; [done|apply IH].
  - rewrite filter_cons_False by done. rewrite decide_True by done.
    cbv [mbind M_bind mret M_ret]. apply IH.
Qed.

Lemma X14_priority_filter_witness :
  let w := RefLaws.world RefLaws.lib RefLaws.cwd [] in
  let p2 := {| Target.Name := "later"; Target.Platform := "heroku";
               Target.Priority := "p2"; Target.Output := "out/later";
               Target.Config := ∅ |} in
  ("p1" ≠ EmptyString) ∧
  genagents.processEachTarget (D:=RefLaws.deps _) (RefLaws.registry RefLaws.lib)
    "proj" "p1" false "team" [Sample.reader] [p2; Sample.local] w =
  genagents.processEachTarget (D:=RefLaws.deps _) (RefLaws.registry RefLaws.lib)
    "proj" EmptyString false "team" [Sample.reader] [Sample.local] w.
Proof.
  intros w p2.
  assert (H : "p1" ≠ EmptyString) by discriminate.
  split; [exact H|].
  exact (X14_priority_filter (L:=RefLaws.lib) (D:=RefLaws.deps _)
           (RefLaws.registry RefLaws.lib) "proj" "p1" "team" [Sample.reader]
           [p2; Sample.local] w H).
Defined.

Lemma generateForPlatform_kubernetes {L : GoLib} {D : Deps}
    (registry : gmap string core.Adapter) (teamName : string)
    (agentList : list Agent.t) (target : Target.t) (outputDir : string)
    (verbose : bool) (w : World) :
  Target.Platform target ∈ ["aws-eks"; "azure-aks"; "gcp-gke"; "kubernetes"] →
  genagents.generateForPlatform registry teamName agentList target outputDir
    verbose w =
  (None,
   {| fs := fs w; orders := orders w;
      output := output w ++
        [Stdout "Kubernetes deployment not yet implemented for %s\n"
           [argString (Target.Platform target)]] |}).
Proof.
  intros Hp. unfold genagents.generateForPlatform.
  assert (Hn : ∀ s, s ∈ ["claude-code"; "kiro-cli"; "agentkit-local";
                         "aws-agentcore"] → Target.Platform target ≠ s).
  { intros s Hs Heq. rewrite Heq in Hp. clear Heq.
    rewrite !elem_of_cons, !elem_of_nil in Hs, Hp.
    destruct Hs as [->|[->|[->|[->|[]]]]];
      destruct Hp as [Hp|[Hp|[Hp|[Hp|[]]]]]; discriminate Hp. }
  rewrite !decide_False by (apply Hn; rewrite !elem_of_cons; tauto).
  by rewrite decide_True by done.
Qed.

Lemma printed_app {L : GoLib} (lines1 lines2 : list Output) (w : World) :
  printed lines2 (printed lines1 w) = printed (lines1 ++ lines2) w.
Proof. unfold printed. cbn [fs orders output]. by rewrite app_assoc. Qed.

(** X15.  Targets of the Kubernetes platforms (aws-eks, azure-aks,
    gcp-gke, kubernetes) are reported as processed although nothing is
    generated for them: for every priority filter, with and without
    verbose output, the loop of project mode over such targets returns
    nil and leaves the file system as it was.  All it does is print, in
    the order of the targets: for a target the filter lets through, one
    line "not yet implemented", preceded in verbose mode by the lines
    "Processing target" and "Output"; for a target the filter skips,
    nothing, or in verbose mode one line "Skipping". *)
Theorem X15_kubernetes_targets {L : GoLib} {D : Deps}
    (registry : gmap string core.Adapter)
    (projectDir priorityFilter Team : string) (verbose : bool)
    (agentList : list Agent.t) (Targets : list Target.t) (w : World) :
  let linesOf (target : Target.t) : list Output :=
    if decide (priorityFilter ≠ EmptyString
               ∧ Target.Priority target ≠ priorityFilter) then
      if verbose then
        [Stdout "Skipping %s (priority %s, filter %s)\n"
           [argString (Target.Name target);
            argString (Target.Priority target); argString priorityFilter]]
      else []
    else
      (if verbose then
         [Stdout "\nProcessing target: %s (%s)\n"
            [argString (Target.Name target);
             argString (Target.Platform target)];
          Stdout "  Output: %s\n"
            [argString (filepath_Join [projectDir; Target.Output target])]]
       else []) ++
      [Stdout "Kubernetes deployment not yet implemented for %s\n"
         [argString (Target.Platform target)]] in
  (∀ target, target ∈ Targets →
     Target.Platform target ∈ ["aws-eks"; "azure-aks"; "gcp-gke"; "kubernetes"]) →
  genagents.processEachTarget registry projectDir priorityFilter verbose Team
    agentList Targets w =
  (None,
   {| fs := fs w; orders := orders w;
      output := output w ++ concat (linesOf <$> Targets) |}).
Proof.
  intros linesOf. revert w. induction Targets as [|target rest IH]; intros w Hall.
  - simpl. rewrite app_nil_r. by destruct w.
  - change (genagents.processEachTarget registry projectDir priorityFilter
              verbose Team agentList (target :: rest) w =
            (None, printed (linesOf target ++ concat (linesOf <$> rest)) w)).
    pose proof (processEachTarget_step registry agentList verbose projectDir
                  priorityFilter Team target rest w) as Hstep.
    cbn zeta in Hstep. unfold linesOf at 1.
    destruct (decide (priorityFilter ≠ EmptyString
                      ∧ Target.Priority target ≠ priorityFilter)).
    + rewrite Hstep, IH by (intros t Ht; apply Hall; by right).
      f_equal. apply printed_app.
    + rewrite generateForPlatform_kubernetes in Hstep by (apply Hall; left).
      rewrite Hstep, IH by (intros t Ht; apply Hall; by right).
      f_equal. unfold printed. cbn [fs orders output].
      by rewrite <- !app_assoc.
Qed.

Lemma X15_kubernetes_targets_witness :
  let w := RefLaws.world RefLaws.lib RefLaws.cwd [] in
  let eks := {| Target.Name := "cluster"; Target.Platform := "aws-eks";
                Target.Priority := "p1"; Target.Output := "deploy/eks";
                Target.Config := ∅ |} in
  let aks := {| Target.Name := "spare"; Target.Platform := "azure-aks";
                Target.Priority := "p2"; Target.Output := "deploy/aks";
                Target.Config := ∅ |} in
  let run := genagents.processEachTarget (D:=RefLaws.deps _)
               (RefLaws.registry RefLaws.lib) "proj" "p1" true "team"
               [Sample.reader] [eks; aks] w in
  (∀ target, target ∈ [eks; aks] →
     Target.Platform target ∈ ["aws-eks"; "azure-aks"; "gcp-gke"; "kubernetes"]) ∧
  fst run = None ∧
  fs (snd run) = RefLaws.cwd ∧
  output (snd run) =
    [Stdout "\nProcessing target: %s (%s)\n"
       [argString "cluster"; argString "aws-eks"];
     Stdout "  Output: %s\n" [argString "proj/deploy/eks"];
     Stdout "Kubernetes deployment not yet implemented for %s\n"
       [argString "aws-eks"];
     Stdout "Skipping %s (priority %s, filter %s)\n"
       [argString "spare"; argString "p2"; argString "p1"]].
Proof.
  intros w eks aks run.
  assert (H : ∀ target, target ∈ [eks; aks] →
     Target.Platform target ∈ ["aws-eks"; "azure-aks"; "gcp-gke"; "kubernetes"]).
  { intros target Ht. rewrite !elem_of_cons, elem_of_nil in Ht.
    destruct Ht as [->|[->|[]]]; rewrite !elem_of_cons; simpl; tauto. }
  split; [exact H|]. subst run.
  rewrite (X15_kubernetes_targets (L:=RefLaws.lib) (D:=RefLaws.deps _)
             (RefLaws.registry RefLaws.lib) "proj" "p1" "team" true
             [Sample.reader] [eks; aks] w H).
  by split_and!.
Defined.

(** ** The command: exit status *)

Lemma reported_Stderr {L : GoLib} (format : string) (args : list arg) (w : World) :
  reported 1 {| fs := fs w; orders := orders w;
                output := output w ++ [Stderr format args] |}.
Proof. right. split; [done|]. exists (output w), (Stderr format args). eauto. Qed.

Ltac report :=
  cbv [fmt.Fprintf_Stderr fmt.emit mbind M_bind mret M_ret]; cbn [fst snd];
  first [apply reported_Stderr | by left].

Lemma generateEachTarget_reported {L : GoLib} (registry : gmap string core.Adapter)
    (agentList : list Agent.t) (verbose : bool) (targetPairs : list string)
    (w : World) :
  reported (fst (genagents.generateEachTarget registry agentList verbose
                   targetPairs w))
           (snd (genagents.generateEachTarget registry agentList verbose
                   targetPairs w)).
Proof.
  revert w. induction targetPairs as [|pair_ rest IH]; intros w; [by left|].
  cbn [genagents.generateEachTarget].
  destruct (Go.SplitN2 pair_ ":") as [|part0 [|part1 [|]]]; try report.
  cbv [mbind M_bind].
  destruct (genagents.generateAgents _ _ _ _ _ w) as [[err|] w1];
    [report|apply IH].
Qed.

Lemma reported_bind {L : GoLib} {A : Type} (m : M A) (k : A → M Z) (w : World) :
  (∀ a w1, reported (fst (k a w1)) (snd (k a w1))) →
  reported (fst ((m ≫= k) w)) (snd ((m ≫= k) w)).
Proof.
  intros Hk. cbv [mbind M_bind]. destruct (m w) as [a w1]. apply Hk.
Qed.

Lemma main_reported {L : GoLib} {D : Deps} (registry : gmap string core.Adapter)
    (flags : genagents.Flags) (w : World) :
  reported (fst (genagents.main registry flags w))
           (snd (genagents.main registry flags w)).
Proof.
  unfold genagents.main. case_decide.
  - apply reported_bind. intros [err|] w1; report.
  - apply reported_bind. intros [err|agentList] w1; [report|].
    case_decide; [report|].
    apply reported_bind. intros [] w2.
    case_decide; [apply generateEachTarget_reported|].
    case_decide.
    + cbv [fmt.Fprintf_Stderr fmt.emit mbind M_bind mret M_ret]. cbn [fst snd].
      right. split; [done|]. eexists _, Usage. split; [|by left].
      reflexivity.
    + apply reported_bind. intros [err|] w3; report.
Qed.

(** X16.  Once [flag.Parse()] has returned, so from the parsed flags
    on, the exit status of [main] is 0 or 1, and whenever it is 1 the
    last thing the command wrote is a line on the standard error stream
    or, when no output option is given, the usage text that follows such
    a line: past the parsing of its flags the command never fails
    silently.  The exits of [flag.Parse()] itself, on a flag it rejects
    or on a request for help, come before and are not covered. *)
Theorem X16_main_exit_status {L : GoLib} {D : Deps}
    (registry : gmap string core.Adapter) (flags : genagents.Flags) (w : World) :
  let '(status, w') := genagents.main registry flags w in
  status = 0%Z ∨
  (status = 1%Z ∧
   ∃ pre o, output w' = pre ++ [o] ∧
            (o = Usage ∨ ∃ format args, o = Stderr format args)).
Proof.
  pose proof (main_reported registry flags w) as Hr.
  destruct (genagents.main registry flags w) as [status w']. exact Hr.
Qed.

(** ** The command: generating the agents *)

Section generating.
Context {L : GoLib}.
Variable registry : gmap string core.Adapter.
Variables (outputDir : string) (verbose : bool).

Lemma writeEachAgent_error (adapter : core.Adapter) (agentList : list Agent.t)
    (w : World) (e : error) :
  fst (genagents.writeEachAgent adapter outputDir verbose agentList w) = Some e →
  ∃ agent err,
    agent ∈ agentList ∧
    e = ErrorfW "failed to write %s: %w"
          [filepath_Join [outputDir;
                          Agent.Name agent +:+ core.FileExtension adapter]] err.
Proof.
  revert w. induction agentList as [|agent rest IH]; intros w; [done|].
  cbn [genagents.writeEachAgent]. cbv [mbind M_bind mret M_ret].
  destruct (core.WriteFile adapter agent _ w) as [[err|] w1].
  - intros [= <-]. exists agent, err. split; [left|done].
  - destruct verbose; cbv [fmt.Printf fmt.emit];
      intros (a & err & Ha & ->)%IH; exists a, err; (split; [by right|done]).
Qed.

End generating.

(** X17.  The outcomes of [generateAgents].  An error is one of three:
    "failed to create output directory" around the error [os.MkdirAll]
    returned for the output directory; "unknown format" when the format
    is not registered; or "failed to write" with the path of an agent of
    the list, made of the output directory, the name of the agent and
    the file extension of the adapter.  A nil result means the directory
    was created, the format is registered, and the summary line with
    the number of agents, the format and the directory is the last line
    printed. *)
Theorem X17_generateAgents_outcomes {L : GoLib}
    (registry : gmap string core.Adapter) (agentList : list Agent.t)
    (format outputDir : string) (verbose : bool) (w : World) :
  let '(r, w') :=
    genagents.generateAgents registry agentList format outputDir verbose w in
  match r with
  | Some e =>
      (∃ err, fst (os_MkdirAll outputDir 493%N (fs w)) = Some err ∧
              e = ErrorfW "failed to create output directory: %w" [] err) ∨
      (core.GetAdapter registry format = None ∧
       e = Errorf "unknown format %q (available: %s)"
             [format; Go.Join (core.AdapterNames registry) ", "]) ∨
      (∃ adapter agent err,
         core.GetAdapter registry format = Some adapter ∧
         agent ∈ agentList ∧
         e = ErrorfW "failed to write %s: %w"
               [filepath_Join [outputDir;
                               Agent.Name agent +:+ core.FileExtension adapter]]
               err)
  | None =>
      fst (os_MkdirAll outputDir 493%N (fs w)) = None ∧
      is_Some (core.GetAdapter registry format) ∧
      ∃ pre, output w' = pre ++
        [Stdout "Generated %d %s agents in %s\n"
           [argInt (Z.of_nat (length agentList)); argString format;
            argString outputDir]]
  end.
Proof.
  unfold genagents.generateAgents. cbv [mbind M_bind mret M_ret os.MkdirAll].
  destruct (os_MkdirAll outputDir 493%N (fs w)) as [[e1|] s1]; cbn [fst].
  { left. by exists e1. }
  destruct (core.GetAdapter registry format) as [adapter|] eqn:Hget.
  2: { right. by left. }
  destruct (genagents.writeEachAgent adapter outputDir verbose agentList _)
    as [[e|] w1] eqn:Hw.
  - right. right.
    destruct (writeEachAgent_error outputDir verbose adapter agentList _ e
                (f_equal fst Hw)) as (agent & err & Ha & ->).
    by exists adapter, agent, err.
  - cbv [fmt.Printf fmt.emit]. cbn [output]. split_and!; [done|done|].
    by exists (output w1).
Qed.

(** ** Generating with the agentkit adapter *)

Lemma ref_WriteFile_frame (p data : string) (m : Go.FileMode)
    (s : gmap string Ref.Node) r s' (q : string) :
  Ref.WriteFile p data m s = (r, s') → q ≠ p →
  Ref.regular s' q = Ref.regular s q.
Proof.
  unfold Ref.WriteFile, Ref.regular. intros Hw Hq.
  destruct (s !! p) as [[]|].
  - by injection Hw as _ <-.
  - injection Hw as _ <-. by rewrite lookup_insert_ne.
  - destruct (s !! Ref.Dir p) as [[]|]; injection Hw as _ <-; try done.
    by rewrite lookup_insert_ne.
Qed.

Section agentkit_files.
Context {L : GoLib} {D : Deps}.

(** [os.WriteFile] leaves the other regular files as they are. *)
Hypothesis WriteFile_others : ∀ p data m s r s' q,
  os_WriteFile p data m s = (r, s') → q ≠ p → fileAt s' q = fileAt s q.

Variables (outputDir : string) (verbose : bool).

Lemma agentkit_WriteFile_nil (agent : Agent.t) (path : string) (w w1 : World) :
  agentkit.WriteFile agent path w = (None, w1) →
  ∃ data,
    agentkit.Marshal (hd [] (orders w)) agent = inr data ∧
    snd <$> fileAt (fs w1) path = Some data ∧
    orders w1 = tl (orders w) ∧ output w1 = output w.
Proof.
  cbv [agentkit.WriteFile mbind M_bind mret M_ret nextOrder os.MkdirAll
       os.WriteFile]. cbn [fs orders output].
  destruct (agentkit.Marshal (hd [] (orders w)) agent) as [err|data];
    cbn [fs orders output]; [intros [=]|].
  destruct (os_MkdirAll (filepath_Dir path) core_DefaultDirMode (fs w))
    as [[e1|] s1]; cbn [fs orders output]; [intros [=]|].
  destruct (os_WriteFile path data core_DefaultFileMode s1) as [[e2|] s2] eqn:Hwr;
    [intros [=]|intros [= <-]].
  exists data. cbn [fs orders output]. split_and!; try done.
  by eapply WriteFile_data.
Qed.

Lemma agentkit_WriteFile_others (agent : Agent.t) (path : string) (w : World)
    r (w1 : World) (q : string) :
  agentkit.WriteFile agent path w = (r, w1) → q ≠ path →
  fileAt (fs w1) q = fileAt (fs w) q.
Proof.
  cbv [agentkit.WriteFile mbind M_bind mret M_ret nextOrder os.MkdirAll
       os.WriteFile]. cbn [fs orders output].
  destruct (agentkit.Marshal (hd [] (orders w)) agent) as [err|data];
    cbn [fs orders output]; [by intros [= _ <-]|].
  destruct (os_MkdirAll (filepath_Dir path) core_DefaultDirMode (fs w))
    as [[e1|] s1] eqn:Hmk; cbn [fs orders output].
  { intros [= _ <-] _. cbn [fs]. by eapply MkdirAll_files. }
  destruct (os_WriteFile path data core_DefaultFileMode s1) as [[e2|] s2] eqn:Hwr;
    intros [= _ <-] Hq; cbn [fs];
    rewrite (WriteFile_others _ _ _ _ _ _ q Hwr Hq);
    by eapply MkdirAll_files.
Qed.

(** The path [generateAgents] writes an agent to with the agentkit
    adapter. *)
Local Notation "'pathOf' agent" :=
  (filepath_Join [outputDir; Agent.Name agent +:+ ".json"])
  (at level 10, agent at level 9, only parsing).

Lemma writeEachAgent_agentkit_others (agentList : list Agent.t) (w : World)
    r (w' : World) (q : string) :
  genagents.writeEachAgent agentkit.adapter outputDir verbose agentList w
    = (r, w') →
  (∀ agent, agent ∈ agentList → pathOf agent ≠ q) →
  fileAt (fs w') q = fileAt (fs w) q.
Proof.
  revert w. induction agentList as [|agent rest IH]; intros w.
  - by intros [= _ <-].
  - cbn [genagents.writeEachAgent]. cbv [mbind M_bind mret M_ret].
    change (core.WriteFile agentkit.adapter) with agentkit.WriteFile.
    change (core.FileExtension agentkit.adapter) with ".json".
    destruct (agentkit.WriteFile agent (pathOf agent) w) as [[err|] w1] eqn:Hw;
      intros Hrun Hall.
    + injection Hrun as _ <-.
      eapply agentkit_WriteFile_others; [done|].
      intros Heq. by apply (Hall agent); [left|].
    + transitivity (fileAt (fs w1) q).
      * destruct verbose; cbv [fmt.Printf fmt.emit] in Hrun;
          apply IH in Hrun; try done; intros a Ha; apply Hall; by right.
      * eapply agentkit_WriteFile_others; [done|].
        intros Heq. by apply (Hall agent); [left|].
Qed.

Lemma writeEachAgent_agentkit_nil (agentList : list Agent.t) (w w' : World) :
  genagents.writeEachAgent agentkit.adapter outputDir verbose agentList w
    = (None, w') →
  (∀ i agent,
     agentList !! i = Some agent →
     (∀ j later, (i < j)%nat → agentList !! j = Some later →
                 pathOf later ≠ pathOf agent) →
     ∃ data,
       agentkit.Marshal (default [] (orders w !! i)) agent = inr data ∧
       snd <$> fileAt (fs w') (pathOf agent) = Some data) ∧
  output w' =
    output w ++
    (if verbose
     then (λ agent, Stdout "Generated %s\n" [argString (pathOf agent)])
            <$> agentList
     else []) ∧
  orders w' = drop (length agentList) (orders w).
Proof.
  revert w. induction agentList as [|agent rest IH]; intros w.
  - intros [= <-]. split_and!; [done| |done].
    destruct verbose; by rewrite app_nil_r.
  - cbn [genagents.writeEachAgent]. cbv [mbind M_bind mret M_ret].
    change (core.WriteFile agentkit.adapter) with agentkit.WriteFile.
    change (core.FileExtension agentkit.adapter) with ".json".
    destruct (agentkit.WriteFile agent (pathOf agent) w) as [[err|] w1] eqn:Hw;
      [intros [=]|].
    destruct (agentkit_WriteFile_nil _ _ _ _ Hw) as (data & HM & Hfile & Ho & Hout).
    set (w2 := snd ((if verbose
                     then fmt.Printf "Generated %s\n" [argString (pathOf agent)]
                     else mret ()) w1)).
    assert (Hfs2 : fs w2 = fs w1) by (subst w2; by destruct verbose).
    assert (Ho2 : orders w2 = tl (orders w)) by (subst w2; by destruct verbose).
    assert (Hout2 : output w2 = output w ++
              (if verbose
               then [Stdout "Generated %s\n" [argString (pathOf agent)]]
               else [])).
    { subst w2. destruct verbose; cbn; rewrite Hout; [done|by rewrite app_nil_r]. }
    intros Hrun.
    assert (Hrun2 : genagents.writeEachAgent agentkit.adapter outputDir verbose
                      rest w2 = (None, w')).
    { subst w2. by destruct verbose. }
    clear Hrun. destruct (IH w2 Hrun2) as (Hfiles & Houtput & Horders).
    split_and!.
    + intros [|i] a Hi Hlater.
      * injection Hi as <-. exists data. split.
        { by destruct (orders w). }
        rewrite (writeEachAgent_agentkit_others rest w2 None w' _ Hrun2).
        { by rewrite Hfs2. }
        intros later [j Hj]%list_elem_of_lookup.
        apply (Hlater (S j) later); [lia|done].
      * destruct (Hfiles i a Hi) as (d & Hd & Hf).
        { intros j later Hij Hj. apply (Hlater (S j) later); [lia|done]. }
        exists d. split; [|done].
        rewrite Ho2 in Hd. by destruct (orders w).
    + rewrite Houtput, Hout2. destruct verbose; [|by rewrite app_nil_r].
      by rewrite <- app_assoc.
    + rewrite Horders, Ho2.
      destruct (orders w); [simpl; by rewrite !drop_nil|reflexivity].
Qed.

End agentkit_files.

(** X18.  [generateAgents] with the agentkit adapter.  When the format
    resolves to the agentkit adapter, [os.WriteFile] leaves the files it
    is not asked to write as they are, and the result is nil, then every
    agent whose path is not the path of a later agent of the list has its
    file, named after the agent with the extension ".json" in the output
    directory, holding what [Marshal] gives for it under the order of
    its own loop over the tool set; of agents with the same path the
    last one wins.  The lines printed are one "Generated" line per agent
    in verbose mode, in the order of the agents, and the summary line;
    each agent uses up the order of one loop. *)
Theorem X18_generateAgents_agentkit {L : GoLib} {D : Deps}
    (registry : gmap string core.Adapter) (agentList : list Agent.t)
    (format outputDir : string) (verbose : bool) (w : World) :
  let pathOf agent := filepath_Join [outputDir; Agent.Name agent +:+ ".json"] in
  let w' := snd (genagents.generateAgents registry agentList format outputDir
                   verbose w) in
  core.GetAdapter registry format = Some agentkit.adapter →
  (∀ p data m s r s' q,
     os_WriteFile p data m s = (r, s') → q ≠ p → fileAt s' q = fileAt s q) →
  fst (genagents.generateAgents registry agentList format outputDir verbose w)
    = None →
  (∀ i agent,
     agentList !! i = Some agent →
     (∀ j later, (i < j)%nat → agentList !! j = Some later →
                 pathOf later ≠ pathOf agent) →
     ∃ data,
       agentkit.Marshal (default [] (orders w !! i)) agent = inr data ∧
       snd <$> fileAt (fs w') (pathOf agent) = Some data) ∧
  output w' =
    output w ++
    (if verbose
     then (λ agent, Stdout "Generated %s\n" [argString (pathOf agent)])
            <$> agentList
     else []) ++
    [Stdout "Generated %d %s agents in %s\n"
       [argInt (Z.of_nat (length agentList)); argString format;
        argString outputDir]] ∧
  orders w' = drop (length agentList) (orders w).
Proof.
  intros pathOf w' Hget Hothers. subst w'.
  unfold genagents.generateAgents. cbv [mbind M_bind mret M_ret os.MkdirAll].
  destruct (os_MkdirAll outputDir 493%N (fs w)) as [[e1|] s1] eqn:Hmk;
    [intros [=]|].
  rewrite Hget.
  destruct (genagents.writeEachAgent agentkit.adapter outputDir verbose
              agentList _) as [[e|] w1] eqn:Hrun; [intros [=]|].
  intros _. cbv [fmt.Printf fmt.emit]. cbn [fst snd fs orders output].
  destruct (writeEachAgent_agentkit_nil Hothers outputDir verbose agentList _ _
              Hrun) as (Hfiles & Hout & Ho).
  cbn [fs orders output] in Hfiles, Hout, Ho.
  split_and!; [exact Hfiles| |exact Ho].
  by rewrite Hout, <- app_assoc.
Qed.

Lemma X18_generateAgents_agentkit_witness :
  let agentList := [Sample.reviewer; Sample.reader] in
  let w := RefLaws.world RefLaws.lib RefLaws.cwd [[0%nat]; [0%nat]] in
  let pathOf agent := Ref.Join ["out"; Agent.Name agent +:+ ".json"] in
  let w' := snd (genagents.generateAgents (RefLaws.registry RefLaws.lib)
                   agentList "agentkit" "out" true w) in
  core.GetAdapter (RefLaws.registry RefLaws.lib) "agentkit"
    = Some (@agentkit.adapter RefLaws.lib (RefLaws.deps _)) ∧
  fst (genagents.generateAgents (RefLaws.registry RefLaws.lib) agentList
         "agentkit" "out" true w) = None ∧
  (∀ i agent,
     agentList !! i = Some agent →
     (∀ j later, (i < j)%nat → agentList !! j = Some later →
                 pathOf later ≠ pathOf agent) →
     ∃ data,
       @agentkit.Marshal RefLaws.lib (default [] (orders w !! i)) agent
         = inr data ∧
       snd <$> Ref.regular (fs w') (pathOf agent) = Some data) ∧
  output w' =
    [Stdout "Generated %s\n" [argString "out/reviewer.json"];
     Stdout "Generated %s\n" [argString "out/reader.json"];
     Stdout "Generated %d %s agents in %s\n"
       [argInt 2; argString "agentkit"; argString "out"]] ∧
  orders w' = [].
Proof.
  intros agentList w pathOf w'.
  assert (H1 : core.GetAdapter (RefLaws.registry RefLaws.lib) "agentkit"
               = Some (@agentkit.adapter RefLaws.lib (RefLaws.deps _))).
  { unfold core.GetAdapter, RefLaws.registry, agentkit.init, core.Register.
    apply lookup_insert_eq. }
  assert (H2 : ∀ p data m s r s' q,
             @os_WriteFile RefLaws.lib p data m s = (r, s') → q ≠ p →
             @fileAt RefLaws.lib s' q = @fileAt RefLaws.lib s q).
  { intros p data m s r s' q. apply ref_WriteFile_frame. }
  assert (H3 : fst (genagents.generateAgents (RefLaws.registry RefLaws.lib)
                      agentList "agentkit" "out" true w) = None)
    by (vm_compute; reflexivity).
  split; [exact H1|]. split; [exact H3|].
  exact (X18_generateAgents_agentkit (L:=RefLaws.lib) (D:=RefLaws.deps _)
           (RefLaws.registry RefLaws.lib) agentList "agentkit" "out" true w
           H1 H2 H3).
Defined.

(** ** Project mode *)

Lemma bind_fst {L : GoLib} {A B : Type} (m : M A) (k : A → M B) (w : World)
    (b : B) :
  fst ((m ≫= k) w) = b → ∃ a w1, m w = (a, w1) ∧ fst (k a w1) = b.
Proof.
  cbv [mbind M_bind]. destruct (m w) as [a w1]. intros Hb. by exists a, w1.
Qed.

(** X20.  The errors of [runProjectMode] are of five kinds, in the order
    of the steps: deployment.json of the project directory cannot be
    read; its bytes cannot be decoded; the directory agents of the
    project cannot be read; it holds no agent; or the generation for a
    target of the decoded deployment failed, and the error carries the
    name of that target. *)
Theorem X20_runProjectMode_errors {L : GoLib} {D : Deps}
    (registry : gmap string core.Adapter) (projectDir priorityFilter : string)
    (verbose : bool) (w : World) (e : error) :
  fst (genagents.runProjectMode registry projectDir priorityFilter verbose w)
    = Some e →
  (∃ err, os_ReadFile (filepath_Join [projectDir; "deployment.json"]) (fs w)
            = inl err ∧
          e = ErrorfW "failed to read deployment.json: %w" [] err) ∨
  (∃ data, os_ReadFile (filepath_Join [projectDir; "deployment.json"]) (fs w)
             = inr data ∧
     ((∃ err, json_Unmarshal_Deployment data = inl err ∧
              e = ErrorfW "failed to parse deployment.json: %w" [] err) ∨
      (∃ deployment, json_Unmarshal_Deployment data = inr deployment ∧
         ((∃ err, e = ErrorfW "failed to read agents: %w" [] err) ∨
          e = Errorf "no agents found in %s"
                [filepath_Join [projectDir; "agents"]] ∨
          (∃ target err,
             target ∈ Deployment.Targets deployment ∧
             e = ErrorfW "failed to generate %s: %w" [Target.Name target]
                   err))))).
Proof.
  unfold genagents.runProjectMode. intros Hrun.
  apply bind_fst in Hrun as (r & w0 & Hread & Hrun).
  cbv [os.ReadFile] in Hread. injection Hread as <- <-.
  destruct (os_ReadFile _ (fs w)) as [err|data].
  { injection Hrun as <-. left. by exists err. }
  right. exists data. split; [done|].
  destruct (json_Unmarshal_Deployment data) as [err|deployment].
  { injection Hrun as <-. left. by exists err. }
  right. exists deployment. split; [done|].
  apply bind_fst in Hrun as ([] & w1 & _ & Hrun).
  apply bind_fst in Hrun as ([err|agentList] & w2 & _ & Hrun).
  { injection Hrun as <-. left. by exists err. }
  destruct (decide (length agentList = 0%nat)).
  { injection Hrun as <-. right. by left. }
  apply bind_fst in Hrun as ([] & w3 & _ & Hrun).
  right. right. by apply processEachTarget_error in Hrun.
Qed.

Lemma X20_runProjectMode_errors_witness :
  let w := RefLaws.world RefLaws.lib RefLaws.cwd [] in
  let e := ErrorfW "failed to read deployment.json: %w" [] Ref.ENOENT in
  fst (genagents.runProjectMode (D:=RefLaws.deps _) (RefLaws.registry RefLaws.lib)
         "proj" EmptyString false w) = Some e ∧
  ((∃ err, Ref.ReadFile (Ref.Join ["proj"; "deployment.json"]) (fs w) = inl err ∧
           e = ErrorfW "failed to read deployment.json: %w" [] err) ∨
   (∃ data, Ref.ReadFile (Ref.Join ["proj"; "deployment.json"]) (fs w)
              = inr data ∧
      ((∃ err, Ref.Unmarshal_Deployment data = inl err ∧
               e = ErrorfW "failed to parse deployment.json: %w" [] err) ∨
       (∃ deployment, Ref.Unmarshal_Deployment data = inr deployment ∧
          ((∃ err, e = ErrorfW "failed to read agents: %w" [] err) ∨
           e = Errorf "no agents found in %s" [Ref.Join ["proj"; "agents"]] ∨
           (∃ target err,
              target ∈ Deployment.Targets deployment ∧
              e = ErrorfW "failed to generate %s: %w" [Target.Name target]
                    err)))))).
Proof.
  intros w e.
  assert (H : fst (genagents.runProjectMode (D:=RefLaws.deps _)
                     (RefLaws.registry RefLaws.lib) "proj" EmptyString false w)
              = Some e) by (vm_compute; reflexivity).
  split; [exact H|].
  exact (X20_runProjectMode_errors (L:=RefLaws.lib) (D:=RefLaws.deps _)
           (RefLaws.registry RefLaws.lib) "proj" EmptyString false w e H).
Defined.

Lemma WriteFullConfig_outcomes {L : GoLib} {D : Deps} (agents : list Agent.t)
    (path : string) (w : World) :
  let '(r, w') := agentkit.WriteFullConfig agents path w in
  output w' = output w ∧
  match r with
  | None =>
      ∃ data,
        json_MarshalIndent_Config (fst (agentkit.GenerateFullConfig agents w))
          = inr data ∧
        snd <$> fileAt (fs w') path = Some (data +:+ String "010" EmptyString)
  | Some e =>
      (∃ err, e = MarshalError "agentkit" err ∧ fs w' = fs w) ∨
      (∃ err, e = WriteError path err)
  end.
Proof.
  unfold agentkit.WriteFullConfig.
  pose proof (GenerateFullConfig_world agents w) as Hw. revert Hw.
  cbv [mbind M_bind].
  destruct (agentkit.GenerateFullConfig agents w) as [cfg w0].
  cbn [fst snd]. intros (Hfs & Hout).
  destruct (json_MarshalIndent_Config cfg) as [err|data].
  { split; [done|]. left. by exists err. }
  cbv [mbind M_bind mret M_ret os.MkdirAll os.WriteFile].
  destruct (os_MkdirAll (filepath_Dir path) core_DefaultDirMode (fs w0))
    as [[e1|] s1]; cbn [fs orders output].
  { split; [done|]. right. by exists e1. }
  destruct (os_WriteFile path _ core_DefaultFileMode s1) as [[e2|] s2] eqn:Hwr;
    cbn [fs orders output].
  { split; [done|]. right. by exists e2. }
  split; [done|]. exists data. split; [done|]. by eapply WriteFile_data.
Qed.

(** X21.  A target of the platform "agentkit-local".  The adapter
    registry plays no part: the run is the same with any registry.  On
    success the file config.json of the output directory holds the
    encoding of the full config of the agents followed by a newline, and
    one line "Generated agentkit config" with its path is printed; an
    error is a [MarshalError] of the format "agentkit", with the file
    system untouched, or a [WriteError] with the path of config.json,
    and nothing is printed. *)
Theorem X21_agentkit_local_target {L : GoLib} {D : Deps}
    (registry : gmap string core.Adapter) (teamName : string)
    (agentList : list Agent.t) (target : Target.t) (outputDir : string)
    (verbose : bool) (w : World) :
  Target.Platform target = "agentkit-local" →
  let configPath := filepath_Join [outputDir; "config.json"] in
  (∀ registry',
     genagents.generateForPlatform registry' teamName agentList target outputDir
       verbose w =
     genagents.generateForPlatform registry teamName agentList target outputDir
       verbose w) ∧
  let '(r, w') :=
    genagents.generateForPlatform registry teamName agentList target outputDir
      verbose w in
  match r with
  | None =>
      (∃ data,
         json_MarshalIndent_Config
           (fst (agentkit.GenerateFullConfig agentList w)) = inr data ∧
         snd <$> fileAt (fs w') configPath
           = Some (data +:+ String "010" EmptyString)) ∧
      output w' = output w ++
        [Stdout "Generated agentkit config: %s\n" [argString configPath]]
  | Some e =>
      ((∃ err, e = MarshalError "agentkit" err ∧ fs w' = fs w) ∨
       (∃ err, e = WriteError configPath err)) ∧
      output w' = output w
  end.
Proof.
  intros Hp configPath.
  assert (Hrun : ∀ reg,
    genagents.generateForPlatform reg teamName agentList target outputDir
      verbose w =
    (r ← agentkit.WriteFullConfig agentList configPath;
     match r with
     | Some err => mret (Some err)
     | None =>
         fmt.Printf "Generated agentkit config: %s\n" [argString configPath];;
         mret None
     end) w).
  { intros reg. unfold genagents.generateForPlatform. rewrite Hp.
    rewrite !decide_False by discriminate. by rewrite decide_True. }
  split; [intros registry'; by rewrite !Hrun|].
  rewrite Hrun. cbv [mbind M_bind mret M_ret].
  pose proof (WriteFullConfig_outcomes agentList configPath w) as Hw.
  destruct (agentkit.WriteFullConfig agentList configPath w) as [[e|] w1].
  - destruct Hw as (Hout & He). by split.
  - destruct Hw as (Hout & data & Hd & Hf).
    cbv [fmt.Printf fmt.emit]. cbn [fs output]. split; [by exists data|].
    by rewrite Hout.
Qed.

Lemma X21_agentkit_local_target_witness :
  let w := RefLaws.world RefLaws.lib RefLaws.cwd [[0%nat]] in
  let run := genagents.generateForPlatform (D:=RefLaws.deps _)
               (RefLaws.registry RefLaws.lib) "team" [Sample.reviewer]
               Sample.local "out/local" false w in
  Target.Platform Sample.local = "agentkit-local" ∧
  fst run = None ∧
  (∀ registry',
     genagents.generateForPlatform (D:=RefLaws.deps _) registry' "team"
       [Sample.reviewer] Sample.local "out/local" false w = run) ∧
  output (snd run) =
    [Stdout "Generated agentkit config: %s\n"
       [argString "out/local/config.json"]].
Proof.
  intros w run.
  assert (H : Target.Platform Sample.local = "agentkit-local") by reflexivity.
  assert (Hr : fst run = None) by (vm_compute; reflexivity).
  split; [exact H|]. split; [exact Hr|].
  destruct (X21_agentkit_local_target (L:=RefLaws.lib) (D:=RefLaws.deps _)
              (RefLaws.registry RefLaws.lib) "team" [Sample.reviewer]
              Sample.local "out/local" false w H) as [Hreg Hrun].
  split; [exact Hreg|]. fold run in Hrun.
  destruct run as [[e|] w1]; [discriminate Hr|]. exact (proj2 Hrun).
Defined.

(** ** A target of the platform "aws-agentcore" *)


